(** * The latency metrics aggregator of the voice agent

    A shallow embedding of [metrics_logger.py] (class [MetricsLogger]) and
    the properties of its session recorder and report exporter.

    Python dictionaries are finite maps from strings to dynamically typed
    values ([gmap string value]); a finite float is an exact rational, so
    rounding is outside the model, while the two infinities and NaN are
    kept because the code uses [float('inf')] as a sentinel.  Integers are
    unbounded, and one that no float can hold raises [OverflowError] where
    Python converts it: next to a float in a sum, in a division, and in a
    format with decimals.  Methods are
    computations in a state-and-exception monad over the logger instance
    together with the two parts of the world it writes to: the log and the
    output directory.  The clock and the fate of each write are inputs of
    the method that reads or attempts them.  A record handed to
    [add_turn_metrics] is taken by value, and the columns of a table are
    not ordered.

    The second part embeds the two accessors of the logger and the code
    around it: the self-test and the environment test of [test_agent.py],
    [generate_sample_metrics.py], the timestamps and the session of
    [voice_agent.py], and the checks and the deployment of
    [deployment.py].  What such code draws from the world (the random
    source, the environment, the fate of a child process or of an import)
    is an input of its model. *)

From Stdlib Require Import QArith.
From stdpp Require Import gmap strings list fin_maps pretty.

Local Open Scope string_scope.
Local Open Scope Z_scope.
Local Open Scope list_scope.

(** ** Values *)

(** [datetime.datetime], naive, as [datetime.now()] returns it. *)
Record datetime := mkDatetime {
  year : Z; month : Z; day : Z;
  hour : Z; minute : Z; second : Z; microsecond : Z
}.

(** A Python [float]: a finite value, the infinities, or NaN. *)
Inductive pyfloat :=
| Fin (q : Q)
| PInf
| NInf
| NaN.

(** The values that turn records, the session dictionary and the summary
    overlay hold ([Dict[str, Any]]). *)
#[warnings="-register-all"]
Inductive value :=
| VNone
| VBool (b : bool)
| VInt (z : Z)
| VFloat (f : pyfloat)
| VStr (s : string)
| VTime (t : datetime)
| VDict (items : list (string * value)).

Inductive exn :=
| TypeError
| ValueError
| KeyError
| OSError
| ZeroDivisionError
| OverflowError
| OtherError (name : string).

Inductive outcome (A : Type) :=
| Returned (a : A)
| Raised (e : exn).
Arguments Returned {A} a.
Arguments Raised {A} e.

Global Instance outcome_ret : MRet outcome := λ A a, Returned a.
Global Instance outcome_bind : MBind outcome := λ A B f r,
  match r with
  | Returned a => f a
  | Raised e => Raised e
  end.

(** *** Numbers *)

(** [bool] is a subclass of [int], and [int] and [float] compare by value. *)
Definition num_of (v : value) : option pyfloat :=
  match v with
  | VBool b => Some (Fin (inject_Z (if b then 1 else 0)))
  | VInt z => Some (Fin (inject_Z z))
  | VFloat f => Some f
  | _ => None
  end.

Definition Qltb (x y : Q) : bool :=
  match (x ?= y)%Q with Lt => true | _ => false end.

(** IEEE comparison: every comparison with NaN is false. *)
Definition flt_ltb (a b : pyfloat) : bool :=
  match a, b with
  | NaN, _ | _, NaN => false
  | Fin x, Fin y => Qltb x y
  | NInf, NInf => false
  | NInf, _ => true
  | _, NInf => false
  | PInf, _ => false
  | Fin _, PInf => true
  end.

Definition flt_add (a b : pyfloat) : pyfloat :=
  match a, b with
  | NaN, _ | _, NaN => NaN
  | Fin x, Fin y => Fin (x + y)
  | PInf, NInf | NInf, PInf => NaN
  | PInf, _ | _, PInf => PInf
  | NInf, _ | _, NInf => NInf
  end.

(** Division by a positive count, the only division the logger performs. *)
Definition flt_div_count (a : pyfloat) (n : nat) : pyfloat :=
  match a with
  | Fin x => Fin (x / inject_Z (Z.of_nat n))
  | _ => a
  end.

(** The integers that [float] can hold: the conversion rounds to the
    nearest double and raises [OverflowError] from [2^1024 - 2^970] on,
    the first integer that rounds to [2^1024]. *)
Definition float_limit : Z := 2 ^ 1024 - 2 ^ 970.
Global Arguments float_limit : simpl never.

(** The integer that a [bool] or an [int] is. *)
Definition int_of (v : value) : option Z :=
  match v with
  | VBool b => Some (if b then 1 else 0)
  | VInt z => Some z
  | _ => None
  end.

(** The operand of a float operation, converted. *)
Definition to_float (v : value) : outcome pyfloat :=
  match v with
  | VFloat f => Returned f
  | _ =>
      match int_of v with
      | Some z =>
          if Z.abs z <? float_limit then Returned (Fin (inject_Z z))
          else Raised OverflowError
      | None => Raised TypeError
      end
  end.

(** [a + b] between numbers: integers add exactly, and next to a float
    the integer operand is converted first. *)
Definition py_add (a b : value) : outcome value :=
  match int_of a, int_of b with
  | Some x, Some y => Returned (VInt (x + y))
  | _, _ =>
      match num_of a, num_of b with
      | Some _, Some _ =>
          x ← to_float a;
          y ← to_float b;
          mret (VFloat (flt_add x y))
      | _, _ => Raised TypeError
      end
  end.

(** [total / n] for a count [n]: a float divides as a float; an integer
    divides exactly and the quotient is rounded, which overflows from
    [float_limit] on. *)
Definition py_div_count (total : value) (n : nat) : outcome value :=
  match n with
  | O => Raised ZeroDivisionError
  | _ =>
      match total with
      | VFloat f => Returned (VFloat (flt_div_count f n))
      | _ =>
          match int_of total with
          | Some z =>
              if Z.abs z <? float_limit * Z.of_nat n
              then Returned (VFloat (flt_div_count (Fin (inject_Z z)) n))
              else Raised OverflowError
          | None => Raised TypeError
          end
      end
  end.

(** [a < b]; a non-numeric operand against a number is a [TypeError]. *)
Definition py_lt (a b : value) : outcome bool :=
  match num_of a, num_of b with
  | Some x, Some y => Returned (flt_ltb x y)
  | _, _ => Raised TypeError
  end.

(** [a > b] *)
Definition py_gt (a b : value) : outcome bool := py_lt b a.

(** [a + 1], as [+= 1] computes it. *)
Definition py_succ (a : value) : outcome value :=
  match a with
  | VBool b => Returned (VInt ((if b then 1 else 0) + 1))
  | VInt z => Returned (VInt (z + 1))
  | VFloat f => Returned (VFloat (flt_add f (Fin 1)))
  | _ => Raised TypeError
  end.

(** Truth value of an object, as [if] and [not] test it. *)
Definition truthy (v : value) : bool :=
  match v with
  | VNone => false
  | VBool b => b
  | VInt z => negb (z =? 0)
  | VFloat (Fin q) => negb (Qeq_bool q 0)
  | VFloat _ => true
  | VStr s => negb (String.eqb s "")
  | VTime _ => true
  | VDict items => match items with [] => false | _ => true end
  end.

(** [v == float('inf')] *)
Definition is_inf (v : value) : bool :=
  match v with
  | VFloat PInf => true
  | _ => false
  end.

(** *** Dates *)

Definition digit (z : Z) : Ascii.ascii :=
  Ascii.ascii_of_nat (48 + Z.to_nat (z mod 10))%nat.

(** [z] in decimal, zero-padded to [w] digits. *)
Fixpoint zpad (w : nat) (z : Z) : string :=
  match w with
  | O => ""
  | S w' => zpad w' (z / 10) +:+ String (digit z) ""
  end.

(** [t.strftime("%Y%m%d_%H%M%S")] *)
Definition strftime (t : datetime) : string :=
  zpad 4 (year t) +:+ zpad 2 (month t) +:+ zpad 2 (day t) +:+ "_" +:+
  zpad 2 (hour t) +:+ zpad 2 (minute t) +:+ zpad 2 (second t).

Definition is_leap (y : Z) : bool :=
  (y mod 4 =? 0) && (negb (y mod 100 =? 0) || (y mod 400 =? 0)).

Definition days_before_year (y : Z) : Z :=
  let p := y - 1 in p * 365 + p / 4 - p / 100 + p / 400.

Definition days_before_month (y m : Z) : Z :=
  nth (Z.to_nat m) [0; 0; 31; 59; 90; 120; 151; 181; 212; 243; 273; 304; 334] 0
  + (if (2 <? m) && is_leap y then 1 else 0).

Definition toordinal (t : datetime) : Z :=
  days_before_year (year t) + days_before_month (year t) (month t) + day t.

Definition to_microseconds (t : datetime) : Z :=
  (((toordinal t * 24 + hour t) * 60 + minute t) * 60 + second t) * 1000000
  + microsecond t.

(** [(b - a).total_seconds()] *)
Definition total_seconds (b a : datetime) : pyfloat :=
  Fin (inject_Z (to_microseconds b - to_microseconds a) / inject_Z 1000000).

(** ** The logger and the world around it *)

(** The three files [_save_to_excel] and [_save_as_csv_fallback] name, each
    [os.path.join(output_dir, f"...{session_id}...")], kept as their parts. *)
Inductive path :=
| ExcelPath (dir : string) (session_id : value)
| SessionCsvPath (dir : string) (session_id : value)
| TurnCsvPath (dir : string) (session_id : value).

(** [pd.DataFrame(records)]: one row per dictionary, in the order of the
    list; a row maps a column name to its cell. *)
Definition table := list (gmap string value).

Inductive artifact :=
| Workbook (sheets : list (string * table))
| Csv (content : table).

Inductive message :=
| MsgStarted (session_id : value)
| MsgNotStarted
| MsgAddedTurn (turn_number : value)
| MsgNoActiveSession
| MsgSaved (filepath : path)
| MsgExcelFailed (e : exn)
| MsgCsvSaved (dir : string)
| MsgCsvFailed (e : exn)
| MsgEnded (session_id : value)
| MsgDuration (duration total_turns : value).

Inductive level := INFO | WARNING | ERROR.

(** The instance attributes of [MetricsLogger], then what its methods leave
    behind: the records handed to [logger], oldest first, and the artifacts
    written to completion, oldest first. *)
Record MetricsLogger := mkLogger {
  output_dir : string;
  session_data : gmap string value;
  turn_metrics : list (gmap string value);
  session_start_time : option datetime;
  log : list (level * message);
  files : list (path * artifact)
}.

(** [MetricsLogger(output_dir)] *)
Definition new_logger (dir : string) : MetricsLogger :=
  mkLogger dir ∅ [] None [] [].

(** A method body: it runs from a state and either returns or raises, and
    in both cases leaves the state its assignments made. *)
Definition M (A : Type) : Type := MetricsLogger → outcome A * MetricsLogger.

Global Instance M_ret : MRet M := λ A a self, (Returned a, self).
Global Instance M_bind : MBind M := λ A B f m self,
  match m self with
  | (Returned a, self') => f a self'
  | (Raised e, self') => (Raised e, self')
  end.

Definition lift {A} (r : outcome A) : M A := λ self, (r, self).
Definition get_self : M MetricsLogger := λ self, (Returned self, self).
Definition modify (f : MetricsLogger → MetricsLogger) : M unit :=
  λ self, (Returned tt, f self).

Definition set_session_data (d : gmap string value) (self : MetricsLogger) :=
  mkLogger (output_dir self) d (turn_metrics self) (session_start_time self)
           (log self) (files self).
Definition set_turn_metrics (l : list (gmap string value)) (self : MetricsLogger) :=
  mkLogger (output_dir self) (session_data self) l (session_start_time self)
           (log self) (files self).
Definition set_session_start_time (t : option datetime) (self : MetricsLogger) :=
  mkLogger (output_dir self) (session_data self) (turn_metrics self) t
           (log self) (files self).
Definition add_log (r : level * message) (self : MetricsLogger) :=
  mkLogger (output_dir self) (session_data self) (turn_metrics self)
           (session_start_time self) (log self ++ [r]) (files self).
Definition add_file (p : path) (a : artifact) (self : MetricsLogger) :=
  mkLogger (output_dir self) (session_data self) (turn_metrics self)
           (session_start_time self) (log self) (files self ++ [(p, a)]).

Definition logger_info (m : message) : M unit := modify (add_log (INFO, m)).
Definition logger_warning (m : message) : M unit := modify (add_log (WARNING, m)).
Definition logger_error (m : message) : M unit := modify (add_log (ERROR, m)).

(** [self.session_data[k]] *)
Definition session_data_get (k : string) : M value := λ self,
  match session_data self !! k with
  | Some v => (Returned v, self)
  | None => (Raised KeyError, self)
  end.

(** [self.session_data[k] = v] *)
Definition session_data_set (k : string) (v : value) : M unit :=
  modify (λ self, set_session_data (<[k := v]> (session_data self)) self).

(** [self.session_data[k] += 1] *)
Definition session_data_incr (k : string) : M unit :=
  v ← session_data_get k;
  v' ← lift (py_succ v);
  session_data_set k v'.

(** [d.get(k, dflt)] *)
Definition dict_get (d : gmap string value) (k : string) (dflt : value) : value :=
  default dflt (d !! k).

Definition skip : M unit := mret tt.
Definition when (b : bool) (m : M unit) : M unit := if b then m else skip.

(** ** Session recorder *)

Definition initial_session_data (now : datetime) : gmap string value :=
  list_to_map
    [("session_id", VStr (strftime now));
     ("start_time", VTime now);
     ("end_time", VNone);
     ("duration", VNone);
     ("total_turns", VInt 0);
     ("successful_turns", VInt 0);
     ("interrupted_turns", VInt 0);
     ("avg_latency", VInt 0);
     ("avg_eou_delay", VInt 0);
     ("avg_ttft", VInt 0);
     ("avg_ttfb", VInt 0);
     ("max_latency", VInt 0);
     ("min_latency", VFloat PInf);
     ("high_latency_turns", VInt 0);
     ("config", VDict [])].

(** [start_session], with [now] the reading of [datetime.now()]. *)
Definition start_session (now : datetime) : M unit :=
  modify (set_session_start_time (Some now)) ;;
  modify (set_session_data (initial_session_data now)) ;;
  modify (set_turn_metrics []) ;;
  sid ← session_data_get "session_id";
  logger_info (MsgStarted sid).

(** What [add_turn_metrics] appends: the caller's dictionary with the two
    stamps assigned. *)
Definition stamp (metrics : gmap string value) (now : datetime) (sid : value)
  : gmap string value :=
  <["session_id" := sid]> (<["timestamp" := VTime now]> metrics).

(** The block under [if total_latency > 0:]. *)
Definition update_latency_statistics (total_latency : value) : M unit :=
  mx ← session_data_get "max_latency";
  above ← lift (py_gt total_latency mx);
  when above (session_data_set "max_latency" total_latency) ;;
  mn ← session_data_get "min_latency";
  below ← lift (py_lt total_latency mn);
  when below (session_data_set "min_latency" total_latency) ;;
  high ← lift (py_gt total_latency (VFloat (Fin 2)));
  when high (session_data_incr "high_latency_turns").

(** [add_turn_metrics(metrics)], with [now] the reading of [datetime.now()]. *)
Definition add_turn_metrics (metrics : gmap string value) (now : datetime)
  : M unit :=
  self ← get_self;
  match session_start_time self with
  | None => logger_warning MsgNotStarted
  | Some _ =>
      sid ← session_data_get "session_id";
      let metrics := stamp metrics now sid in
      modify (λ self, set_turn_metrics (turn_metrics self ++ [metrics]) self) ;;
      session_data_incr "total_turns" ;;
      (if truthy (dict_get metrics "interrupted" (VBool false))
       then session_data_incr "interrupted_turns"
       else session_data_incr "successful_turns") ;;
      let total_latency := dict_get metrics "total_latency" (VInt 0) in
      positive ← lift (py_gt total_latency (VInt 0));
      when positive (update_latency_statistics total_latency) ;;
      logger_info (MsgAddedTurn (dict_get metrics "turn_number" (VStr "Unknown")))
  end.

(** *** Averages *)

(** [[x for x in l if p(x)]], where the test may raise. *)
Fixpoint filter_raising (p : value → outcome bool) (l : list value)
  : outcome (list value) :=
  match l with
  | [] => Returned []
  | x :: rest =>
      keep ← p x;
      kept ← filter_raising p rest;
      mret (if keep : bool then x :: kept else kept)
  end.

(** [[t for t in turns if not t.get('interrupted', False)]] *)
Definition valid_turns_of (turns : list (gmap string value))
  : list (gmap string value) :=
  List.filter (λ t, negb (truthy (dict_get t "interrupted" (VBool false)))) turns.

(** [[t.get(metric, 0) for t in valid_turns if t.get(metric, 0) > 0]] *)
Definition positive_values (metric : string) (valid_turns : list (gmap string value))
  : outcome (list value) :=
  filter_raising (λ v, py_gt v (VInt 0))
                 (map (λ t, dict_get t metric (VInt 0)) valid_turns).

(** [sum(values)] from [start], left to right. *)
Definition sum_from (start : value) (values : list value) : outcome value :=
  foldl (λ acc v, a ← acc; py_add a v) (Returned start) values.

(** [sum(values)], from the integer 0. *)
Definition py_sum (values : list value) : outcome value := sum_from (VInt 0) values.

(** [sum(values) / len(values)] *)
Definition py_mean (values : list value) : outcome value :=
  total ← py_sum values;
  py_div_count total (length values).

Definition metrics_to_avg : list string :=
  ["total_latency"; "eou_delay"; "ttft"; "ttfb"].

(** One round of the loop of [_calculate_averages]. *)
Definition average_metric (valid_turns : list (gmap string value)) (metric : string)
  : M unit :=
  values ← lift (positive_values metric valid_turns);
  match values with
  | [] => skip
  | _ =>
      let avg_key := "avg_" +:+ metric in
      avg ← lift (py_mean values);
      session_data_set avg_key avg
  end.

Fixpoint for_each {A} (l : list A) (body : A → M unit) : M unit :=
  match l with
  | [] => skip
  | x :: rest => body x ;; for_each rest body
  end.

Definition _calculate_averages : M unit :=
  self ← get_self;
  let valid_turns := valid_turns_of (turn_metrics self) in
  match valid_turns with
  | [] => skip
  | _ => for_each metrics_to_avg (average_metric valid_turns)
  end.

(** ** Report exporter *)

(** The writes that can fail, and the fault (if any) each meets during one
    call of [end_session]. *)
Inductive io_op :=
| OpenWriter (p : path)
| ToExcel (sheet_name : string)
| CloseWriter (p : path)
| ToCsv (p : path).

Definition io_faults := io_op → option exn.

Definition io_step (io : io_faults) (op : io_op) : M unit :=
  match io op with
  | Some e => lift (Raised e)
  | None => skip
  end.

(** [try: body  except Exception as e: handler(e)] *)
Definition try_except {A} (body : M A) (handler : exn → M A) : M A := λ self,
  match body self with
  | (Returned a, self') => (Returned a, self')
  | (Raised e, self') => handler e self'
  end.

(** [min(values)] and [max(values)]: the first least, the first greatest. *)
Fixpoint best_from (better : value → value → outcome bool) (best : value)
  (rest : list value) : outcome value :=
  match rest with
  | [] => Returned best
  | x :: rest' =>
      b ← better x best;
      best_from better (if b : bool then x else best) rest'
  end.

Definition py_min (values : list value) : outcome value :=
  match values with
  | [] => Raised ValueError
  | v :: rest => best_from py_lt v rest
  end.

Definition py_max (values : list value) : outcome value :=
  match values with
  | [] => Raised ValueError
  | v :: rest => best_from py_gt v rest
  end.

Definition py_len (values : list value) : value := VInt (Z.of_nat (length values)).

Definition stat_row (name : string) (average mn mx count : value)
  : gmap string value :=
  list_to_map [("Metric", VStr name); ("Average", average); ("Min", mn);
               ("Max", mx); ("Count", count)].

(** The row of 'Total Latency', computed without a guard of its own. *)
Definition unguarded_row (name : string) (values : list value)
  : outcome (gmap string value) :=
  average ← py_mean values;
  mn ← py_min values;
  mx ← py_max values;
  mret (stat_row name average mn mx (py_len values)).

(** The rows of the other three metrics: [... if values else 0]. *)
Definition guarded_row (name : string) (values : list value)
  : outcome (gmap string value) :=
  match values with
  | [] => Returned (stat_row name (VInt 0) (VInt 0) (VInt 0) (py_len values))
  | _ => unguarded_row name values
  end.

(** [{'Metric': name, 'Count': len([l for l in latencies if test(l)])}] *)
Definition threshold_row (name : string) (test : value → outcome bool)
  (latencies : list value) : outcome (gmap string value) :=
  hits ← filter_raising test latencies;
  mret (list_to_map [("Metric", VStr name); ("Count", py_len hits)]).

(** The rows of [analysis_data]. *)
Definition analysis_rows (valid_turns : list (gmap string value))
  : outcome table :=
  latencies ← positive_values "total_latency" valid_turns;
  eou_delays ← positive_values "eou_delay" valid_turns;
  ttfts ← positive_values "ttft" valid_turns;
  ttfbs ← positive_values "ttfb" valid_turns;
  overall ← match latencies with
            | [] => Returned []
            | _ =>
                r1 ← unguarded_row "Total Latency" latencies;
                r2 ← guarded_row "EOU Delay" eou_delays;
                r3 ← guarded_row "TTFT" ttfts;
                r4 ← guarded_row "TTFB" ttfbs;
                mret [r1; r2; r3; r4]
            end;
  t1 ← threshold_row "Turns > 2s latency" (λ l, py_gt l (VFloat (Fin 2))) latencies;
  t2 ← threshold_row "Turns > 1s latency" (λ l, py_gt l (VFloat (Fin 1))) latencies;
  t3 ← threshold_row "Turns < 0.5s latency" (λ l, py_lt l (VFloat (Fin (1 # 2)))) latencies;
  mret (overall ++ [t1; t2; t3]).

(** [_create_latency_analysis_sheet(writer)]; the sheets written to
    [writer] so far go in and come out. *)
Definition _create_latency_analysis_sheet (io : io_faults)
  (writer : list (string * table)) : M (list (string * table)) :=
  self ← get_self;
  match turn_metrics self with
  | [] => mret writer
  | _ =>
      let valid_turns := valid_turns_of (turn_metrics self) in
      match valid_turns with
      | [] => mret writer
      | _ =>
          analysis_data ← lift (analysis_rows valid_turns);
          io_step io (ToExcel "Latency_Analysis") ;;
          mret (writer ++ [("Latency_Analysis", analysis_data)])
      end
  end.

(** [_save_as_csv_fallback(session_id)] *)
Definition _save_as_csv_fallback (io : io_faults) (session_id : value) : M unit :=
  try_except
    (self ← get_self;
     let session_csv := SessionCsvPath (output_dir self) session_id in
     io_step io (ToCsv session_csv) ;;
     modify (add_file session_csv (Csv [session_data self])) ;;
     match turn_metrics self with
     | [] => skip
     | _ =>
         let turn_csv := TurnCsvPath (output_dir self) session_id in
         io_step io (ToCsv turn_csv) ;;
         modify (add_file turn_csv (Csv (turn_metrics self)))
     end ;;
     logger_info (MsgCsvSaved (output_dir self)))
    (λ e, logger_error (MsgCsvFailed e)).

(** The [with pd.ExcelWriter(filepath, engine='openpyxl') as writer:] block
    of [_save_to_excel] and the line after it.  The workbook reaches
    [files] when the block completes; what a block that raised leaves at
    the path is not recorded. *)
Definition write_workbook (io : io_faults) (filepath : path) : M unit :=
  self ← get_self;
  io_step io (OpenWriter filepath) ;;
  io_step io (ToExcel "Session_Summary") ;;
  let writer := [("Session_Summary", [session_data self])] in
  writer ← match turn_metrics self with
           | [] => mret writer
           | _ =>
               io_step io (ToExcel "Turn_Details") ;;
               mret (writer ++ [("Turn_Details", turn_metrics self)])
           end;
  writer ← _create_latency_analysis_sheet io writer;
  io_step io (CloseWriter filepath) ;;
  modify (add_file filepath (Workbook writer)) ;;
  logger_info (MsgSaved filepath).

(** [_save_to_excel()] *)
Definition _save_to_excel (io : io_faults) : M unit :=
  session_id ← session_data_get "session_id";
  self ← get_self;
  let filepath := ExcelPath (output_dir self) session_id in
  try_except
    (write_workbook io filepath)
    (λ e,
     logger_error (MsgExcelFailed e) ;;
     _save_as_csv_fallback io session_id).

(** ** Closing a session *)

(** [(a - b).total_seconds()] for [a] a [datetime]. *)
Definition elapsed (a b : value) : outcome value :=
  match a, b with
  | VTime ta, VTime tb => Returned (VFloat (total_seconds ta tb))
  | _, _ => Raised TypeError
  end.

(** [f"{v:.2f}"]: whether the format specification applies to [v].  An
    integer is converted to a float first. *)
Definition format_2f (v : value) : outcome unit :=
  match v with
  | VBool _ | VFloat _ | VTime _ => Returned tt
  | VInt z => if Z.abs z <? float_limit then Returned tt else Raised OverflowError
  | VStr _ => Raised ValueError
  | VNone | VDict _ => Raised TypeError
  end.

(** [self.session_data.update(session_summary)] *)
Definition update (overlay : gmap string value) : M unit :=
  modify (λ self, set_session_data (overlay ∪ session_data self) self).

(** [end_session(session_summary)], with [now] the reading of
    [datetime.now()] and [io] the fate of the writes. *)
Definition end_session (session_summary : option (gmap string value))
  (now : datetime) (io : io_faults) : M unit :=
  self ← get_self;
  match session_start_time self with
  | None => logger_warning MsgNoActiveSession
  | Some _ =>
      session_data_set "end_time" (VTime now) ;;
      end_time ← session_data_get "end_time";
      start_time ← session_data_get "start_time";
      duration ← lift (elapsed end_time start_time);
      session_data_set "duration" duration ;;
      match session_summary with
      | Some overlay =>
          if bool_decide (size overlay = 0%nat) then skip else update overlay
      | None => skip
      end ;;
      self ← get_self;
      match turn_metrics self with
      | [] => skip
      | _ => _calculate_averages
      end ;;
      min_latency ← session_data_get "min_latency";
      when (is_inf min_latency) (session_data_set "min_latency" (VInt 0)) ;;
      _save_to_excel io ;;
      session_id ← session_data_get "session_id";
      logger_info (MsgEnded session_id) ;;
      duration ← session_data_get "duration";
      lift (format_2f duration) ;;
      total_turns ← session_data_get "total_turns";
      logger_info (MsgDuration duration total_turns)
  end.

(** A fault-free run of the exporter. *)
Definition no_faults : io_faults := λ _, None.

(** ** Runs *)

(** The state a call leaves, whether it returned or raised. *)
Definition exec {A} (m : M A) (self : MetricsLogger) : MetricsLogger := (m self).2.

(** A caller that admits the records of [calls] one after the other, each
    with the reading of the clock at its admission, and carries on after a
    call that raised. *)
Definition add_turns (calls : list (gmap string value * datetime))
  (self : MetricsLogger) : MetricsLogger :=
  foldl (λ self call, exec (add_turn_metrics call.1 call.2) self) self calls.

(** [start_session()] at [start], then the calls of [calls]. *)
Definition session (start : datetime) (calls : list (gmap string value * datetime))
  (self : MetricsLogger) : MetricsLogger :=
  add_turns calls (exec (start_session start) self).

(** ** The history of a session, recomputed *)

Definition flt_le (a b : pyfloat) : Prop :=
  match a, b with
  | NaN, _ | _, NaN => False
  | NInf, _ => True
  | _, PInf => True
  | Fin x, Fin y => (x <= y)%Q
  | _, _ => False
  end.

(** [a <= b] between numbers, neither of them NaN. *)
Definition value_le (a b : value) : Prop :=
  ∃ x y, num_of a = Some x ∧ num_of b = Some y ∧ flt_le x y.

Definition is_maximum (m : value) (l : list value) : Prop :=
  m ∈ l ∧ ∀ x, x ∈ l → value_le x m.

Definition is_minimum (m : value) (l : list value) : Prop :=
  m ∈ l ∧ ∀ x, x ∈ l → value_le m x.

(** [v] is a number strictly greater than [c]. *)
Definition exceeds (c : Q) (v : value) : bool :=
  match num_of v with
  | Some x => flt_ltb (Fin c) x
  | None => false
  end.

Definition is_interrupted (record : gmap string value) : bool :=
  truthy (dict_get record "interrupted" (VBool false)).

Definition total_latency_of (record : gmap string value) : value :=
  dict_get record "total_latency" (VInt 0).

(** The strictly positive [total_latency] values among [records], in the
    order of submission, interrupted turns included. *)
Definition positive_latencies (records : list (gmap string value)) : list value :=
  List.filter (exceeds 0) (map total_latency_of records).

Definition count {A} (p : A → bool) (l : list A) : Z :=
  Z.of_nat (length (List.filter p l)).

(** ** The invariant of an open session *)

(** The entries of [session_data] that [add_turn_metrics] assigns. *)
Definition running_keys : list string :=
  ["total_turns"; "successful_turns"; "interrupted_turns";
   "max_latency"; "min_latency"; "high_latency_turns"].

(** What holds of the logger after [start_session()] at [start] and the
    admissions of [calls]: the turn list is the stamped records in order,
    each counter is the count it stands for, and the extremes are those of
    the positive latencies seen, taken together with their initial values. *)
Record recorder_inv (start : datetime) (calls : list (gmap string value * datetime))
  (self : MetricsLogger) : Prop := {
  inv_started : session_start_time self = Some start;
  inv_session_id : session_data self !! "session_id" = Some (VStr (strftime start));
  inv_turn_metrics :
    turn_metrics self = map (λ c, stamp c.1 c.2 (VStr (strftime start))) calls;
  inv_total :
    session_data self !! "total_turns" = Some (VInt (Z.of_nat (length calls)));
  inv_interrupted :
    session_data self !! "interrupted_turns"
    = Some (VInt (count is_interrupted calls.*1));
  inv_successful :
    session_data self !! "successful_turns"
    = Some (VInt (count (λ r, negb (is_interrupted r)) calls.*1));
  inv_high :
    session_data self !! "high_latency_turns"
    = Some (VInt (count (exceeds 2) (positive_latencies calls.*1)));
  inv_max : ∃ mx, session_data self !! "max_latency" = Some mx
                  ∧ is_maximum mx (VInt 0 :: positive_latencies calls.*1);
  inv_min : ∃ mn, session_data self !! "min_latency" = Some mn
                  ∧ is_minimum mn (VFloat PInf :: positive_latencies calls.*1);
  inv_rest : ∀ k, k ∉ running_keys →
                  session_data self !! k = initial_session_data start !! k
}.

(** ** Closing and exporting, in closed form *)

Definition numeric (v : value) : bool :=
  match num_of v with Some _ => true | None => false end.

Definition well_typed (record : gmap string value) : bool :=
  forallb (λ metric, numeric (dict_get record metric (VInt 0))) metrics_to_avg.

Definition qualifying (metric : string) (records : list (gmap string value))
  : list value :=
  List.filter (exceeds 0)
              (map (λ t, dict_get t metric (VInt 0)) (valid_turns_of records)).

Definition arithmetic_mean (xs : list pyfloat) : pyfloat :=
  flt_div_count (foldl flt_add (Fin 0) xs) (length xs).

(** The integers among [values], added up in absolute value. *)
Definition int_mass (values : list value) : Z :=
  foldr (λ v acc, match int_of v with
                  | Some z => Z.abs z + acc
                  | None => acc
                  end) 0 values.

(** The integers among the qualifying values of each metric add up to
    less than [float_limit]: no conversion to a float can overflow while
    the metric is averaged. *)
Definition averageable (records : list (gmap string value)) : bool :=
  forallb (λ metric, int_mass (qualifying metric records) <? float_limit)
          metrics_to_avg.

(** The average of [values] exists: there is none to take, or
    [sum(values) / len(values)] returns. *)
Definition mean_defined (values : list value) : bool :=
  match values with
  | [] => true
  | _ => match py_mean values with
         | Returned _ => true
         | Raised _ => false
         end
  end.

Definition means_defined (records : list (gmap string value)) : bool :=
  forallb (λ metric, mean_defined (qualifying metric records)) metrics_to_avg.

Definition below (c : Q) (v : value) : bool :=
  match num_of v with
  | Some x => flt_ltb x (Fin c)
  | None => false
  end.

Definition avg_keys : list string :=
  ["avg_total_latency"; "avg_eou_delay"; "avg_ttft"; "avg_ttfb"].

(** What one round of the loop assigns. *)
Definition averaged (metric : string) (records : list (gmap string value))
  (d : gmap string value) : gmap string value :=
  match qualifying metric records with
  | [] => d
  | vs => <["avg_" +:+ metric := VFloat (arithmetic_mean (omap num_of vs))]> d
  end.

(** The loop of [_calculate_averages] on the session dictionary: the
    outcome of the loop over [metrics] and the dictionary it leaves, which
    holds the averages assigned before a mean could not be taken. *)
Fixpoint averages_from (metrics : list string) (records : list (gmap string value))
  (d : gmap string value) : outcome unit * gmap string value :=
  match metrics with
  | [] => (Returned tt, d)
  | metric :: rest =>
      match qualifying metric records with
      | [] => averages_from rest records d
      | vs => match py_mean vs with
              | Returned avg =>
                  averages_from rest records (<["avg_" +:+ metric := avg]> d)
              | Raised e => (Raised e, d)
              end
      end
  end.

(** The sheets of the workbook that [write_workbook] completes. *)
Definition turn_details_sheet (turns : list (gmap string value))
  : list (string * table) :=
  match turns with
  | [] => []
  | _ => [("Turn_Details", turns)]
  end.

Definition latency_analysis_sheet (turns : list (gmap string value))
  : list (string * table) :=
  match valid_turns_of turns with
  | [] => []
  | valid_turns =>
      match analysis_rows valid_turns with
      | Returned rows => [("Latency_Analysis", rows)]
      | Raised _ => []
      end
  end.

Definition sheets_written (self : MetricsLogger) : list (string * table) :=
  [("Session_Summary", [session_data self])]
  ++ turn_details_sheet (turn_metrics self)
  ++ latency_analysis_sheet (turn_metrics self).

(** The state [_save_as_csv_fallback] leaves. *)
Definition after_fallback (io : io_faults) (session_id : value) (self : MetricsLogger)
  : MetricsLogger :=
  let session_csv := SessionCsvPath (output_dir self) session_id in
  let turn_csv := TurnCsvPath (output_dir self) session_id in
  match io (ToCsv session_csv) with
  | Some e => add_log (ERROR, MsgCsvFailed e) self
  | None =>
      let self1 := add_file session_csv (Csv [session_data self]) self in
      match turn_metrics self with
      | [] => add_log (INFO, MsgCsvSaved (output_dir self)) self1
      | turns =>
          match io (ToCsv turn_csv) with
          | Some e => add_log (ERROR, MsgCsvFailed e) self1
          | None => add_log (INFO, MsgCsvSaved (output_dir self))
                            (add_file turn_csv (Csv turns) self1)
          end
      end
  end.

(** The state [_save_to_excel] leaves. *)
Definition after_export (io : io_faults) (session_id : value) (self : MetricsLogger)
  : MetricsLogger :=
  match write_workbook io (ExcelPath (output_dir self) session_id) self with
  | (Returned _, self') => self'
  | (Raised e, self') =>
      after_fallback io session_id (add_log (ERROR, MsgExcelFailed e) self')
  end.

(** The session dictionary as [end_session] leaves it. *)
Definition closing_data (session_summary : option (gmap string value))
  (now start : datetime) (records : list (gmap string value))
  (d : gmap string value) : gmap string value :=
  let d1 := default ∅ session_summary
            ∪ <["duration" := VFloat (total_seconds now start)]>
                (<["end_time" := VTime now]> d) in
  let d2 := averaged "ttfb" records
              (averaged "ttft" records
                 (averaged "eou_delay" records
                    (averaged "total_latency" records d1))) in
  if is_inf (default VNone (d2 !! "min_latency"))
  then <["min_latency" := VInt 0]> d2
  else d2.

Definition stamped (start : datetime) (calls : list (gmap string value * datetime))
  : list (gmap string value) :=
  map (λ c, stamp c.1 c.2 (VStr (strftime start))) calls.

(** The session dictionary once the overlay is merged. *)
Definition before_averages (session_summary : option (gmap string value))
  (now start : datetime) (d : gmap string value) : gmap string value :=
  default ∅ session_summary
  ∪ <["duration" := VFloat (total_seconds now start)]> (<["end_time" := VTime now]> d).

(** [v] is the number 0. *)
Definition value_is_zero (v : value) : Prop :=
  ∃ q, num_of v = Some (Fin q) ∧ (q == 0)%Q.

(** Clock readings for the examples. *)
Definition sample_start : datetime := mkDatetime 2024 3 7 9 5 0 0.
Definition sample_later : datetime := mkDatetime 2024 3 7 9 5 30 0.
Definition sample_end : datetime := mkDatetime 2024 3 7 9 6 0 0.

(** The artifacts [_save_as_csv_fallback] completes. *)
Definition fallback_files (io : io_faults) (session_id : value) (self : MetricsLogger)
  : list (path * artifact) :=
  let session_csv := SessionCsvPath (output_dir self) session_id in
  let turn_csv := TurnCsvPath (output_dir self) session_id in
  match io (ToCsv session_csv) with
  | Some _ => []
  | None =>
      (session_csv, Csv [session_data self])
      :: match turn_metrics self with
         | [] => []
         | turns =>
             match io (ToCsv turn_csv) with
             | Some _ => []
             | None => [(turn_csv, Csv turns)]
             end
         end
  end.

(** The artifacts [_save_to_excel] completes. *)
Definition exported_files (io : io_faults) (session_id : value) (self : MetricsLogger)
  : list (path * artifact) :=
  let filepath := ExcelPath (output_dir self) session_id in
  match write_workbook io filepath self with
  | (Returned _, _) => [(filepath, Workbook (sheets_written self))]
  | (Raised _, _) => fallback_files io session_id self
  end.

(** A row of the analysis for the values [q] of one metric. *)
Definition describes (name : string) (q : list value) (row : gmap string value)
  : Prop :=
  match q with
  | [] => row = stat_row name (VInt 0) (VInt 0) (VInt 0) (VInt 0)
  | _ => ∃ mn mx,
      row = stat_row name (VFloat (arithmetic_mean (omap num_of q))) mn mx
                     (VInt (Z.of_nat (length q)))
      ∧ is_minimum mn q ∧ is_maximum mx q
  end.

Definition threshold_of (name : string) (p : value → bool) (latencies : list value)
  : gmap string value :=
  list_to_map [("Metric", VStr name); ("Count", VInt (count p latencies))].

(** The Latency Analysis table of a session with the records [records]. *)
Definition latency_analysis_of (records : list (gmap string value)) (rows : table)
  : Prop :=
  let latencies := qualifying "total_latency" records in
  ∃ overall,
    rows = overall ++ [threshold_of "Turns > 2s latency" (exceeds 2) latencies;
                       threshold_of "Turns > 1s latency" (exceeds 1) latencies;
                       threshold_of "Turns < 0.5s latency" (below (1 # 2)) latencies]
    ∧ match latencies with
      | [] => overall = []
      | _ => ∃ r1 r2 r3 r4,
          overall = [r1; r2; r3; r4]
          ∧ describes "Total Latency" latencies r1
          ∧ describes "EOU Delay" (qualifying "eou_delay" records) r2
          ∧ describes "TTFT" (qualifying "ttft" records) r3
          ∧ describes "TTFB" (qualifying "ttfb" records) r4
      end.

Definition sample_calls : list (gmap string value * datetime) :=
  [({["total_latency" := VFloat (Fin (3 # 2)); "eou_delay" := VFloat (Fin (1 # 5))]},
    sample_later)].

(** A disk on which the workbook cannot be opened. *)
Definition workbook_fault : io_faults :=
  λ op, match op with OpenWriter _ => Some OSError | _ => None end.

(** * The rest of the logger, and its callers *)

(** ** What a method keeps *)

(** [m] relates every state to the one it leaves, returning or raising. *)
Definition keeps (R : relation MetricsLogger) {A} (m : M A) : Prop :=
  ∀ self, R self (m self).2.

(** The session as the caller of [add_turn_metrics] left it. *)
Definition same_session (a b : MetricsLogger) : Prop :=
  output_dir b = output_dir a
  ∧ turn_metrics b = turn_metrics a
  ∧ session_start_time b = session_start_time a.

(** The output directory as it was. *)
Definition same_files (a b : MetricsLogger) : Prop :=
  output_dir b = output_dir a ∧ files b = files a.

(** Nothing logged or written is lost. *)
Definition grows (a b : MetricsLogger) : Prop :=
  log a `prefix_of` log b ∧ files a `prefix_of` files b.

(** No entry of the session dictionary is removed. *)
Definition keeps_keys (a b : MetricsLogger) : Prop :=
  ∀ k, is_Some (session_data a !! k) → is_Some (session_data b !! k).

(** ** The two accessors *)

(** [get_average_latency()] *)
Definition get_average_latency : M value :=
  self ← get_self;
  let valid_turns := valid_turns_of (turn_metrics self) in
  latencies ← lift (positive_values "total_latency" valid_turns);
  match latencies with
  | [] => mret (VFloat (Fin 0))
  | _ => lift (py_mean latencies)
  end.

(** [get_session_stats()]; [stats] is a copy, so the assignment does not
    reach [session_data]. *)
Definition get_session_stats : M (gmap string value) :=
  self ← get_self;
  let stats := session_data self in
  current_avg_latency ← get_average_latency;
  mret (<["current_avg_latency" := current_avg_latency]> stats).

(** ** Closing more than once *)

(** A state that [end_session] can close: a started session that knows
    when it started, with the entries the closing reads, and with numbers
    for the metrics of the turns that are not interrupted. *)
Record closable (start : datetime) (self : MetricsLogger) : Prop := {
  cl_started : is_Some (session_start_time self);
  cl_start_time : session_data self !! "start_time" = Some (VTime start);
  cl_session_id : is_Some (session_data self !! "session_id");
  cl_min_latency : is_Some (session_data self !! "min_latency");
  cl_total_turns : is_Some (session_data self !! "total_turns");
  cl_typed : Forall (λ t, well_typed t = true) (valid_turns_of (turn_metrics self))
}.

(** ** Clients and the exceptions they meet *)

(** The entries [start_session] creates are all there. *)
Definition has_keys (self : MetricsLogger) : Prop :=
  ∀ now k, is_Some (initial_session_data now !! k) → is_Some (session_data self !! k).

(** From a state in [I], [m] leaves a state in [I], returning or raising,
    and raises nothing outside [P]. *)
Definition raises_only (I : MetricsLogger → Prop) (P : exn → Prop) {A} (m : M A)
  : Prop :=
  ∀ self, I self → I (m self).2 ∧ ∀ e, (m self).1 = Raised e → P e.

(** What a client can ask of a logger. *)
Inductive call :=
| Start (now : datetime)
| AddTurn (metrics : gmap string value) (now : datetime)
| End (session_summary : option (gmap string value)) (now : datetime)
      (io : io_faults)
| AverageLatency
| SessionStats.

Definition perform (c : call) : M unit :=
  match c with
  | Start now => start_session now
  | AddTurn metrics now => add_turn_metrics metrics now
  | End session_summary now io => end_session session_summary now io
  | AverageLatency => get_average_latency ;; skip
  | SessionStats => get_session_stats ;; skip
  end.

(** A client that carries on after a call that raised. *)
Definition client (calls : list call) (self : MetricsLogger) : MetricsLogger :=
  foldl (λ self c, exec (perform c) self) self calls.

(** The exceptions of the operators and the built-in functions. *)
Definition type_error (e : exn) : Prop := e = TypeError.
Definition type_or_overflow_error (e : exn) : Prop :=
  e = TypeError ∨ e = OverflowError.
Definition type_value_or_overflow_error (e : exn) : Prop :=
  e = TypeError ∨ e = ValueError ∨ e = OverflowError.

(** The state between two calls: no session was ever started, or the
    entries [start_session] creates are there. *)
Definition between_calls (self : MetricsLogger) : Prop :=
  session_start_time self = None ∨ has_keys self.

(** ** [test_agent.py]: the self-test of the logger *)

(** [test_metrics] of [test_metrics_logger]. *)
Definition test_metrics : gmap string value :=
  list_to_map
    [("turn_number", VInt 1);
     ("total_latency", VFloat (Fin (3 # 2)));
     ("eou_delay", VFloat (Fin (1 # 5)));
     ("ttft", VFloat (Fin (4 # 5)));
     ("ttfb", VFloat (Fin (3 # 10)));
     ("interrupted", VBool false)].

(** The calls inside the [try] of [test_metrics_logger], on the logger it
    created; [t0], [t1] and [t2] are the readings of the clock. *)
Definition test_metrics_logger_calls (t0 t1 t2 : datetime) (io : io_faults) : M unit :=
  start_session t0 ;;
  add_turn_metrics test_metrics t1 ;;
  end_session (Some (list_to_map [("test_session", VBool true);
                                  ("total_turns", VInt 1)])) t2 io.

(** [test_metrics_logger()]: the value returned and [self.test_results]
    after it.  [setup_error] is the fate of what comes before the calls:
    the import, and the [os.makedirs] of the constructor. *)
Definition test_metrics_logger (setup_error : option exn) (t0 t1 t2 : datetime)
  (io : io_faults) (test_results : gmap string bool) : bool * gmap string bool :=
  let attempt :=
    match setup_error with
    | Some e => Raised e
    | None => (test_metrics_logger_calls t0 t1 t2 io (new_logger "test_metrics")).1
    end in
  match attempt with
  | Returned _ => (true, <["metrics" := true]> test_results)
  | Raised _ => (false, <["metrics" := false]> test_results)
  end.

(** ** [generate_sample_metrics.py] *)

(** What one round of the loop draws from [random] and reads from [time]. *)
Record draw := mkDraw {
  drawn_eou_delay : pyfloat;
  drawn_ttft : pyfloat;
  drawn_ttfb : pyfloat;
  drawn_rest : pyfloat;
  drawn_interrupted : bool;
  drawn_time : pyfloat
}.

(** [turn_metrics] of the round [turn]. *)
Definition sample_turn_metrics (turn : Z) (d : draw) : gmap string value :=
  let eou_delay := drawn_eou_delay d in
  let ttft := drawn_ttft d in
  let ttfb := drawn_ttfb d in
  let total_latency := flt_add (flt_add (flt_add eou_delay ttft) ttfb) (drawn_rest d) in
  list_to_map
    [("turn_number", VInt turn);
     ("eou_delay", VFloat eou_delay);
     ("ttft", VFloat ttft);
     ("ttfb", VFloat ttfb);
     ("total_latency", VFloat total_latency);
     ("interrupted", VBool (drawn_interrupted d));
     ("agent_response", VStr ("Sample response for turn " +:+ pretty turn));
     ("user_input", VStr ("User question " +:+ pretty turn));
     ("timestamp", VFloat (drawn_time d))].

Definition sample_session_summary : gmap string value :=
  list_to_map
    [("total_turns", VInt 5);
     ("successful_turns", VInt 4);
     ("interrupted_turns", VInt 1);
     ("config", VDict [("stt", VStr "deepgram"); ("llm", VStr "groq");
                       ("tts", VStr "cartesia"); ("version", VStr "demo")]);
     ("demo_mode", VBool true)].

(** [generate_sample_metrics()], once the constructor has returned, on the
    logger it created: [random] gives the round [turn] the draw
    [rand turn], the clock reads [t0] at the start, [clock turn] at the
    admission of the round and [t1] at the end. *)
Definition generate_sample_metrics (rand : Z → draw) (t0 : datetime)
  (clock : Z → datetime) (t1 : datetime) (io : io_faults)
  : outcome unit * MetricsLogger :=
  (start_session t0 ;;
   for_each [1; 2; 3; 4; 5]
            (λ turn, add_turn_metrics (sample_turn_metrics turn (rand turn))
                                      (clock turn)) ;;
   end_session (Some sample_session_summary) t1 io) (new_logger "metrics").

(** ** [voice_agent.py]: the timestamps of one turn *)

(** [a - b] between floats. *)
Definition flt_sub (a b : pyfloat) : pyfloat :=
  match a, b with
  | NaN, _ | _, NaN => NaN
  | Fin x, Fin y => Fin (x - y)
  | PInf, PInf | NInf, NInf => NaN
  | PInf, _ | _, NInf => PInf
  | NInf, _ | _, PInf => NInf
  end.

Module ConversationMetrics.

(** The attributes: each is [None] or a reading of [time.time()]. *)
Record t := mk {
  user_speech_end_time : option pyfloat;
  stt_completion_time : option pyfloat;
  llm_first_token_time : option pyfloat;
  tts_first_byte_time : option pyfloat;
  response_start_time : option pyfloat;
  total_latency : option pyfloat
}.

Definition as_value (attribute : option pyfloat) : value :=
  match attribute with
  | None => VNone
  | Some x => VFloat x
  end.

(** [a - b]; [None] has no subtraction. *)
Definition sub (a b : option pyfloat) : outcome value :=
  match a, b with
  | Some x, Some y => Returned (VFloat (flt_sub x y))
  | _, _ => Raised TypeError
  end.

(** [reset()] *)
Definition reset (self : t) : t := mk None None None None None None.

(** [reset_turn()] *)
Definition reset_turn (self : t) : t :=
  let user_time := user_speech_end_time self in
  let self := reset self in
  mk user_time (stt_completion_time self) (llm_first_token_time self)
     (tts_first_byte_time self) (response_start_time self) (total_latency self).

(** [if test: metrics[k] = a - b] *)
Definition assign_if (test : bool) (k : string) (a b : option pyfloat)
  (metrics : gmap string value) : outcome (gmap string value) :=
  if test
  then v ← sub a b; mret (<[k := v]> metrics)
  else mret metrics.

(** [calculate_latencies()] *)
Definition calculate_latencies (self : t) : outcome (gmap string value) :=
  if negb (truthy (as_value (user_speech_end_time self)))
  then Returned ∅
  else
    metrics ← assign_if (truthy (as_value (stt_completion_time self)))
                        "eou_delay"
                        (stt_completion_time self) (user_speech_end_time self) ∅;
    metrics ← assign_if (truthy (as_value (llm_first_token_time self))
                         && truthy (as_value (stt_completion_time self)))
                        "ttft"
                        (llm_first_token_time self) (stt_completion_time self) metrics;
    metrics ← assign_if (truthy (as_value (tts_first_byte_time self))
                         && truthy (as_value (llm_first_token_time self)))
                        "ttfb"
                        (tts_first_byte_time self) (llm_first_token_time self) metrics;
    assign_if (truthy (as_value (response_start_time self)))
              "total_latency"
              (response_start_time self) (user_speech_end_time self) metrics.

End ConversationMetrics.

(** A dictionary of floats under keys other than [interrupted]. *)
Definition latencies_only (metrics : gmap string value) : Prop :=
  ∀ k v, metrics !! k = Some v → k ∈ metrics_to_avg ∧ ∃ x, v = VFloat x.

(** ** [voice_agent.py]: the session of [entrypoint] *)

(** [turn_metrics] of the greeting; [latency] is the time it took. *)
Definition greeting_turn (latency : pyfloat) : gmap string value :=
  list_to_map
    [("turn_number", VInt 1);
     ("total_latency", VFloat latency);
     ("interrupted", VBool false);
     ("agent_response", VStr "Initial greeting")].

(** [session_summary] of [cleanup_handler] and of the [finally] block;
    [turn_count] is 1 in both. *)
Definition entrypoint_summary (stt_provider llm_provider tts_provider : string)
  : gmap string value :=
  list_to_map
    [("total_turns", VInt 1);
     ("config", VDict [("stt", VStr stt_provider); ("llm", VStr llm_provider);
                       ("tts", VStr tts_provider)])].

(** What [entrypoint] asks of the logger it created, in a run that reaches
    its [try] block: the start, the greeting, and one close for each
    delivery of SIGINT or SIGTERM and for the [finally] block, each with
    the reading of the clock and the fate of its writes. *)
Definition entrypoint_metrics (stt_provider llm_provider tts_provider : string)
  (latency : pyfloat) (t0 t1 : datetime) (closes : list (datetime * io_faults))
  : outcome unit * MetricsLogger :=
  (start_session t0 ;;
   add_turn_metrics (greeting_turn latency) t1 ;;
   for_each closes
            (λ close, end_session
                        (Some (entrypoint_summary stt_provider llm_provider
                                                  tts_provider))
                        close.1 close.2)) (new_logger "metrics").

(** ** The environment *)

(** [os.environ] *)
Definition environ := gmap string string.

(** [os.getenv(key)] *)
Definition getenv (env : environ) (key : string) : option string := env !! key.

(** [os.getenv(key, dflt)] *)
Definition getenv_default (env : environ) (key dflt : string) : string :=
  default dflt (env !! key).

(** Truth value of what [os.getenv] returned: [None] and the empty string
    are false. *)
Definition is_set (v : option string) : bool :=
  match v with
  | Some s => negb (String.eqb s "")
  | None => false
  end.

(** [load_dotenv(path)]: the entries of the file that the environment does
    not have yet. *)
Definition load_dotenv (dotenv : environ) (env : environ) : environ := env ∪ dotenv.

(** *** [deployment.py]: [check_env_file] *)

Definition required_keys : list string :=
  ["LIVEKIT_URL"; "LIVEKIT_API_KEY"; "LIVEKIT_API_SECRET"].

Definition provider_keys : gmap string (list string) :=
  list_to_map
    [("deepgram", ["DEEPGRAM_API_KEY"]);
     ("groq", ["GROQ_API_KEY"]);
     ("cartesia", ["CARTESIA_API_KEY"]);
     ("elevenlabs", ["ELEVENLABS_API_KEY"]);
     ("openai", ["OPENAI_API_KEY"])].

(** [missing_keys] at the end of the two loops of [check_env_file]. *)
Definition missing_keys (env : environ) : list string :=
  let unset := List.filter (λ key, negb (is_set (getenv env key))) in
  let stt_provider := getenv_default env "STT_PROVIDER" "deepgram" in
  let llm_provider := getenv_default env "LLM_PROVIDER" "groq" in
  let tts_provider := getenv_default env "TTS_PROVIDER" "cartesia" in
  unset required_keys
  ++ flat_map (λ provider,
               match provider_keys !! provider with
               | Some keys => unset keys
               | None => []
               end)
              [stt_provider; llm_provider; tts_provider].

(** [check_env_file()]: [env_file] is the content of [.env], if it exists.
    The value returned and the environment it leaves; the template that
    [create_env_template] writes when the file is missing is left out. *)
Definition check_env_file (env_file : option environ) (env : environ)
  : bool * environ :=
  match env_file with
  | None => (false, env)
  | Some dotenv =>
      let env := load_dotenv dotenv env in
      (match missing_keys env with [] => true | _ => false end, env)
  end.

(** *** [test_agent.py]: [test_environment] *)

(** [d[k] = v] on a dictionary kept in insertion order. *)
Fixpoint odict_set {V} (k : string) (v : V) (d : list (string * V))
  : list (string * V) :=
  match d with
  | [] => [(k, v)]
  | (k', v') :: d' =>
      if String.eqb k' k then (k', v) :: d' else (k', v') :: odict_set k v d'
  end.

(** [{**a, **b}] *)
Definition odict_merge {V} (a b : list (string * V)) : list (string * V) :=
  foldl (λ d kv, odict_set kv.1 kv.2 d) a b.

(** [all_vars] of [test_environment]. *)
Definition all_vars (env : environ) : list (string * option string) :=
  let var key := (key, getenv env key) in
  let required_vars :=
    [var "LIVEKIT_URL"; var "LIVEKIT_API_KEY"; var "LIVEKIT_API_SECRET"] in
  let stt_provider := getenv_default env "STT_PROVIDER" "deepgram" in
  let llm_provider := getenv_default env "LLM_PROVIDER" "groq" in
  let tts_provider := getenv_default env "TTS_PROVIDER" "cartesia" in
  let provider_vars := [] in
  let provider_vars :=
    if String.eqb stt_provider "deepgram"
    then odict_set "DEEPGRAM_API_KEY" (getenv env "DEEPGRAM_API_KEY") provider_vars
    else if String.eqb stt_provider "whisper"
    then odict_set "OPENAI_API_KEY" (getenv env "OPENAI_API_KEY") provider_vars
    else provider_vars in
  let provider_vars :=
    if String.eqb llm_provider "groq"
    then odict_set "GROQ_API_KEY" (getenv env "GROQ_API_KEY") provider_vars
    else if String.eqb llm_provider "openai"
    then odict_set "OPENAI_API_KEY" (getenv env "OPENAI_API_KEY") provider_vars
    else provider_vars in
  let provider_vars :=
    if String.eqb tts_provider "cartesia"
    then odict_set "CARTESIA_API_KEY" (getenv env "CARTESIA_API_KEY") provider_vars
    else if String.eqb tts_provider "elevenlabs"
    then odict_set "ELEVENLABS_API_KEY" (getenv env "ELEVENLABS_API_KEY") provider_vars
    else provider_vars in
  odict_merge required_vars provider_vars.

(** [missing_vars] of [test_environment]. *)
Definition missing_vars (env : environ) : list string :=
  map fst (List.filter (λ kv, negb (is_set kv.2)) (all_vars env)).

(** [test_environment()]: the value returned and [self.test_results]. *)
Definition test_environment (env : environ) (test_results : gmap string bool)
  : bool * gmap string bool :=
  match missing_vars env with
  | [] => (true, <["environment" := true]> test_results)
  | _ => (false, <["environment" := false]> test_results)
  end.

(** *** [voice_agent.py]: the keys the agent uses *)

(** The environment variables whose values [entrypoint] hands to the
    speech-to-text, language-model and text-to-speech constructors as
    [api_key], through [VoiceAgentConfig]. *)
Definition api_keys_used (env : environ) : list string :=
  let stt_provider := getenv_default env "STT_PROVIDER" "deepgram" in
  let llm_provider := getenv_default env "LLM_PROVIDER" "groq" in
  let tts_provider := getenv_default env "TTS_PROVIDER" "cartesia" in
  [if String.eqb stt_provider "deepgram" then "DEEPGRAM_API_KEY" else "OPENAI_API_KEY";
   if String.eqb llm_provider "groq" then "GROQ_API_KEY" else "OPENAI_API_KEY";
   if String.eqb tts_provider "cartesia" then "CARTESIA_API_KEY"
   else "ELEVENLABS_API_KEY"].

(** What [check_env_file] looks up. *)
Definition keys_checked (env : environ) : list string :=
  required_keys
  ++ flat_map (λ provider, default [] (provider_keys !! provider))
       [getenv_default env "STT_PROVIDER" "deepgram";
        getenv_default env "LLM_PROVIDER" "groq";
        getenv_default env "TTS_PROVIDER" "cartesia"].

(** A sample [.env]: the free-tier providers with all their keys. *)
Definition sample_dotenv : environ :=
  list_to_map
    [("LIVEKIT_URL", "wss://example.livekit.cloud");
     ("LIVEKIT_API_KEY", "key"); ("LIVEKIT_API_SECRET", "secret");
     ("STT_PROVIDER", "deepgram"); ("LLM_PROVIDER", "groq");
     ("TTS_PROVIDER", "cartesia");
     ("DEEPGRAM_API_KEY", "dg"); ("GROQ_API_KEY", "gq");
     ("CARTESIA_API_KEY", "ct")].

(** ** [deployment.py]: the deployment *)

(** [except name:] catches [e]; the exceptions of [subprocess], of the
    import machinery and the interrupt from the keyboard are known by
    their names. *)
Definition caught_by (name : string) (e : exn) : bool :=
  match e with
  | OtherError n => String.eqb n name
  | _ => false
  end.

(** [install_dependencies()]; [pip] is how [subprocess.check_call] ended. *)
Definition install_dependencies (pip : outcome unit) : outcome value :=
  match pip with
  | Returned _ => Returned (VBool true)
  | Raised e =>
      if caught_by "CalledProcessError" e then Returned (VBool false) else Raised e
  end.

Definition required_imports : list string :=
  ["livekit"; "livekit.agents"; "openai"; "deepgram"; "pandas"; "openpyxl"].

(** The loop of [validate_imports]; [import_ module] is how
    [__import__(module)] ends.  The modules that failed are kept without
    the message the source appends to each. *)
Fixpoint failed_imports (import_ : string → outcome unit) (modules : list string)
  : outcome (list string) :=
  match modules with
  | [] => Returned []
  | module :: rest =>
      match import_ module with
      | Returned _ => failed_imports import_ rest
      | Raised e =>
          if caught_by "ImportError" e
          then failed ← failed_imports import_ rest; mret (module :: failed)
          else Raised e
      end
  end.

(** [validate_imports()] *)
Definition validate_imports (import_ : string → outcome unit) : outcome value :=
  failed ← failed_imports import_ required_imports;
  match failed with
  | [] => Returned (VBool true)
  | _ => Returned (VBool false)
  end.

(** [run_agent(dev_mode)]; [child cmd] is how [subprocess.run(cmd,
    check=True)] ends.  A call that completes falls off the end of the
    function. *)
Definition run_agent (executable : string) (child : list string → outcome unit)
  (dev_mode : bool) : outcome value :=
  let cmd := [executable; "voice_agent.py"] in
  let cmd := if dev_mode then cmd ++ ["--dev"] else cmd in
  match child cmd with
  | Returned _ => Returned VNone
  | Raised e =>
      if caught_by "CalledProcessError" e then Returned (VBool false)
      else if caught_by "KeyboardInterrupt" e then Returned (VBool true)
      else Raised e
  end.

(** What the deployment meets: the interpreter, the [.env] file, the
    environment, and the fates of the installation, of the imports and of
    the agent. *)
Record world := mkWorld {
  executable : string;
  env_file : option environ;
  os_environ : environ;
  pip : outcome unit;
  import_ : string → outcome unit;
  child : list string → outcome unit
}.

(** [deploy(skip_install, dev_mode)] *)
Definition deploy (w : world) (skip_install dev_mode : bool) : outcome value :=
  if negb (check_env_file (env_file w) (os_environ w)).1
  then Returned (VBool false)
  else
    installed ← (if skip_install then Returned (VBool true)
                 else install_dependencies (pip w));
    if negb (truthy installed)
    then Returned (VBool false)
    else
      validated ← validate_imports (import_ w);
      if negb (truthy validated)
      then Returned (VBool false)
      else run_agent (executable w) (child w) dev_mode.

(** The command line of [deployment.py]. *)
Record deployment_args := mkArgs {
  skip_install : bool;
  production : bool;
  validate_only : bool
}.

(** [main()] of [deployment.py] *)
Definition deployment_main (w : world) (args : deployment_args) : outcome value :=
  if validate_only args
  then
    if (check_env_file (env_file w) (os_environ w)).1
    then validate_imports (import_ w)
    else Returned (VBool false)
  else deploy w (skip_install args) (negb (production args)).

(** [sys.exit(0 if success else 1)] *)
Definition exit_status (success : value) : Z := if truthy success then 0 else 1.

(** ** [test_agent.py]: the summary of the tests *)

(** [print_summary(results)]: [sum] counts the values that are [True]. *)
Definition print_summary (results : list (string * bool)) : bool :=
  let passed := foldl (λ acc (b : bool), acc + (if b then 1 else 0)) 0 results.*2 in
  let total := Z.of_nat (length results) in
  passed =? total.

Definition sample_world (ending : outcome unit) : world :=
  mkWorld "python" (Some sample_dotenv) ∅ (Returned tt) (λ _, Returned tt)
          (λ _, ending).

(** * Properties *)

(** ** The order on numbers *)

Lemma Qltb_true (x y : Q) : Qltb x y = true ↔ (x < y)%Q.
Proof.
  unfold Qltb. rewrite Qlt_alt. destruct (x ?= y)%Q; split; congruence.
Qed.

Lemma Qltb_false (x y : Q) : Qltb x y = false ↔ (y <= x)%Q.
Proof.
  rewrite Qle_alt. unfold Qltb.
  rewrite <- (Qcompare_antisym x y).
  destruct (x ?= y)%Q; simpl; split; congruence.
Qed.

Lemma flt_le_refl (a : pyfloat) : a ≠ NaN → flt_le a a.
Proof. destruct a; simpl; try done. intros _. apply Qle_refl. Qed.

Lemma flt_le_trans (a b c : pyfloat) : flt_le a b → flt_le b c → flt_le a c.
Proof.
  destruct a, b, c; simpl; try done. apply Qle_trans.
Qed.

Lemma flt_ltb_le (a b : pyfloat) : flt_ltb a b = true → flt_le a b.
Proof.
  destruct a, b; simpl; try done.
  intros H%Qltb_true. by apply Qlt_le_weak.
Qed.

Lemma flt_ltb_false_le (a b : pyfloat) :
  a ≠ NaN → b ≠ NaN → flt_ltb a b = false → flt_le b a.
Proof.
  destruct a, b; simpl; try done.
  intros _ _ H%Qltb_false. done.
Qed.

Lemma flt_ltb_not_nan_r (a b : pyfloat) : flt_ltb a b = true → b ≠ NaN.
Proof. by destruct a, b. Qed.

Lemma flt_le_not_nan_l (a b : pyfloat) : flt_le a b → a ≠ NaN.
Proof. by destruct a, b. Qed.

Lemma exceeds_num (c : Q) (v : value) :
  exceeds c v = true → ∃ x, num_of v = Some x ∧ flt_ltb (Fin c) x = true.
Proof. unfold exceeds. destruct (num_of v); [eauto | done]. Qed.

Lemma value_le_refl (c : Q) (v : value) : exceeds c v = true → value_le v v.
Proof.
  intros (x & Hx & Hlt)%exceeds_num. exists x, x. split_and!; [done..|].
  apply flt_le_refl. by eapply flt_ltb_not_nan_r.
Qed.

Lemma value_le_trans (a b c : value) : value_le a b → value_le b c → value_le a c.
Proof.
  intros (x & y & Hx & Hy & Hxy) (y' & z & Hy' & Hz & Hyz).
  rewrite Hy in Hy'. injection Hy' as <-.
  exists x, z. split_and!; [done..|]. by eapply flt_le_trans.
Qed.

(** What a comparison with an integer decides. *)
Lemma py_gt_const (v : value) (z : Z) (b : bool) :
  py_gt v (VInt z) = Returned b → b = exceeds (inject_Z z) v.
Proof.
  unfold py_gt, py_lt, exceeds. simpl. destruct (num_of v); [|done]. congruence.
Qed.

(** ** The monad, step by step *)

Lemma bind_returned {A B} (m : M A) (k : A → M B) self a self' :
  m self = (Returned a, self') → (m ≫= k) self = k a self'.
Proof. unfold mbind, M_bind. by intros ->. Qed.

Lemma bind_raised {A B} (m : M A) (k : A → M B) self e self' :
  m self = (Raised e, self') → (m ≫= k) self = (Raised e, self').
Proof. unfold mbind, M_bind. by intros ->. Qed.

Lemma incr_spec k n self :
  session_data self !! k = Some (VInt n) →
  session_data_incr k self
  = (Returned tt, set_session_data (<[k := VInt (n + 1)]> (session_data self)) self).
Proof.
  intros H. unfold session_data_incr.
  erewrite bind_returned; [|unfold session_data_get; by rewrite H].
  by erewrite bind_returned.
Qed.

Lemma stamp_get r now sid k d :
  k ≠ "session_id" → k ≠ "timestamp" →
  dict_get (stamp r now sid) k d = dict_get r k d.
Proof.
  intros H1 H2. unfold dict_get, stamp.
  by rewrite !lookup_insert_ne.
Qed.

Lemma when_set (b : bool) k v self :
  when b (session_data_set k v) self
  = (Returned tt,
     set_session_data (if b then <[k := v]> (session_data self) else session_data self) self).
Proof. destruct b; [done|]. by destruct self. Qed.

Lemma when_incr (b : bool) k n self :
  session_data self !! k = Some (VInt n) →
  when b (session_data_incr k) self
  = (Returned tt,
     set_session_data (if b then <[k := VInt (n + 1)]> (session_data self)
                       else session_data self) self).
Proof. intros H. destruct b; simpl; [by apply incr_spec|]. by destruct self. Qed.

Lemma get_spec k v self :
  session_data self !! k = Some v → session_data_get k self = (Returned v, self).
Proof. unfold session_data_get. by intros ->. Qed.

Lemma count_app {A} (p : A → bool) (l : list A) (x : A) :
  count p (l ++ [x]) = count p l + (if p x then 1 else 0).
Proof.
  unfold count. rewrite List.filter_app, length_app. simpl.
  destruct (p x); simpl; lia.
Qed.

Lemma is_maximum_snoc (m v : value) (l : list value) (x y : pyfloat) :
  is_maximum m l → num_of m = Some y → num_of v = Some x → x ≠ NaN →
  is_maximum (if flt_ltb y x then v else m) (l ++ [v]).
Proof.
  intros [Hin Hle] Hy Hx Hnan.
  assert (Hynan : y ≠ NaN).
  { destruct (Hle m Hin) as (? & ? & E1 & _ & Hl). rewrite Hy in E1.
    injection E1 as <-. by eapply flt_le_not_nan_l. }
  destruct (flt_ltb y x) eqn:Hlt.
  - split; [set_solver|].
    intros w [Hw| ->%list_elem_of_singleton]%elem_of_app.
    + eapply value_le_trans; [by apply Hle|].
      exists y, x. split_and!; [done..|]. by apply flt_ltb_le.
    + exists x, x. split_and!; [done..|]. by apply flt_le_refl.
  - split; [set_solver|].
    intros w [Hw| ->%list_elem_of_singleton]%elem_of_app; [by apply Hle|].
    exists x, y. split_and!; [done..|]. by apply flt_ltb_false_le.
Qed.

Lemma is_minimum_snoc (m v : value) (l : list value) (x z : pyfloat) :
  is_minimum m l → num_of m = Some z → num_of v = Some x → x ≠ NaN →
  is_minimum (if flt_ltb x z then v else m) (l ++ [v]).
Proof.
  intros [Hin Hle] Hz Hx Hnan.
  assert (Hznan : z ≠ NaN).
  { destruct (Hle m Hin) as (? & ? & E1 & _ & Hl). rewrite Hz in E1.
    injection E1 as <-. by eapply flt_le_not_nan_l. }
  destruct (flt_ltb x z) eqn:Hlt.
  - split; [set_solver|].
    intros w [Hw| ->%list_elem_of_singleton]%elem_of_app.
    + eapply value_le_trans; [|by apply Hle].
      exists x, z. split_and!; [done..|]. by apply flt_ltb_le.
    + exists x, x. split_and!; [done..|]. by apply flt_le_refl.
  - split; [set_solver|].
    intros w [Hw| ->%list_elem_of_singleton]%elem_of_app; [by apply Hle|].
    exists z, x. split_and!; [done..|]. by apply flt_ltb_false_le.
Qed.

Lemma update_latency_statistics_spec v self mx mn L :
  exceeds 0 v = true →
  session_data self !! "max_latency" = Some mx →
  is_maximum mx (VInt 0 :: L) →
  session_data self !! "min_latency" = Some mn →
  is_minimum mn (VFloat PInf :: L) →
  session_data self !! "high_latency_turns" = Some (VInt (count (exceeds 2) L)) →
  ∃ d mx' mn',
    update_latency_statistics v self = (Returned tt, set_session_data d self)
    ∧ d !! "max_latency" = Some mx' ∧ is_maximum mx' (VInt 0 :: L ++ [v])
    ∧ d !! "min_latency" = Some mn' ∧ is_minimum mn' (VFloat PInf :: L ++ [v])
    ∧ d !! "high_latency_turns" = Some (VInt (count (exceeds 2) (L ++ [v])))
    ∧ ∀ k, k ≠ "max_latency" → k ≠ "min_latency" → k ≠ "high_latency_turns" →
           d !! k = session_data self !! k.
Proof.
  intros Hv Hmx Hmax Hmn Hmin Hh.
  destruct (exceeds_num _ _ Hv) as (x & Hx & Hpos).
  assert (Hnan : x ≠ NaN) by (by eapply flt_ltb_not_nan_r).
  destruct (proj2 Hmax (VInt 0)) as (? & y & _ & Hy & _); [set_solver|].
  destruct (proj2 Hmin (VFloat PInf)) as (z & ? & Hz & _ & _); [set_solver|].
  pose proof (is_maximum_snoc mx v (VInt 0 :: L) x y Hmax Hy Hx Hnan) as Hmax'.
  pose proof (is_minimum_snoc mn v (VFloat PInf :: L) x z Hmin Hz Hx Hnan) as Hmin'.
  assert (Hgt : py_gt v mx = Returned (flt_ltb y x))
    by (unfold py_gt, py_lt; by rewrite Hx, Hy).
  assert (Hlt : py_lt v mn = Returned (flt_ltb x z))
    by (unfold py_lt; by rewrite Hx, Hz).
  assert (Hhi : py_gt v (VFloat (Fin 2)) = Returned (exceeds 2 v))
    by (unfold py_gt, py_lt, exceeds; simpl; by rewrite Hx).
  simpl in Hmax', Hmin'.
  unfold update_latency_statistics.
  erewrite bind_returned; [|by apply get_spec].
  erewrite bind_returned; [|unfold lift; by rewrite Hgt].
  erewrite bind_returned; [|apply when_set].
  erewrite bind_returned; [|apply get_spec; simpl; destruct (flt_ltb y x);
                            [by rewrite lookup_insert_ne|done]].
  erewrite bind_returned; [|unfold lift; by rewrite Hlt].
  erewrite bind_returned; [|apply when_set].
  erewrite bind_returned; [|unfold lift; by rewrite Hhi].
  erewrite when_incr;
    [|simpl; destruct (flt_ltb x z), (flt_ltb y x);
      rewrite ?lookup_insert_ne by done; done].
  rewrite count_app.
  destruct (exceeds 2 v), (flt_ltb x z), (flt_ltb y x); simpl;
    (eexists _, _, _; split; [reflexivity|]).
  all: split_and!;
    [ rewrite ?lookup_insert_ne by done; rewrite ?lookup_insert_eq; done
    | done
    | rewrite ?lookup_insert_ne by done; rewrite ?lookup_insert_eq; done
    | done
    | rewrite ?lookup_insert_ne by done; rewrite ?lookup_insert_eq;
      rewrite ?Hh; do 2 f_equal; lia
    | intros k ? ? ?; by rewrite ?lookup_insert_ne by done ].
Qed.

(** ** The invariant holds throughout a session *)

Lemma start_inv start self : recorder_inv start [] (exec (start_session start) self).
Proof.
  split; try done.
  - exists (VInt 0). split; [done|]. split; [set_solver|].
    intros x ->%list_elem_of_singleton. by exists (Fin 0), (Fin 0).
  - exists (VFloat PInf). split; [done|]. split; [set_solver|].
    intros x ->%list_elem_of_singleton. by exists PInf, PInf.
Qed.

Lemma positive_latencies_snoc records r :
  positive_latencies (records ++ [r])
  = positive_latencies records
    ++ (if exceeds 0 (total_latency_of r) then [total_latency_of r] else []).
Proof.
  unfold positive_latencies. rewrite map_app, List.filter_app. simpl.
  by destruct (exceeds 0 (total_latency_of r)).
Qed.

Lemma not_running k : k ∉ running_keys ↔
  k ≠ "total_turns" ∧ k ≠ "successful_turns" ∧ k ≠ "interrupted_turns"
  ∧ k ≠ "max_latency" ∧ k ≠ "min_latency" ∧ k ≠ "high_latency_turns".
Proof.
  unfold running_keys. rewrite !not_elem_of_cons.
  pose proof (not_elem_of_nil k). tauto.
Qed.

Lemma step_inv start calls self r now :
  recorder_inv start calls self →
  recorder_inv start (calls ++ [(r, now)]) (exec (add_turn_metrics r now) self).
Proof.
  intros [Hst Hsid Htm Htot Hint Hsuc Hhigh (mx & Hmx & Hmax) (mn & Hmn & Hmin) Hrest].
  unfold exec, add_turn_metrics.
  erewrite bind_returned; [|reflexivity]. rewrite Hst.
  erewrite bind_returned; [|by apply get_spec].
  erewrite bind_returned; [|reflexivity].
  erewrite bind_returned; [|by apply incr_spec].
  rewrite !stamp_get by done.
  fold (is_interrupted r). fold (total_latency_of r).
  set (self1 := set_session_data _ _).
  assert (∃ d, ((if is_interrupted r then session_data_incr "interrupted_turns"
                 else session_data_incr "successful_turns") self1
                = (Returned tt, set_session_data d self1))
               ∧ d !! "interrupted_turns"
                 = Some (VInt (count is_interrupted (calls ++ [(r, now)]).*1))
               ∧ d !! "successful_turns"
                 = Some (VInt (count (λ r, negb (is_interrupted r))
                                     (calls ++ [(r, now)]).*1))
               ∧ ∀ k, k ≠ "interrupted_turns" → k ≠ "successful_turns" →
                      d !! k = session_data self1 !! k)
    as (d & Hd & Hint' & Hsuc' & Hframe).
  { rewrite fmap_app. simpl. rewrite !count_app.
    destruct (is_interrupted r); simpl; eexists; (split;
      [apply incr_spec; simpl; by rewrite lookup_insert_ne|]).
    - rewrite lookup_insert_eq, lookup_insert_ne by done. simpl.
      rewrite lookup_insert_ne by done.
      split_and!; [done| rewrite Hsuc; do 2 f_equal; lia|].
      intros k ? ?. by rewrite lookup_insert_ne.
    - rewrite lookup_insert_eq, lookup_insert_ne by done. simpl.
      rewrite lookup_insert_ne by done.
      split_and!; [rewrite Hint; do 2 f_equal; lia|done|].
      intros k ? ?. by rewrite lookup_insert_ne. }
  erewrite bind_returned; [|exact Hd].
  set (self2 := set_session_data d self1).
  assert (Hd_other : ∀ k, k ∉ running_keys → d !! k = initial_session_data start !! k).
  { intros k Hk. pose proof Hk as (?&?&?&?&?&?)%not_running.
    rewrite Hframe by done. simpl. rewrite lookup_insert_ne by done. by apply Hrest. }
  assert (Hd_tot : d !! "total_turns"
                   = Some (VInt (Z.of_nat (length (calls ++ [(r, now)]))))).
  { rewrite Hframe by done. simpl. rewrite lookup_insert_eq, length_app. simpl.
    do 2 f_equal. lia. }
  assert (Hd_keep : ∀ k, k ≠ "total_turns" → k ≠ "interrupted_turns" →
                         k ≠ "successful_turns" → d !! k = session_data self !! k).
  { intros k ? ? ?. rewrite Hframe by done. simpl. by rewrite lookup_insert_ne. }
  assert (Htm' : turn_metrics self2
                 = map (λ c, stamp c.1 c.2 (VStr (strftime start))) (calls ++ [(r, now)])).
  { simpl. by rewrite Htm, map_app. }
  assert (Hst2 : session_start_time self2 = Some start) by done.
  assert (Hsd2 : session_data self2 = d) by done.
  clearbody self2. clear Hd self1 Hframe. subst d.
  rewrite fmap_app in Hint', Hsuc'. simpl in Hint', Hsuc'.
  pose proof (positive_latencies_snoc calls.*1 r) as Hsnoc.
  destruct (py_gt (total_latency_of r) (VInt 0)) as [b|e] eqn:E.
  - apply py_gt_const in E. change (inject_Z 0) with 0%Q in E. subst b.
    erewrite bind_returned; [|reflexivity].
    destruct (exceeds 0 (total_latency_of r)) eqn:Epos.
    + destruct (update_latency_statistics_spec (total_latency_of r) self2 mx mn
                  (positive_latencies calls.*1))
        as (d' & mx' & mn' & Hrun & Hmx' & Hmax' & Hmn' & Hmin' & Hhigh' & Hkeep);
        [done|by rewrite Hd_keep|done|by rewrite Hd_keep|done|by rewrite Hd_keep|].
      erewrite bind_returned; [|exact Hrun]. simpl.
      split; simpl; rewrite ?fmap_app; simpl; rewrite ?Hsnoc; try done.
      * rewrite Hkeep by done. by rewrite Hd_keep.
      * by rewrite Htm', fmap_app.
      * by rewrite Hkeep.
      * by rewrite Hkeep.
      * by rewrite Hkeep.
      * by exists mx'.
      * by exists mn'.
      * intros k Hk. pose proof Hk as (?&?&?&?&?&?)%not_running.
        rewrite Hkeep by done. by apply Hd_other.
    + erewrite bind_returned; [|reflexivity]. simpl.
      split; simpl; rewrite ?fmap_app; simpl; rewrite ?Hsnoc, ?app_nil_r; try done.
      * by rewrite Hd_keep.
      * by rewrite Htm', fmap_app.
      * by rewrite Hd_keep.
      * exists mx. by rewrite Hd_keep.
      * exists mn. by rewrite Hd_keep.
  - erewrite bind_raised; [|reflexivity]. simpl.
    assert (Epos : exceeds 0 (total_latency_of r) = false).
    { unfold py_gt, py_lt, exceeds in *. simpl in E.
      by destruct (num_of (total_latency_of r)). }
    rewrite Epos, app_nil_r in Hsnoc.
    split; simpl; rewrite ?fmap_app; simpl; rewrite ?Hsnoc; try done.
    + by rewrite Hd_keep.
    + by rewrite Htm', fmap_app.
    + by rewrite Hd_keep.
    + exists mx. by rewrite Hd_keep.
    + exists mn. by rewrite Hd_keep.
Qed.

Lemma session_inv start calls self :
  recorder_inv start calls (session start calls self).
Proof.
  unfold session, add_turns.
  induction calls as [|[r now] calls IH] using rev_ind; simpl.
  - apply start_inv.
  - rewrite foldl_app. simpl. by apply step_inv.
Qed.

(** ** Recorder: counters and running aggregates *)

Lemma positive_latencies_exceed records x :
  x ∈ positive_latencies records → exceeds 0 x = true.
Proof.
  unfold positive_latencies. rewrite list_elem_of_In, filter_In. tauto.
Qed.

Lemma flt_ltb_le_absurd (a b : pyfloat) : flt_ltb a b = true → flt_le b a → False.
Proof.
  destruct a, b; simpl; try done.
  intros H1%Qltb_true H2. by eapply Qlt_not_le.
Qed.

Lemma num_of_inf (v : value) : num_of v = Some PInf → v = VFloat PInf.
Proof. destruct v as [| [] | | | | |]; simpl; congruence. Qed.

(** Once a positive latency has been seen, the initial 0 is no longer the
    greatest value. *)
Lemma is_maximum_drop_zero (m : value) (L : list value) :
  (∀ x, x ∈ L → exceeds 0 x = true) → L ≠ [] →
  is_maximum m (VInt 0 :: L) → is_maximum m L.
Proof.
  intros Hpos Hne [Hin Hle]. split; [|intros x Hx; apply Hle; by right].
  apply elem_of_cons in Hin as [-> | Hin]; [|done]. exfalso.
  destruct L as [|x L]; [done|].
  destruct (Hle x) as (a & b & Ha & Hb & Hab); [set_solver|].
  destruct (exceeds_num 0 x) as (a' & Ha' & Hlt); [apply Hpos; set_solver|].
  simpl in Hb. injection Hb as <-. rewrite Ha in Ha'. injection Ha' as <-.
  by eapply flt_ltb_le_absurd.
Qed.

(** The sentinel is the least value only when every latency seen is
    itself infinite, and then it is one of them. *)
Lemma is_minimum_drop_sentinel (m : value) (L : list value) :
  L ≠ [] → is_minimum m (VFloat PInf :: L) → is_minimum m L.
Proof.
  intros Hne [Hin Hle]. split; [|intros x Hx; apply Hle; by right].
  apply elem_of_cons in Hin as [-> | Hin]; [|done].
  destruct L as [|x L]; [done|].
  destruct (Hle x) as (a & b & Ha & Hb & Hab); [set_solver|].
  simpl in Ha. injection Ha as <-.
  assert (b = PInf) as -> by (by destruct b).
  apply num_of_inf in Hb as ->. set_solver.
Qed.

(** C1: after [start_session()] and any sequence of [add_turn_metrics]
    calls, the running aggregates are those recomputed from the history.
    With L the strictly positive [total_latency] values submitted so far,
    interrupted turns included: [max_latency] is a greatest element of L
    and [min_latency] a least one as soon as L is not empty (before that
    they hold their initial 0 and +infinity), and [high_latency_turns]
    is the number of elements of L strictly above 2.0. *)
Theorem running_aggregates_recomputed
  (start : datetime) (calls : list (gmap string value * datetime))
  (self : MetricsLogger) :
  let final := session start calls self in
  let L := positive_latencies calls.*1 in
  (∃ mx, session_data final !! "max_latency" = Some mx
         ∧ (L ≠ [] → is_maximum mx L) ∧ (L = [] → mx = VInt 0))
  ∧ (∃ mn, session_data final !! "min_latency" = Some mn
           ∧ (L ≠ [] → is_minimum mn L) ∧ (L = [] → mn = VFloat PInf))
  ∧ session_data final !! "high_latency_turns"
    = Some (VInt (count (exceeds 2) L)).
Proof.
  intros final L.
  destruct (session_inv start calls self)
    as [_ _ _ _ _ _ Hhigh (mx & Hmx & Hmax) (mn & Hmn & Hmin) _].
  fold final L in Hhigh, Hmx, Hmax, Hmn, Hmin.
  split_and!; [exists mx|exists mn|done]; (split_and!; [done| |]).
  - intros Hne. apply is_maximum_drop_zero; [|done..].
    apply positive_latencies_exceed.
  - intros HL. rewrite HL in Hmax. destruct Hmax as [Hin _].
    by apply list_elem_of_singleton in Hin.
  - intros Hne. by apply is_minimum_drop_sentinel.
  - intros HL. rewrite HL in Hmin. destruct Hmin as [Hin _].
    by apply list_elem_of_singleton in Hin.
Qed.

Lemma count_partition {A} (p : A → bool) (l : list A) :
  count (λ x, negb (p x)) l + count p l = Z.of_nat (length l).
Proof.
  unfold count. induction l as [|x l IH]; simpl; [done|].
  destruct (p x); simpl; lia.
Qed.

(** C4: at every point after [start_session()], that is after any number
    of [add_turn_metrics] calls, the three counters are integers with
    [successful_turns + interrupted_turns = total_turns]: every call has
    added one to [total_turns] and one to exactly one of the other two,
    [interrupted_turns] when the record's [interrupted] entry is true. *)
Theorem counters_add_up
  (start : datetime) (calls : list (gmap string value * datetime))
  (self : MetricsLogger) :
  let final := session start calls self in
  ∃ total successful interrupted : Z,
    session_data final !! "total_turns" = Some (VInt total)
    ∧ session_data final !! "successful_turns" = Some (VInt successful)
    ∧ session_data final !! "interrupted_turns" = Some (VInt interrupted)
    ∧ successful + interrupted = total
    ∧ total = Z.of_nat (length calls)
    ∧ interrupted = count is_interrupted calls.*1
    ∧ successful = count (λ r, negb (is_interrupted r)) calls.*1.
Proof.
  intros final.
  destruct (session_inv start calls self) as [_ _ _ Htot Hint Hsuc _ _ _ _].
  eexists _, _, _. split_and!; [done..| |done|done|done].
  rewrite count_partition. by rewrite length_fmap.
Qed.

(** C5: [add_turn_metrics] on a logger whose session was never started
    returns without raising and changes nothing but the log, to which it
    adds one warning: the turn list, the session dictionary with all its
    counters and aggregates, and the files stay as they were. *)
Theorem add_turn_before_start_is_noop
  (self : MetricsLogger) (record : gmap string value) (now : datetime) :
  session_start_time self = None →
  ∃ self',
    add_turn_metrics record now self = (Returned tt, self')
    ∧ turn_metrics self' = turn_metrics self
    ∧ session_data self' = session_data self
    ∧ session_start_time self' = None
    ∧ files self' = files self
    ∧ output_dir self' = output_dir self
    ∧ log self' = log self ++ [(WARNING, MsgNotStarted)].
Proof.
  intros Hnone. eexists. split.
  - unfold add_turn_metrics. erewrite bind_returned; [|reflexivity].
    rewrite Hnone. reflexivity.
  - by rewrite ?Hnone.
Qed.

Lemma add_turn_before_start_is_noop_witness :
  session_start_time (new_logger "metrics") = None
  ∧ ∃ self',
      add_turn_metrics {["total_latency" := VFloat (Fin 5)]}
                       (mkDatetime 2024 3 7 9 5 0 0) (new_logger "metrics")
      = (Returned tt, self')
      ∧ turn_metrics self' = turn_metrics (new_logger "metrics")
      ∧ session_data self' = session_data (new_logger "metrics")
      ∧ session_start_time self' = None
      ∧ files self' = files (new_logger "metrics")
      ∧ output_dir self' = output_dir (new_logger "metrics")
      ∧ log self' = log (new_logger "metrics") ++ [(WARNING, MsgNotStarted)].
Proof.
  split; [reflexivity|].
  apply (add_turn_before_start_is_noop (new_logger "metrics")). reflexivity.
Defined.

(** C10: [start_session()] on a logger with a session in progress, in any
    state and with any turns admitted, returns with the session dictionary
    set to its initial content for the new start time (counters 0, the
    session id formatted from that time), the turn list empty and the
    start time replaced; it writes no file and keeps nothing of the
    session it replaces. *)
Theorem start_session_discards_previous (self : MetricsLogger) (now : datetime) :
  ∃ self',
    start_session now self = (Returned tt, self')
    ∧ session_data self' = initial_session_data now
    ∧ session_data self' !! "session_id" = Some (VStr (strftime now))
    ∧ session_data self' !! "start_time" = Some (VTime now)
    ∧ session_data self' !! "total_turns" = Some (VInt 0)
    ∧ session_data self' !! "successful_turns" = Some (VInt 0)
    ∧ session_data self' !! "interrupted_turns" = Some (VInt 0)
    ∧ session_data self' !! "high_latency_turns" = Some (VInt 0)
    ∧ session_data self' !! "max_latency" = Some (VInt 0)
    ∧ session_data self' !! "min_latency" = Some (VFloat PInf)
    ∧ turn_metrics self' = []
    ∧ session_start_time self' = Some now
    ∧ files self' = files self
    ∧ log self' = log self ++ [(INFO, MsgStarted (VStr (strftime now)))].
Proof.
  eexists. split; [reflexivity|]. split_and!; reflexivity.
Qed.

(** ** Averages, extremes and the exporter *)

Lemma numeric_num v : numeric v = true → ∃ x, num_of v = Some x.
Proof. unfold numeric. destruct (num_of v); [eauto|done]. Qed.

Lemma exceeds_numeric c v : exceeds c v = true → numeric v = true.
Proof. unfold exceeds, numeric. by destruct (num_of v). Qed.

Lemma filter_raising_gt (c : value) (q : Q) (vs : list value) :
  num_of c = Some (Fin q) →
  Forall (λ v, numeric v = true) vs →
  filter_raising (λ v, py_gt v c) vs = Returned (List.filter (exceeds q) vs).
Proof.
  intros Hc. induction 1 as [|v vs [x Hx]%numeric_num _ IH]; simpl; [done|].
  rewrite IH. unfold py_gt, py_lt, exceeds. rewrite Hc, Hx. simpl. done.
Qed.

Lemma filter_raising_lt (c : value) (q : Q) (vs : list value) :
  num_of c = Some (Fin q) →
  Forall (λ v, numeric v = true) vs →
  filter_raising (λ v, py_lt v c) vs = Returned (List.filter (below q) vs).
Proof.
  intros Hc. induction 1 as [|v vs [x Hx]%numeric_num _ IH]; simpl; [done|].
  rewrite IH. unfold py_lt, below. rewrite Hc, Hx. simpl. done.
Qed.

(** *** Sums and means *)

Lemma inject_Z_add (x y : Z) : (inject_Z x + inject_Z y)%Q = inject_Z (x + y).
Proof. unfold Qplus, inject_Z. simpl. f_equal. lia. Qed.

Lemma int_of_num v z : int_of v = Some z → num_of v = Some (Fin (inject_Z z)).
Proof. destruct v; simpl; try done; by intros [= <-]. Qed.

Lemma int_of_numeric v : numeric v = true → int_of v = None → ∃ f, v = VFloat f.
Proof. destruct v; try done. eauto. Qed.

Lemma to_float_num v x : to_float v = Returned x → num_of v = Some x.
Proof.
  unfold to_float. destruct v; simpl; try done.
  - destruct (_ <? _); [|done]. by intros [= <-].
  - destruct (_ <? _); [|done]. by intros [= <-].
  - by intros [= <-].
Qed.

(** What [a + b] returns is the sum of its operands. *)
Lemma py_add_num a b c x y :
  py_add a b = Returned c → num_of a = Some x → num_of b = Some y →
  num_of c = Some (flt_add x y).
Proof.
  unfold py_add. intros Hadd Hx Hy.
  destruct (int_of a) as [za|] eqn:Ea, (int_of b) as [zb|] eqn:Eb.
  - injection Hadd as <-.
    rewrite (int_of_num _ _ Ea) in Hx. rewrite (int_of_num _ _ Eb) in Hy.
    injection Hx as <-. injection Hy as <-. simpl. by rewrite inject_Z_add.
  - rewrite Hx, Hy in Hadd.
    destruct (to_float a) as [fa|] eqn:Fa; [|done].
    destruct (to_float b) as [fb|] eqn:Fb; [|done].
    injection Hadd as <-.
    apply to_float_num in Fa, Fb. simpl. congruence.
  - rewrite Hx, Hy in Hadd.
    destruct (to_float a) as [fa|] eqn:Fa; [|done].
    destruct (to_float b) as [fb|] eqn:Fb; [|done].
    injection Hadd as <-.
    apply to_float_num in Fa, Fb. simpl. congruence.
  - rewrite Hx, Hy in Hadd.
    destruct (to_float a) as [fa|] eqn:Fa; [|done].
    destruct (to_float b) as [fb|] eqn:Fb; [|done].
    injection Hadd as <-.
    apply to_float_num in Fa, Fb. simpl. congruence.
Qed.

(** Between numbers, [a + b] raises nothing but [OverflowError]. *)
Lemma py_add_numeric a b e :
  numeric a = true → numeric b = true → py_add a b = Raised e → e = OverflowError.
Proof.
  intros [x Hx]%numeric_num [y Hy]%numeric_num. unfold py_add, to_float.
  rewrite Hx, Hy.
  destruct a, b; simpl in *; try done;
    repeat (destruct (_ <? _); simpl; try done); by intros [= <-].
Qed.

Lemma sum_from_raised e values :
  foldl (λ acc v, a ← acc; py_add a v) (Raised e) values = Raised e.
Proof. by induction values. Qed.

(** What [sum] returns is the sum. *)
Lemma sum_from_num start values total x :
  Forall (λ v, numeric v = true) values →
  num_of start = Some x →
  sum_from start values = Returned total →
  num_of total = Some (foldl flt_add x (omap num_of values)).
Proof.
  unfold sum_from. intros Hall. revert start x.
  induction Hall as [|v vs [y Hy]%numeric_num _ IH]; intros start x Hx Hsum.
  - simpl in Hsum. injection Hsum as <-. done.
  - cbn [foldl] in Hsum. cbn [mbind outcome_bind] in Hsum.
    change (omap num_of (v :: vs))
      with (match num_of v with
            | Some y => y :: omap num_of vs
            | None => omap num_of vs
            end).
    rewrite Hy. cbn [foldl].
    destruct (py_add start v) as [next|e] eqn:Eadd.
    + apply (IH next); [|done]. by eapply py_add_num.
    + by rewrite sum_from_raised in Hsum.
Qed.

(** Numbers sum to a number, or overflow. *)
Lemma sum_from_numeric start values :
  numeric start = true →
  Forall (λ v, numeric v = true) values →
  (∃ total, sum_from start values = Returned total ∧ numeric total = true)
  ∨ sum_from start values = Raised OverflowError.
Proof.
  unfold sum_from. intros Hstart Hall. revert start Hstart.
  induction Hall as [|v vs Hv _ IH]; intros start Hstart; [left; by eexists|].
  cbn [foldl mbind outcome_bind].
  destruct (py_add start v) as [next|e] eqn:Eadd.
  - apply IH. destruct (numeric_num _ Hstart) as [x Hx].
    destruct (numeric_num _ Hv) as [y Hy].
    unfold numeric. by rewrite (py_add_num _ _ _ _ _ Eadd Hx Hy).
  - right. rewrite sum_from_raised. f_equal.
    exact (py_add_numeric start v e Hstart Hv Eadd).
Qed.

Lemma omap_num_of_length (vs : list value) :
  Forall (λ v, numeric v = true) vs → length (omap num_of vs) = length vs.
Proof.
  induction 1 as [|v vs [x Hx]%numeric_num _ IH]; [done|].
  change (omap num_of (v :: vs))
    with (match num_of v with
          | Some y => y :: omap num_of vs
          | None => omap num_of vs
          end).
  rewrite Hx. simpl. by rewrite IH.
Qed.

(** What [sum(values) / len(values)] returns is the mean. *)
Lemma py_mean_value (vs : list value) (v : value) :
  Forall (λ v, numeric v = true) vs →
  py_mean vs = Returned v →
  v = VFloat (arithmetic_mean (omap num_of vs)).
Proof.
  intros Hall. unfold py_mean, py_sum.
  destruct (sum_from (VInt 0) vs) as [total|e] eqn:Esum; [|done].
  cbn [mbind outcome_bind].
  pose proof (sum_from_num (VInt 0) vs total (Fin 0) Hall eq_refl Esum) as Htotal.
  unfold arithmetic_mean. rewrite omap_num_of_length by done.
  unfold py_div_count. destruct (length vs) as [|n] eqn:En; [done|].
  destruct total as [|b|z|f| | |]; try done; simpl in Htotal |- *.
  - destruct (_ <? _); [|done]. injection Htotal as <-. by intros [= <-].
  - destruct (_ <? _); [|done]. injection Htotal as <-. by intros [= <-].
  - injection Htotal as <-. by intros [= <-].
Qed.

(** The mean of numbers is taken, or overflows. *)
Lemma py_mean_raises_overflow (vs : list value) (e : exn) :
  vs ≠ [] → Forall (λ v, numeric v = true) vs →
  py_mean vs = Raised e → e = OverflowError.
Proof.
  intros Hne Hall. unfold py_mean, py_sum.
  destruct (sum_from_numeric (VInt 0) vs eq_refl Hall)
    as [(total & -> & Hnum)| ->]; [|by intros [= <-]].
  cbn [mbind outcome_bind]. unfold py_div_count.
  destruct vs as [|v vs']; [done|]. cbn [length].
  destruct total; try done; simpl; destruct (_ <? _); try done; by intros [= <-].
Qed.

Lemma py_mean_numeric (vs : list value) :
  vs ≠ [] → Forall (λ v, numeric v = true) vs → mean_defined vs = true →
  py_mean vs = Returned (VFloat (arithmetic_mean (omap num_of vs))).
Proof.
  intros Hne Hall Hdef. unfold mean_defined in Hdef.
  destruct vs as [|v vs']; [done|].
  destruct (py_mean (v :: vs')) as [m|e] eqn:E; [|done].
  f_equal. by apply py_mean_value.
Qed.

(** *** Integers within the range of floats *)

Lemma int_mass_nonneg (vs : list value) : 0 ≤ int_mass vs.
Proof.
  induction vs as [|v vs IH]; simpl; [done|]. destruct (int_of v); lia.
Qed.

(** With the integers within range, the sum returns: an integer bounded
    by what was added so far, or a float. *)
Lemma sum_from_in_range start values :
  numeric start = true →
  Forall (λ v, numeric v = true) values →
  int_mass (start :: values) < float_limit →
  ∃ total, sum_from start values = Returned total
           ∧ numeric total = true
           ∧ ∀ z, int_of total = Some z → Z.abs z < float_limit.
Proof.
  unfold sum_from. intros Hstart Hall. revert start Hstart.
  induction Hall as [|v vs Hv _ IH]; intros start Hstart Hmass.
  - exists start. split_and!; [done..|].
    intros z Hz. simpl in Hmass. rewrite Hz in Hmass. lia.
  - cbn [foldl mbind outcome_bind].
    pose proof (int_mass_nonneg vs) as Hpos.
    assert (∃ next, py_add start v = Returned next ∧ numeric next = true
                    ∧ int_mass (next :: vs) < float_limit)
      as (next & -> & Hnext & Hmass').
    { simpl in Hmass. unfold py_add, to_float.
      destruct (numeric_num _ Hstart) as [x Hx].
      destruct (numeric_num _ Hv) as [y Hy]. rewrite Hx, Hy.
      destruct (int_of start) as [a|] eqn:Ea, (int_of v) as [b|] eqn:Eb.
      - eexists. split_and!; [done..|]. simpl. lia.
      - destruct (int_of_numeric _ Hv Eb) as [f ->].
        destruct start; try done; simpl in Ea; injection Ea as <-;
          (match goal with
           | |- context [Z.abs ?z <? float_limit] =>
               destruct (Z.ltb_spec (Z.abs z) float_limit) as [?|?]; [|lia]
           end);
          simpl; eexists; (split_and!; [done..|]); simpl; lia.
      - destruct (int_of_numeric _ Hstart Ea) as [f ->].
        destruct v; try done; simpl in Eb; injection Eb as <-;
          (match goal with
           | |- context [Z.abs ?z <? float_limit] =>
               destruct (Z.ltb_spec (Z.abs z) float_limit) as [?|?]; [|lia]
           end);
          simpl; eexists; (split_and!; [done..|]); simpl; lia.
      - destruct (int_of_numeric _ Hstart Ea) as [f ->].
        destruct (int_of_numeric _ Hv Eb) as [g ->].
        simpl. eexists. split_and!; [done..|]. simpl. lia. }
    by apply IH.
Qed.

Lemma py_mean_in_range (vs : list value) :
  Forall (λ v, numeric v = true) vs → int_mass vs < float_limit →
  mean_defined vs = true.
Proof.
  intros Hall Hmass. unfold mean_defined.
  destruct vs as [|v vs'] eqn:E; [done|]. rewrite <- E in *.
  unfold py_mean, py_sum.
  assert (Hmass0 : int_mass (VInt 0 :: vs) < float_limit).
  { change (int_mass (VInt 0 :: vs)) with (Z.abs 0 + int_mass vs). lia. }
  destruct (sum_from_in_range (VInt 0) vs eq_refl Hall Hmass0)
    as (total & -> & Hnum & Hbound).
  cbn [mbind outcome_bind]. unfold py_div_count. rewrite E. cbn [length].
  destruct total; try done.
  - specialize (Hbound _ eq_refl). cbn [int_of].
    destruct (Z.ltb_spec (Z.abs (if b then 1 else 0))
                (float_limit * Z.of_nat (S (length vs')))); [done|nia].
  - specialize (Hbound _ eq_refl). cbn [int_of].
    destruct (Z.ltb_spec (Z.abs z) (float_limit * Z.of_nat (S (length vs'))));
      [done|nia].
Qed.

Lemma exceeds_not_nan c v x : exceeds c v = true → num_of v = Some x → x ≠ NaN.
Proof.
  unfold exceeds. intros H Hx. rewrite Hx in H. by eapply flt_ltb_not_nan_r.
Qed.

Lemma best_from_max (pre rest : list value) (best : value) :
  Forall (λ v, exceeds 0 v = true) rest → exceeds 0 best = true →
  is_maximum best pre →
  ∃ m, best_from py_gt best rest = Returned m ∧ is_maximum m (pre ++ rest).
Proof.
  intros Hrest. revert pre best.
  induction Hrest as [|v rest Hv _ IH]; intros pre best Hbest Hmax.
  - exists best. by rewrite app_nil_r.
  - destruct (exceeds_num _ _ Hv) as (x & Hx & _).
    destruct (exceeds_num _ _ Hbest) as (y & Hy & _).
    assert (Hcmp : py_gt v best = Returned (flt_ltb y x))
      by (unfold py_gt, py_lt; by rewrite Hy, Hx).
    cbn [best_from]. rewrite Hcmp. cbn [mbind outcome_bind].
    destruct (IH (pre ++ [v]) (if flt_ltb y x then v else best)) as (m & Hm & Hmm).
    + by destruct (flt_ltb y x).
    + apply is_maximum_snoc; [done..|]. by apply (exceeds_not_nan 0 v).
    + exists m. split; [done|]. rewrite <- app_assoc in Hmm. exact Hmm.
Qed.

Lemma best_from_min (pre rest : list value) (best : value) :
  Forall (λ v, exceeds 0 v = true) rest → exceeds 0 best = true →
  is_minimum best pre →
  ∃ m, best_from py_lt best rest = Returned m ∧ is_minimum m (pre ++ rest).
Proof.
  intros Hrest. revert pre best.
  induction Hrest as [|v rest Hv _ IH]; intros pre best Hbest Hmin.
  - exists best. by rewrite app_nil_r.
  - destruct (exceeds_num _ _ Hv) as (x & Hx & _).
    destruct (exceeds_num _ _ Hbest) as (z & Hz & _).
    assert (Hcmp : py_lt v best = Returned (flt_ltb x z))
      by (unfold py_lt; by rewrite Hz, Hx).
    cbn [best_from]. rewrite Hcmp. cbn [mbind outcome_bind].
    destruct (IH (pre ++ [v]) (if flt_ltb x z then v else best)) as (m & Hm & Hmm).
    + by destruct (flt_ltb x z).
    + apply is_minimum_snoc; [done..|]. by apply (exceeds_not_nan 0 v).
    + exists m. split; [done|]. rewrite <- app_assoc in Hmm. exact Hmm.
Qed.

Lemma is_extreme_singleton (v : value) :
  exceeds 0 v = true → is_maximum v [v] ∧ is_minimum v [v].
Proof.
  intros Hv. pose proof (value_le_refl _ _ Hv).
  split; (split; [by apply list_elem_of_singleton|]);
    by intros x ->%list_elem_of_singleton.
Qed.

Lemma py_max_positive (vs : list value) :
  vs ≠ [] → Forall (λ v, exceeds 0 v = true) vs →
  ∃ m, py_max vs = Returned m ∧ is_maximum m vs.
Proof.
  destruct vs as [|v vs]; [done|]. intros _ Hall.
  inversion Hall as [|? ? Hv Hvs]; subst.
  apply (best_from_max [v]); [done..|]. by apply is_extreme_singleton.
Qed.

Lemma py_min_positive (vs : list value) :
  vs ≠ [] → Forall (λ v, exceeds 0 v = true) vs →
  ∃ m, py_min vs = Returned m ∧ is_minimum m vs.
Proof.
  destruct vs as [|v vs]; [done|]. intros _ Hall.
  inversion Hall as [|? ? Hv Hvs]; subst.
  apply (best_from_min [v]); [done..|]. by apply is_extreme_singleton.
Qed.

Lemma well_typed_metric (metric : string) (turns : list (gmap string value)) :
  metric ∈ metrics_to_avg →
  Forall (λ t, well_typed t = true) turns →
  Forall (λ v, numeric v = true) (map (λ t, dict_get t metric (VInt 0)) turns).
Proof.
  intros Hm Hall. apply Forall_fmap. eapply Forall_impl; [exact Hall|].
  intros t Ht. unfold well_typed in Ht. rewrite forallb_forall in Ht.
  apply Ht. by apply list_elem_of_In.
Qed.

Lemma positive_values_typed (metric : string) (records : list (gmap string value)) :
  metric ∈ metrics_to_avg →
  Forall (λ t, well_typed t = true) (valid_turns_of records) →
  positive_values metric (valid_turns_of records) = Returned (qualifying metric records).
Proof.
  intros Hm Hall. unfold positive_values, qualifying.
  apply (filter_raising_gt (VInt 0) 0); [done|]. by apply well_typed_metric.
Qed.

Lemma qualifying_positive (metric : string) (records : list (gmap string value)) :
  Forall (λ v, exceeds 0 v = true) (qualifying metric records).
Proof.
  apply Forall_forall. intros v. unfold qualifying.
  rewrite list_elem_of_In, filter_In. tauto.
Qed.

Lemma qualifying_numeric (metric : string) (records : list (gmap string value)) :
  Forall (λ v, numeric v = true) (qualifying metric records).
Proof.
  eapply Forall_impl; [apply qualifying_positive|]. intros v. apply exceeds_numeric.
Qed.

Lemma means_defined_metric (metric : string) (records : list (gmap string value)) :
  means_defined records = true → metric ∈ metrics_to_avg →
  mean_defined (qualifying metric records) = true.
Proof.
  unfold means_defined. rewrite forallb_forall. intros H Hm.
  apply H. by apply list_elem_of_In.
Qed.

(** With the integers within range, every average exists. *)
Lemma averageable_means_defined (records : list (gmap string value)) :
  averageable records = true → means_defined records = true.
Proof.
  unfold averageable, means_defined. rewrite !forallb_forall.
  intros H metric Hm. apply py_mean_in_range; [apply qualifying_numeric|].
  apply Z.ltb_lt. by apply H.
Qed.

Lemma average_metric_typed (metric : string) (records : list (gmap string value))
  (self : MetricsLogger) :
  metric ∈ metrics_to_avg →
  Forall (λ t, well_typed t = true) (valid_turns_of records) →
  means_defined records = true →
  average_metric (valid_turns_of records) metric self
  = (Returned tt, set_session_data (averaged metric records (session_data self)) self).
Proof.
  intros Hm Hall Hdef. unfold average_metric, averaged.
  erewrite bind_returned; [|unfold lift; by rewrite positive_values_typed].
  pose proof (qualifying_numeric metric records) as Hnum.
  pose proof (means_defined_metric metric records Hdef Hm) as Hmean.
  destruct (qualifying metric records) as [|v vs] eqn:E; [by destruct self|].
  erewrite bind_returned; [|unfold lift; by rewrite py_mean_numeric].
  done.
Qed.

Lemma _calculate_averages_typed (records : list (gmap string value))
  (self : MetricsLogger) :
  turn_metrics self = records →
  Forall (λ t, well_typed t = true) (valid_turns_of records) →
  means_defined records = true →
  _calculate_averages self
  = (Returned tt,
     set_session_data
       (averaged "ttfb" records
          (averaged "ttft" records
             (averaged "eou_delay" records
                (averaged "total_latency" records (session_data self))))) self).
Proof.
  intros Htm Hall Hdef. unfold _calculate_averages.
  erewrite bind_returned; [|reflexivity]. rewrite Htm.
  destruct (valid_turns_of records) as [|t ts] eqn:E.
  - unfold averaged, qualifying. rewrite E. simpl. by destruct self.
  - rewrite <- E in *. unfold metrics_to_avg, for_each.
    erewrite bind_returned; [|apply average_metric_typed; [set_solver|done..]].
    erewrite bind_returned; [|apply average_metric_typed; [set_solver|done..]].
    erewrite bind_returned; [|apply average_metric_typed; [set_solver|done..]].
    erewrite bind_returned; [|apply average_metric_typed; [set_solver|done..]].
    reflexivity.
Qed.

(** One round of the loop, whether the mean can be taken or not. *)
Lemma average_metric_run (metric : string) (records : list (gmap string value))
  (self : MetricsLogger) :
  metric ∈ metrics_to_avg →
  Forall (λ t, well_typed t = true) (valid_turns_of records) →
  average_metric (valid_turns_of records) metric self
  = match qualifying metric records with
    | [] => (Returned tt, self)
    | vs => match py_mean vs with
            | Returned avg =>
                (Returned tt,
                 set_session_data (<["avg_" +:+ metric := avg]> (session_data self)) self)
            | Raised e => (Raised e, self)
            end
    end.
Proof.
  intros Hm Hall. unfold average_metric.
  erewrite bind_returned; [|unfold lift; by rewrite positive_values_typed].
  destruct (qualifying metric records) as [|v vs]; [done|].
  destruct (py_mean (v :: vs)) as [avg|e].
  - erewrite bind_returned; [|reflexivity]. done.
  - by apply bind_raised.
Qed.

Lemma for_each_average_metric (metrics : list string)
  (records : list (gmap string value)) (self : MetricsLogger) :
  Forall (λ metric, metric ∈ metrics_to_avg) metrics →
  Forall (λ t, well_typed t = true) (valid_turns_of records) →
  for_each metrics (average_metric (valid_turns_of records)) self
  = ((averages_from metrics records (session_data self)).1,
     set_session_data (averages_from metrics records (session_data self)).2 self).
Proof.
  intros Hsub Hall. revert self.
  induction Hsub as [|metric rest Hm _ IH]; intros self; [by destruct self|].
  cbn [for_each averages_from].
  pose proof (average_metric_run metric records self Hm Hall) as Hstep.
  destruct (qualifying metric records) as [|v vs].
  { erewrite bind_returned; [|exact Hstep]. apply IH. }
  destruct (py_mean (v :: vs)) as [avg|e].
  - erewrite bind_returned; [|exact Hstep]. by rewrite IH.
  - erewrite bind_raised; [|exact Hstep]. by destruct self.
Qed.

Lemma averages_from_no_turns metrics records (d : gmap string value) :
  valid_turns_of records = [] → averages_from metrics records d = (Returned tt, d).
Proof.
  intros Hnil. induction metrics as [|metric rest IH]; [done|].
  cbn [averages_from]. unfold qualifying. by rewrite Hnil.
Qed.

(** [_calculate_averages], whether the means can be taken or not. *)
Lemma _calculate_averages_run (records : list (gmap string value))
  (self : MetricsLogger) :
  turn_metrics self = records →
  Forall (λ t, well_typed t = true) (valid_turns_of records) →
  _calculate_averages self
  = ((averages_from metrics_to_avg records (session_data self)).1,
     set_session_data (averages_from metrics_to_avg records (session_data self)).2
                      self).
Proof.
  intros Htm Hall. unfold _calculate_averages.
  erewrite bind_returned; [|reflexivity]. rewrite Htm.
  destruct (valid_turns_of records) as [|t ts] eqn:E.
  - rewrite averages_from_no_turns by done. by destruct self.
  - rewrite <- E in *. apply for_each_average_metric; [|done].
    repeat constructor.
Qed.

(** The loop returns exactly when every mean it takes exists. *)
Lemma averages_from_returns metrics records (d : gmap string value) :
  (averages_from metrics records d).1 = Returned tt
  ↔ forallb (λ metric, mean_defined (qualifying metric records)) metrics = true.
Proof.
  revert d. induction metrics as [|metric rest IH]; intros d; [done|].
  cbn [averages_from forallb]. unfold mean_defined at 1.
  destruct (qualifying metric records) as [|v vs]; [apply IH|].
  destruct (py_mean (v :: vs)) as [avg|e]; [apply IH|]. done.
Qed.

(** What the loop leaves is what it assigns, over what it found. *)
Lemma averages_from_union metrics records (d : gmap string value) :
  (averages_from metrics records d).1 = (averages_from metrics records ∅).1
  ∧ (averages_from metrics records d).2 = (averages_from metrics records ∅).2 ∪ d.
Proof.
  revert d. induction metrics as [|metric rest IH]; intros d.
  { split; [done|]. simpl. by rewrite (left_id_L ∅ (∪)). }
  cbn [averages_from].
  destruct (qualifying metric records) as [|v vs]; [apply IH|].
  destruct (py_mean (v :: vs)) as [avg|e].
  - destruct (IH (<["avg_" +:+ metric := avg]> d)) as [H1 H2].
    destruct (IH (<["avg_" +:+ metric := avg]> ∅)) as [H3 H4].
    split; [by rewrite H1, H3|].
    rewrite H2, H4. rewrite <- (assoc_L (∪)). f_equal.
    by rewrite insert_empty, <- insert_union_singleton_l.
  - split; [done|]. simpl. by rewrite (left_id_L ∅ (∪)).
Qed.

(** The loop assigns averages only. *)
Lemma averages_from_keys metrics records k :
  Forall (λ metric, metric ∈ metrics_to_avg) metrics →
  is_Some ((averages_from metrics records ∅).2 !! k) → k ∈ avg_keys.
Proof.
  intros Hsub. induction Hsub as [|metric rest Hm _ IH].
  { simpl. rewrite lookup_empty. by intros [? ?]. }
  cbn [averages_from].
  destruct (qualifying metric records) as [|v vs]; [apply IH|].
  destruct (py_mean (v :: vs)) as [avg|e].
  - destruct (averages_from_union rest records (<["avg_" +:+ metric := avg]> ∅))
      as [_ ->].
    rewrite lookup_union_is_Some. intros [H|H]; [by apply IH|].
    rewrite insert_empty, lookup_singleton_is_Some in H. subst k.
    unfold metrics_to_avg, avg_keys in *.
    repeat (apply elem_of_cons in Hm as [->|Hm]; [repeat constructor|]).
    by apply elem_of_nil in Hm.
  - simpl. rewrite lookup_empty. by intros [? ?].
Qed.

(** ** The exporter *)

Lemma io_step_ok io op self : io op = None → io_step io op self = (Returned tt, self).
Proof. unfold io_step. by intros ->. Qed.

Lemma io_step_fault io op e self : io op = Some e → io_step io op self = (Raised e, self).
Proof. unfold io_step. by intros ->. Qed.

Lemma _save_as_csv_fallback_spec io session_id self :
  _save_as_csv_fallback io session_id self
  = (Returned tt, after_fallback io session_id self).
Proof.
  unfold _save_as_csv_fallback, after_fallback, try_except.
  erewrite bind_returned; [|reflexivity].
  destruct (io (ToCsv (SessionCsvPath _ _))) as [e|] eqn:E1.
  { erewrite bind_raised; [|by eapply io_step_fault]. done. }
  erewrite bind_returned; [|by eapply io_step_ok].
  erewrite bind_returned; [|reflexivity].
  destruct (turn_metrics self) as [|t ts] eqn:Et.
  { erewrite bind_returned; [|reflexivity]. by destruct self. }
  destruct (io (ToCsv (TurnCsvPath _ _))) as [e|] eqn:E2.
  { erewrite bind_raised; [done|].
    apply bind_raised. by eapply io_step_fault. }
  erewrite bind_returned; [done|].
  erewrite bind_returned; [|by eapply io_step_ok].
  reflexivity.
Qed.

(** Why a write can raise: a fault met on the way, or an analysis that
    cannot be computed. *)
Lemma _create_latency_analysis_sheet_cases io writer self :
  (∃ e, _create_latency_analysis_sheet io writer self = (Raised e, self)
        ∧ ((∃ op, io op = Some e)
           ∨ analysis_rows (valid_turns_of (turn_metrics self)) = Raised e))
  ∨ _create_latency_analysis_sheet io writer self
    = (Returned (writer ++ latency_analysis_sheet (turn_metrics self)), self).
Proof.
  unfold _create_latency_analysis_sheet, latency_analysis_sheet.
  erewrite bind_returned; [|reflexivity].
  destruct (turn_metrics self) as [|t ts] eqn:Et.
  { right. simpl. by rewrite app_nil_r. }
  rewrite <- Et. clear Et t ts.
  destruct (valid_turns_of (turn_metrics self)) as [|t ts] eqn:Ev.
  { right. by rewrite app_nil_r. }
  destruct (analysis_rows (t :: ts)) as [rows|e] eqn:Ea.
  2:{ left. exists e. split; [by erewrite bind_raised|by right]. }
  erewrite bind_returned; [|reflexivity].
  destruct (io (ToExcel "Latency_Analysis")) as [e|] eqn:E.
  { left. exists e. split; [|by eauto].
    erewrite bind_raised; [done|]. by eapply io_step_fault. }
  right. erewrite bind_returned; [|by eapply io_step_ok]. done.
Qed.

Lemma write_workbook_cases io filepath self :
  (∃ e, write_workbook io filepath self = (Raised e, self)
        ∧ ((∃ op, io op = Some e)
           ∨ analysis_rows (valid_turns_of (turn_metrics self)) = Raised e))
  ∨ write_workbook io filepath self
    = (Returned tt,
       add_log (INFO, MsgSaved filepath)
               (add_file filepath (Workbook (sheets_written self)) self)).
Proof.
  unfold write_workbook, sheets_written.
  erewrite bind_returned; [|reflexivity].
  destruct (io (OpenWriter filepath)) as [e|] eqn:E1.
  { left. exists e. split; [|by eauto].
    erewrite bind_raised; [done|]. by eapply io_step_fault. }
  erewrite bind_returned; [|by eapply io_step_ok].
  destruct (io (ToExcel "Session_Summary")) as [e|] eqn:E2.
  { left. exists e. split; [|by eauto].
    erewrite bind_raised; [done|]. by eapply io_step_fault. }
  erewrite bind_returned; [|by eapply io_step_ok].
  set (writer0 := [("Session_Summary", [session_data self])]).
  assert ((∃ e, (match turn_metrics self with
                 | [] => mret writer0
                 | _ => io_step io (ToExcel "Turn_Details") ;;
                        mret (writer0 ++ [("Turn_Details", turn_metrics self)])
                 end) self = (Raised e, self)
                ∧ ∃ op, io op = Some e)
          ∨ (match turn_metrics self with
             | [] => mret writer0
             | _ => io_step io (ToExcel "Turn_Details") ;;
                    mret (writer0 ++ [("Turn_Details", turn_metrics self)])
             end) self
            = (Returned (writer0 ++ turn_details_sheet (turn_metrics self)), self))
    as [(e & He & Hop) | Hturns].
  { unfold turn_details_sheet. destruct (turn_metrics self) as [|t ts].
    { right. by rewrite app_nil_r. }
    destruct (io (ToExcel "Turn_Details")) as [e|] eqn:E3.
    - left. exists e. split; [|by eauto]. apply bind_raised. by eapply io_step_fault.
    - right. erewrite bind_returned; [|by eapply io_step_ok]. done. }
  { left. exists e. split; [by erewrite bind_raised|by left]. }
  erewrite bind_returned; [|exact Hturns].
  destruct (_create_latency_analysis_sheet_cases io
              (writer0 ++ turn_details_sheet (turn_metrics self)) self)
    as [(e & He & Hwhy) | Hla].
  { left. exists e. split; [by erewrite bind_raised|done]. }
  erewrite bind_returned; [|exact Hla].
  destruct (io (CloseWriter filepath)) as [e|] eqn:E4.
  { left. exists e. split; [|by eauto].
    erewrite bind_raised; [done|]. by eapply io_step_fault. }
  right. erewrite bind_returned; [|by eapply io_step_ok].
  erewrite bind_returned; [|reflexivity].
  unfold writer0. by rewrite <- !app_assoc.
Qed.

Lemma _save_to_excel_spec io session_id self :
  session_data self !! "session_id" = Some session_id →
  _save_to_excel io self = (Returned tt, after_export io session_id self).
Proof.
  intros Hsid. unfold _save_to_excel, after_export.
  erewrite bind_returned; [|by apply get_spec].
  erewrite bind_returned; [|reflexivity].
  unfold try_except.
  destruct (write_workbook io _ self) as [[[]|e] self'] eqn:E.
  - reflexivity.
  - erewrite bind_returned; [|reflexivity].
    apply _save_as_csv_fallback_spec.
Qed.

(** The exporter reads the session and writes only to the log and the
    output directory. *)
Lemma after_export_frame io session_id self :
  let self' := after_export io session_id self in
  output_dir self' = output_dir self
  ∧ session_data self' = session_data self
  ∧ turn_metrics self' = turn_metrics self
  ∧ session_start_time self' = session_start_time self.
Proof.
  unfold after_export.
  destruct (write_workbook_cases io (ExcelPath (output_dir self) session_id) self)
    as [(e & -> & _) | ->]; [|done].
  unfold after_fallback. destruct self as [dir d turns st lg fs]. simpl.
  destruct (io _); [done|]. destruct turns; [done|].
  by destruct (io _).
Qed.

Lemma valid_turns_of_stamped start calls :
  valid_turns_of (stamped start calls)
  = map (λ c, stamp c.1 c.2 (VStr (strftime start)))
        (List.filter (λ c, negb (is_interrupted c.1)) calls).
Proof.
  unfold stamped, valid_turns_of. rewrite filter_map_swap. f_equal.
  apply filter_ext. intros [r now]. simpl. by rewrite stamp_get.
Qed.

Lemma valid_turns_of_fst (calls : list (gmap string value * datetime)) :
  valid_turns_of calls.*1 = (List.filter (λ c, negb (is_interrupted c.1)) calls).*1.
Proof. unfold valid_turns_of. apply filter_map_swap. Qed.

Lemma metric_not_stamp metric :
  metric ∈ metrics_to_avg → metric ≠ "session_id" ∧ metric ≠ "timestamp".
Proof.
  unfold metrics_to_avg. rewrite !elem_of_cons, elem_of_nil.
  intros [->|[->|[->|[->|[]]]]]; done.
Qed.

Lemma qualifying_stamped metric start calls :
  metric ∈ metrics_to_avg →
  qualifying metric (stamped start calls) = qualifying metric calls.*1.
Proof.
  intros [? ?]%metric_not_stamp. unfold qualifying.
  rewrite valid_turns_of_stamped, valid_turns_of_fst. f_equal.
  rewrite <- !list_fmap_compose. apply list_fmap_ext.
  intros i [r now] _. simpl. by apply stamp_get.
Qed.

Lemma well_typed_stamped start calls :
  Forall (λ t, well_typed t = true) (valid_turns_of calls.*1) →
  Forall (λ t, well_typed t = true) (valid_turns_of (stamped start calls)).
Proof.
  rewrite valid_turns_of_stamped, valid_turns_of_fst, !Forall_fmap.
  intros H. eapply Forall_impl; [exact H|].
  intros [r now]. simpl. unfold well_typed, metrics_to_avg.
  simpl. by rewrite !stamp_get.
Qed.

Lemma means_defined_stamped start calls :
  means_defined (stamped start calls) = means_defined calls.*1.
Proof.
  unfold means_defined, metrics_to_avg. cbn [forallb].
  by rewrite !qualifying_stamped by (unfold metrics_to_avg; repeat constructor).
Qed.

Lemma averaged_stamped metric start calls d :
  metric ∈ metrics_to_avg →
  averaged metric (stamped start calls) d = averaged metric calls.*1 d.
Proof. intros Hm. unfold averaged. by rewrite qualifying_stamped. Qed.

Lemma averaged_is_Some metric records (d : gmap string value) k :
  is_Some (d !! k) → is_Some (averaged metric records d !! k).
Proof.
  unfold averaged. destruct (qualifying metric records); [done|].
  intros H. rewrite lookup_insert. by case_decide.
Qed.

Lemma closing_data_is_Some ov now start records (d : gmap string value) k :
  is_Some (d !! k) → is_Some (closing_data ov now start records d !! k).
Proof.
  intros H. unfold closing_data.
  assert (is_Some ((default ∅ ov ∪ <["duration":=VFloat (total_seconds now start)]>
                     (<["end_time":=VTime now]> d)) !! k)) as H1.
  { rewrite lookup_union_is_Some. right. rewrite !lookup_insert.
    repeat case_decide; done. }
  apply (averaged_is_Some "total_latency" records) in H1.
  apply (averaged_is_Some "eou_delay" records) in H1.
  apply (averaged_is_Some "ttft" records) in H1.
  apply (averaged_is_Some "ttfb" records) in H1.
  match goal with |- context [if ?b then _ else _] => destruct b end; [|done].
  rewrite lookup_insert. by case_decide.
Qed.

Lemma update_spec (ov : option (gmap string value)) self :
  (match ov with
   | Some overlay =>
       if bool_decide (size overlay = 0%nat) then skip else update overlay
   | None => skip
   end) self
  = (Returned tt, set_session_data (default ∅ ov ∪ session_data self) self).
Proof.
  destruct ov as [overlay|]; simpl.
  - case_bool_decide as Hsize; [|done].
    apply map_size_empty_iff in Hsize as ->.
    rewrite (left_id_L ∅ (∪)). by destruct self.
  - rewrite (left_id_L ∅ (∪)). by destruct self.
Qed.

Lemma end_session_closed start calls self ov now io :
  recorder_inv start calls self →
  Forall (λ t, well_typed t = true) (valid_turns_of calls.*1) →
  means_defined calls.*1 = true →
  let d := closing_data ov now start calls.*1 (session_data self) in
  ∃ sid dur tot,
    d !! "session_id" = Some sid ∧ d !! "duration" = Some dur
    ∧ d !! "total_turns" = Some tot
    ∧ end_session ov now io self
      = let exported := after_export io sid (set_session_data d self) in
        match format_2f dur with
        | Returned _ =>
            (Returned tt,
             add_log (INFO, MsgDuration dur tot) (add_log (INFO, MsgEnded sid) exported))
        | Raised e => (Raised e, add_log (INFO, MsgEnded sid) exported)
        end.
Proof.
  intros Hinv Htyped Hdef d.
  destruct Hinv as [Hst Hsid Htm Htot _ _ _ _ (mn & Hmn & _) Hrest].
  destruct (closing_data_is_Some ov now start calls.*1 (session_data self) "session_id")
    as [sid Hsid']; [by rewrite Hsid|].
  destruct (closing_data_is_Some ov now start calls.*1 (session_data self) "duration")
    as [dur Hdur]; [rewrite Hrest by (by apply not_running); by eexists|].
  destruct (closing_data_is_Some ov now start calls.*1 (session_data self) "total_turns")
    as [tot Htot']; [by rewrite Htot|].
  exists sid, dur, tot. split_and!; [done..|].
  unfold end_session.
  erewrite bind_returned; [|reflexivity]. rewrite Hst.
  erewrite bind_returned; [|reflexivity].
  erewrite bind_returned; [|apply get_spec; simpl; apply lookup_insert_eq].
  erewrite bind_returned;
    [|apply get_spec; simpl; rewrite lookup_insert_ne by done;
      rewrite Hrest by (by apply not_running); reflexivity].
  erewrite bind_returned; [|reflexivity].
  erewrite bind_returned; [|reflexivity].
  erewrite bind_returned; [|apply update_spec].
  erewrite bind_returned; [|reflexivity].
  simpl.
  set (d1 := default ∅ ov ∪ _).
  replace (set_session_data d1 _) with (set_session_data d1 self) by (by destruct self).
  set (d2 := averaged "ttfb" calls.*1
               (averaged "ttft" calls.*1
                  (averaged "eou_delay" calls.*1
                     (averaged "total_latency" calls.*1 d1)))).
  assert (Havg : (match turn_metrics (set_session_data d1 self) with
                  | [] => skip
                  | _ => _calculate_averages
                  end) (set_session_data d1 self)
                 = (Returned tt, set_session_data d2 self)).
  { change (turn_metrics (set_session_data d1 self)) with (turn_metrics self).
    rewrite Htm. destruct calls as [|c calls]; [by destruct self|].
    cbn [map].
    erewrite (_calculate_averages_typed (stamped start (c :: calls)));
      [|exact Htm|by apply well_typed_stamped|by rewrite means_defined_stamped].
    rewrite !averaged_stamped by (unfold metrics_to_avg; set_solver).
    by destruct self. }
  erewrite bind_returned; [|exact Havg].
  assert (is_Some (d2 !! "min_latency")) as [mn2 Hmn2].
  { unfold d2. do 4 apply averaged_is_Some. unfold d1.
    rewrite lookup_union_is_Some. right. rewrite !lookup_insert_ne by done.
    by rewrite Hmn. }
  erewrite bind_returned; [|by apply get_spec].
  erewrite bind_returned; [|apply when_set].
  assert (Hd : (if is_inf mn2 then <["min_latency":=VInt 0]> d2 else d2) = d).
  { unfold d, closing_data. fold d1. fold d2. by rewrite Hmn2. }
  simpl. rewrite Hd.
  replace (set_session_data d _) with (set_session_data d self) by (by destruct self).
  erewrite bind_returned; [|by apply (_save_to_excel_spec io sid)].
  pose proof (after_export_frame io sid (set_session_data d self)) as (_ & Hframe & _).
  simpl in Hframe.
  erewrite bind_returned; [|apply get_spec; by rewrite Hframe].
  erewrite bind_returned; [|reflexivity].
  erewrite bind_returned; [|apply get_spec; simpl; by rewrite Hframe].
  destruct (format_2f dur) as [[]|e] eqn:Ef.
  - erewrite bind_returned; [|reflexivity].
    erewrite bind_returned; [|apply get_spec; simpl; by rewrite Hframe].
    reflexivity.
  - by erewrite bind_raised.
Qed.

(** ** The session dictionary at the close *)

Lemma averaged_lookup_ne metric records (d : gmap string value) k :
  k ≠ "avg_" +:+ metric → averaged metric records d !! k = d !! k.
Proof.
  intros Hk. unfold averaged. destruct (qualifying metric records); [done|].
  by rewrite lookup_insert_ne.
Qed.

Lemma averaged_lookup_eq metric records (d : gmap string value) :
  averaged metric records d !! ("avg_" +:+ metric)
  = match qualifying metric records with
    | [] => d !! ("avg_" +:+ metric)
    | q => Some (VFloat (arithmetic_mean (omap num_of q)))
    end.
Proof.
  unfold averaged. destruct (qualifying metric records); [done|].
  by rewrite lookup_insert_eq.
Qed.

Lemma closing_data_lookup_avg ov now start records d metric :
  metric ∈ metrics_to_avg →
  closing_data ov now start records d !! ("avg_" +:+ metric)
  = match qualifying metric records with
    | [] => before_averages ov now start d !! ("avg_" +:+ metric)
    | q => Some (VFloat (arithmetic_mean (omap num_of q)))
    end.
Proof.
  intros Hm. unfold closing_data. fold (before_averages ov now start d).
  set (d1 := before_averages ov now start d).
  assert (∀ d2 : gmap string value,
            (if is_inf (default VNone (d2 !! "min_latency"))
             then <["min_latency":=VInt 0]> d2 else d2) !! ("avg_" +:+ metric)
            = d2 !! ("avg_" +:+ metric)) as ->.
  { intros d2. destruct (is_inf _); [|done]. apply lookup_insert_ne.
    unfold metrics_to_avg in Hm. rewrite !elem_of_cons, elem_of_nil in Hm.
    by destruct Hm as [->|[->|[->|[->|[]]]]]. }
  unfold metrics_to_avg in Hm. rewrite !elem_of_cons, elem_of_nil in Hm.
  destruct Hm as [->|[->|[->|[->|[]]]]];
    rewrite ?(averaged_lookup_ne "ttfb") by done;
    rewrite ?(averaged_lookup_ne "ttft") by done;
    rewrite ?(averaged_lookup_ne "eou_delay") by done;
    rewrite averaged_lookup_eq;
    destruct (qualifying _ records); try done;
    rewrite ?(averaged_lookup_ne "ttft") by done;
    rewrite ?(averaged_lookup_ne "eou_delay") by done;
    rewrite ?(averaged_lookup_ne "total_latency") by done; done.
Qed.

Lemma closing_data_lookup_min ov now start records d :
  closing_data ov now start records d !! "min_latency"
  = (λ v, if is_inf v then VInt 0 else v)
      <$> before_averages ov now start d !! "min_latency".
Proof.
  unfold closing_data. fold (before_averages ov now start d).
  set (d1 := before_averages ov now start d).
  rewrite !averaged_lookup_ne by done.
  destruct (d1 !! "min_latency") as [v|] eqn:E; simpl.
  - destruct (is_inf v); [by rewrite lookup_insert_eq|].
    by rewrite !averaged_lookup_ne.
  - by rewrite !averaged_lookup_ne.
Qed.

Lemma closing_data_lookup_other ov now start records d k :
  k ∉ avg_keys → k ≠ "min_latency" →
  closing_data ov now start records d !! k = before_averages ov now start d !! k.
Proof.
  unfold avg_keys. rewrite !not_elem_of_cons. intros (?&?&?&?&_) ?.
  unfold closing_data. fold (before_averages ov now start d).
  destruct (is_inf _); rewrite ?lookup_insert_ne by done;
    by rewrite !averaged_lookup_ne.
Qed.

Lemma before_averages_overlay ov now start d k v :
  default ∅ ov !! k = Some v → before_averages ov now start d !! k = Some v.
Proof. intros H. unfold before_averages. by apply lookup_union_Some_l. Qed.

Lemma before_averages_base ov now start d k :
  default ∅ ov !! k = None → k ≠ "duration" → k ≠ "end_time" →
  before_averages ov now start d !! k = d !! k.
Proof.
  intros H ? ?. unfold before_averages.
  rewrite lookup_union_r by done. by rewrite !lookup_insert_ne.
Qed.

(** The state from which the claims about [end_session] start, and the
    one it leaves. *)
Lemma closed_session_data start calls self ov now io :
  Forall (λ t, well_typed t = true) (valid_turns_of calls.*1) →
  means_defined calls.*1 = true →
  session_data (exec (end_session ov now io) (session start calls self))
  = closing_data ov now start calls.*1 (session_data (session start calls self)).
Proof.
  intros Htyped Hdef.
  destruct (end_session_closed start calls (session start calls self) ov now io)
    as (sid & dur & tot & _ & _ & _ & Hend); [apply session_inv|done..|].
  unfold exec. rewrite Hend. simpl.
  pose proof (after_export_frame io sid
    (set_session_data (closing_data ov now start calls.*1
                         (session_data (session start calls self)))
                      (session start calls self))) as (_ & Hd & _).
  by destruct (format_2f dur).
Qed.

(** ** Averages at the close *)




(** The key that [start_session] initialises is [avg_latency]; the one
    [_calculate_averages] assigns is [avg_total_latency].  A session
    without a qualifying total latency closes with the first at 0 and
    without the second. *)
Lemma avg_total_latency_absent :
  let final := exec (end_session None sample_end no_faults)
                    (session sample_start [] (new_logger "metrics")) in
  session_data final !! "avg_total_latency" = None
  ∧ session_data final !! "avg_latency" = Some (VInt 0).
Proof. split; by vm_compute. Qed.

(** ** The overlay *)




(** ** The least latency at the close *)

(** C6, as amended: when the overlay does not supply [min_latency], the
    field after [end_session] is a finite, non-negative number, and it is
    0 when no strictly positive total latency was observed; when the
    overlay supplies it, the field is the overlay's value, with
    +infinity replaced by 0.  The metrics of the turns that are not
    interrupted are numbers or absent, and the integers among the
    qualifying values of a metric add up to less than the least integer
    that overflows a float. *)
Theorem min_latency_at_close
  (start : datetime) (calls : list (gmap string value * datetime))
  (self : MetricsLogger) (session_summary : option (gmap string value))
  (now : datetime) (io : io_faults) :
  Forall (λ t, well_typed t = true) (valid_turns_of calls.*1) →
  averageable calls.*1 = true →
  let final := exec (end_session session_summary now io) (session start calls self) in
  (default ∅ session_summary !! "min_latency" = None →
   ∃ v q, session_data final !! "min_latency" = Some v
          ∧ num_of v = Some (Fin q) ∧ (0 <= q)%Q
          ∧ (positive_latencies calls.*1 = [] → v = VInt 0))
  ∧ (∀ w, default ∅ session_summary !! "min_latency" = Some w →
          session_data final !! "min_latency"
          = Some (if is_inf w then VInt 0 else w)).
Proof.
  intros Htyped Hrange%averageable_means_defined final. unfold final.
  rewrite closed_session_data, closing_data_lookup_min by done.
  split.
  - intros Hnone. rewrite before_averages_base by done.
    destruct (session_inv start calls self)
      as [_ _ _ _ _ _ _ _ (mn & Hmn & Hin & Hle) _].
    rewrite Hmn. simpl.
    destruct (is_inf mn) eqn:Einf.
    { exists (VInt 0), 0%Q. split_and!; done. }
    exists mn. apply elem_of_cons in Hin as [-> | Hin]; [done|].
    pose proof Hin as Hpos%positive_latencies_exceed.
    destruct (exceeds_num _ _ Hpos) as (x & Hx & Hlt).
    destruct x as [q| | |]; try done.
    + exists q. split_and!; [done..| |].
      * simpl in Hlt. apply Qltb_true in Hlt. by apply Qlt_le_weak.
      * intros HL. rewrite HL in Hin. by apply elem_of_nil in Hin.
    + apply num_of_inf in Hx as ->. done.
  - intros w Hw. by erewrite before_averages_overlay.
Qed.

Lemma min_latency_at_close_witness :
  session_data
    (exec (end_session None sample_end no_faults)
          (session sample_start
                   [({["total_latency" := VInt 0]}, sample_later)]
                   (new_logger "metrics")))
  !! "min_latency" = Some (VInt 0).
Proof.
  pose proof (min_latency_at_close sample_start
                [({["total_latency" := VInt 0]}, sample_later)]
                (new_logger "metrics") None sample_end no_faults) as H.
  cbv zeta in H.
  destruct H as [H _]; [repeat constructor|vm_compute; reflexivity|].
  destruct (H eq_refl) as (v & q & Hv & _ & _ & Hzero).
  exact (eq_trans Hv (f_equal Some (Hzero eq_refl))).
Defined.

(** C6 as stated fails: an overlay that supplies a negative
    [min_latency] leaves the field negative. *)
Lemma min_latency_overlay_counterexample :
  let final := exec (end_session (Some {["min_latency" := VFloat (Fin (-1))]})
                                 sample_end no_faults)
                    (session sample_start [] (new_logger "metrics")) in
  session_data final !! "min_latency" = Some (VFloat (Fin (-1)))
  ∧ ¬ (0 <= -1)%Q.
Proof. split; [by vm_compute|]. by vm_compute. Qed.

(** ** What the exporter writes *)

Lemma unguarded_row_positive name (q : list value) :
  q ≠ [] → Forall (λ v, exceeds 0 v = true) q → mean_defined q = true →
  ∃ row, unguarded_row name q = Returned row ∧ describes name q row.
Proof.
  intros Hne Hpos Hdef.
  assert (Hnum : Forall (λ v, numeric v = true) q).
  { eapply Forall_impl; [exact Hpos|]. intros v. apply exceeds_numeric. }
  destruct (py_min_positive q) as (mn & Hmn & Hmin); [done..|].
  destruct (py_max_positive q) as (mx & Hmx & Hmax); [done..|].
  unfold unguarded_row. rewrite py_mean_numeric, Hmn, Hmx by done.
  eexists. split; [reflexivity|].
  unfold describes. destruct q; [done|]. by exists mn, mx.
Qed.

Lemma guarded_row_positive name (q : list value) :
  Forall (λ v, exceeds 0 v = true) q → mean_defined q = true →
  ∃ row, guarded_row name q = Returned row ∧ describes name q row.
Proof.
  intros Hpos Hdef. destruct q as [|v q'].
  - eexists. split; reflexivity.
  - by apply (unguarded_row_positive name (v :: q')).
Qed.

Lemma threshold_row_gt name (c : Q) (latencies : list value) :
  Forall (λ v, numeric v = true) latencies →
  threshold_row name (λ l, py_gt l (VFloat (Fin c))) latencies
  = Returned (threshold_of name (exceeds c) latencies).
Proof.
  intros H. unfold threshold_row.
  by rewrite (filter_raising_gt (VFloat (Fin c)) c).
Qed.

Lemma threshold_row_lt name (c : Q) (latencies : list value) :
  Forall (λ v, numeric v = true) latencies →
  threshold_row name (λ l, py_lt l (VFloat (Fin c))) latencies
  = Returned (threshold_of name (below c) latencies).
Proof.
  intros H. unfold threshold_row.
  by rewrite (filter_raising_lt (VFloat (Fin c)) c).
Qed.

Lemma analysis_rows_typed (records : list (gmap string value)) :
  Forall (λ t, well_typed t = true) (valid_turns_of records) →
  means_defined records = true →
  ∃ rows, analysis_rows (valid_turns_of records) = Returned rows
          ∧ latency_analysis_of records rows.
Proof.
  intros Htyped Hdef. unfold analysis_rows, latency_analysis_of.
  rewrite !positive_values_typed by (done || (unfold metrics_to_avg; set_solver)).
  cbn [mbind outcome_bind].
  pose proof (qualifying_numeric "total_latency" records) as Hnum.
  pose proof (qualifying_positive "total_latency" records) as Hpos.
  rewrite !threshold_row_gt, threshold_row_lt by done.
  destruct (qualifying "total_latency" records) as [|v q'] eqn:E.
  - cbn [mbind outcome_bind]. eexists. split; [reflexivity|]. by exists [].
  - rewrite <- E in *.
    destruct (unguarded_row_positive "Total Latency" (qualifying "total_latency" records))
      as (r1 & -> & Hr1);
      [by rewrite E|done|apply means_defined_metric; [done|repeat constructor]|].
    destruct (guarded_row_positive "EOU Delay" (qualifying "eou_delay" records))
      as (r2 & -> & Hr2);
      [apply qualifying_positive|apply means_defined_metric; [done|repeat constructor]|].
    destruct (guarded_row_positive "TTFT" (qualifying "ttft" records))
      as (r3 & -> & Hr3);
      [apply qualifying_positive|apply means_defined_metric; [done|repeat constructor]|].
    destruct (guarded_row_positive "TTFB" (qualifying "ttfb" records))
      as (r4 & -> & Hr4);
      [apply qualifying_positive|apply means_defined_metric; [done|repeat constructor]|].
    cbn [mbind outcome_bind mret outcome_ret].
    eexists. split; [reflexivity|]. exists [r1; r2; r3; r4]. split; [done|].
    by exists r1, r2, r3, r4.
Qed.

Lemma after_export_files io session_id self :
  files (after_export io session_id self)
  = files self ++ exported_files io session_id self.
Proof.
  unfold after_export, exported_files, fallback_files.
  destruct (write_workbook_cases io (ExcelPath (output_dir self) session_id) self)
    as [(e & -> & _) | ->]; [|done].
  unfold after_fallback. destruct self as [dir d turns st lg fs]. simpl.
  destruct (io _); [by rewrite app_nil_r|]. destruct turns; [done|].
  destruct (io _); [done|]. simpl. by rewrite <- app_assoc.
Qed.

(** A failed workbook is logged, and so is a failed fallback. *)
Lemma after_export_log io session_id self e :
  (write_workbook io (ExcelPath (output_dir self) session_id) self).1 = Raised e →
  let self' := after_export io session_id self in
  (ERROR, MsgExcelFailed e) ∈ log self'
  ∧ (∀ e', io (ToCsv (SessionCsvPath (output_dir self) session_id)) = Some e' →
           (ERROR, MsgCsvFailed e') ∈ log self')
  ∧ (∀ e', io (ToCsv (SessionCsvPath (output_dir self) session_id)) = None →
           turn_metrics self ≠ [] →
           io (ToCsv (TurnCsvPath (output_dir self) session_id)) = Some e' →
           (ERROR, MsgCsvFailed e') ∈ log self').
Proof.
  unfold after_export.
  destruct (write_workbook_cases io (ExcelPath (output_dir self) session_id) self)
    as [(e0 & -> & _) | ->]; [|done].
  simpl. intros [= ->].
  unfold after_fallback. destruct self as [dir d turns st lg fs]. simpl.
  split_and!.
  - destruct (io _); [set_solver|]. destruct turns; [set_solver|].
    destruct (io _); set_solver.
  - intros e' ->. set_solver.
  - intros e' -> Hne ->. destruct turns; [done|]. set_solver.
Qed.

Lemma closed_session_export start calls self ov now io :
  Forall (λ t, well_typed t = true) (valid_turns_of calls.*1) →
  means_defined calls.*1 = true →
  let before := session start calls self in
  let result := end_session ov now io before in
  let d := closing_data ov now start calls.*1 (session_data before) in
  let ready := set_session_data d before in
  ∃ sid dur,
    d !! "session_id" = Some sid ∧ d !! "duration" = Some dur
    ∧ result.1 = match format_2f dur with
                 | Returned _ => Returned tt
                 | Raised e => Raised e
                 end
    ∧ files result.2 = files before ++ exported_files io sid ready
    ∧ session_data result.2 = d
    ∧ ∀ r, r ∈ log (after_export io sid ready) → r ∈ log result.2.
Proof.
  intros Htyped Hdef before result d ready.
  destruct (end_session_closed start calls before ov now io)
    as (sid & dur & tot & Hsid & Hdur & _ & Hend); [apply session_inv|done..|].
  exists sid, dur. split_and!; [done..| | | |].
  - unfold result. rewrite Hend. simpl. by destruct (format_2f dur) as [[]|].
  - unfold result. rewrite Hend. simpl.
    destruct (format_2f dur); simpl; by rewrite after_export_files.
  - by apply closed_session_data.
  - intros r Hr. unfold result. rewrite Hend. simpl.
    destruct (format_2f dur); simpl; set_solver.
Qed.

Lemma valid_turns_of_stamped_nil start calls :
  valid_turns_of (stamped start calls) = [] ↔ valid_turns_of calls.*1 = [].
Proof.
  rewrite valid_turns_of_stamped, valid_turns_of_fst.
  destruct (List.filter _ calls); simpl; split; done.
Qed.

Lemma latency_analysis_of_stamped start calls rows :
  latency_analysis_of (stamped start calls) rows ↔ latency_analysis_of calls.*1 rows.
Proof.
  unfold latency_analysis_of.
  by rewrite !qualifying_stamped by (unfold metrics_to_avg; set_solver).
Qed.

(** The analysis sheet of a session: none without a turn that was not
    interrupted, otherwise the table of [latency_analysis_of]. *)
Lemma latency_analysis_sheet_typed start calls :
  Forall (λ t, well_typed t = true) (valid_turns_of calls.*1) →
  means_defined calls.*1 = true →
  match valid_turns_of calls.*1 with
  | [] => latency_analysis_sheet (stamped start calls) = []
  | _ => ∃ rows,
      latency_analysis_sheet (stamped start calls) = [("Latency_Analysis", rows)]
      ∧ latency_analysis_of calls.*1 rows
  end.
Proof.
  intros Htyped Hdef. unfold latency_analysis_sheet.
  destruct (analysis_rows_typed (stamped start calls)) as (rows & Hrows & Hspec);
    [by apply well_typed_stamped|by rewrite means_defined_stamped|].
  apply (proj1 (latency_analysis_of_stamped start calls rows)) in Hspec.
  pose proof (valid_turns_of_stamped_nil start calls) as Hnil.
  destruct (valid_turns_of calls.*1) as [|t ts].
  - rewrite (proj2 Hnil eq_refl). reflexivity.
  - destruct (valid_turns_of (stamped start calls)) as [|t' ts'] eqn:E.
    + discriminate (proj1 Hnil eq_refl).
    + rewrite Hrows. exists rows. split; [reflexivity|exact Hspec].
Qed.

Lemma write_workbook_ok io filepath self start calls :
  turn_metrics self = stamped start calls →
  Forall (λ t, well_typed t = true) (valid_turns_of calls.*1) →
  means_defined calls.*1 = true →
  (∀ op, io op = None) →
  write_workbook io filepath self
  = (Returned tt,
     add_log (INFO, MsgSaved filepath)
             (add_file filepath (Workbook (sheets_written self)) self)).
Proof.
  intros Htm Htyped Hdef Hio.
  destruct (write_workbook_cases io filepath self)
    as [(e & _ & [[op Hop] | Hraise]) | H]; [| |done].
  - by rewrite Hio in Hop.
  - rewrite Htm in Hraise.
    destruct (analysis_rows_typed (stamped start calls)) as (rows & Hrows & _);
      [by apply well_typed_stamped|by rewrite means_defined_stamped|].
    by rewrite Hrows in Hraise.
Qed.

(** ** The Latency Analysis table *)

(** The analysis table of a session whose metrics are numbers. *)
Lemma latency_analysis_table_typed
  (start : datetime) (calls : list (gmap string value * datetime))
  (self : MetricsLogger) (session_summary : option (gmap string value))
  (now : datetime) (io : io_faults) :
  Forall (λ t, well_typed t = true) (valid_turns_of calls.*1) →
  means_defined calls.*1 = true →
  let before := session start calls self in
  let final := exec (end_session session_summary now io) before in
  ∃ new,
    files final = files before ++ new
    ∧ ((∀ op, io op = None) → ∃ p sheets, new = [(p, Workbook sheets)])
    ∧ ∀ p sheets, (p, Workbook sheets) ∈ new →
        match valid_turns_of calls.*1 with
        | [] => ∀ rows, ("Latency_Analysis", rows) ∉ sheets
        | _ => ∃ rows, ("Latency_Analysis", rows) ∈ sheets
                       ∧ (∀ rows', ("Latency_Analysis", rows') ∈ sheets → rows' = rows)
                       ∧ latency_analysis_of calls.*1 rows
        end.
Proof.
  intros Htyped Hdef before final.
  destruct (closed_session_export start calls self session_summary now io Htyped Hdef)
    as (sid & dur & _ & _ & _ & Hfiles & _ & _).
  fold before in Hfiles. unfold final, exec.
  set (ready := set_session_data _ before) in Hfiles.
  assert (Htm : turn_metrics ready = stamped start calls).
  { simpl. apply (inv_turn_metrics start calls). apply session_inv. }
  eexists. split; [exact Hfiles|]. split.
  - intros Hio. unfold exported_files.
    erewrite write_workbook_ok by done. eauto.
  - intros p sheets Hin. unfold exported_files in Hin.
    destruct (write_workbook_cases io (ExcelPath (output_dir ready) sid) ready)
      as [(e & Hw & _) | Hw]; rewrite Hw in Hin.
    { unfold fallback_files in Hin. destruct (io _); [set_solver|].
      destruct (turn_metrics ready); [set_solver|]. destruct (io _); set_solver. }
    apply list_elem_of_singleton in Hin. injection Hin as _ ->.
    unfold sheets_written. rewrite Htm. unfold turn_details_sheet.
    pose proof (latency_analysis_sheet_typed start calls Htyped Hdef) as Hla.
    destruct (valid_turns_of calls.*1) as [|t ts].
    + rewrite Hla. intros rows. destruct (stamped start calls); set_solver.
    + destruct Hla as (rows & -> & Hspec). exists rows. split_and!; [|  |done].
      * destruct (stamped start calls); set_solver.
      * intros rows'. destruct (stamped start calls); set_solver.
Qed.


Lemma not_avg_key k : k ∉ avg_keys ↔
  k ≠ "avg_total_latency" ∧ k ≠ "avg_eou_delay" ∧ k ≠ "avg_ttft" ∧ k ≠ "avg_ttfb".
Proof.
  unfold avg_keys. rewrite !not_elem_of_cons.
  pose proof (not_elem_of_nil k). tauto.
Qed.

(** ** Failure of the export *)




(** ** The Turn Details table *)

(** The Turn Details of a session whose metrics are numbers. *)
Lemma turn_details_rows_typed
  (start : datetime) (calls : list (gmap string value * datetime))
  (self : MetricsLogger) (session_summary : option (gmap string value))
  (now : datetime) (io : io_faults) :
  Forall (λ t, well_typed t = true) (valid_turns_of calls.*1) →
  means_defined calls.*1 = true →
  let before := session start calls self in
  let final := exec (end_session session_summary now io) before in
  let rows := stamped start calls in
  turn_metrics before = rows
  ∧ length rows = length calls
  ∧ (∀ i c, calls !! i = Some c →
       ∃ row, rows !! i = Some row
              ∧ ∀ k, k ≠ "timestamp" → k ≠ "session_id" → row !! k = c.1 !! k)
  ∧ ∃ new,
      files final = files before ++ new
      ∧ (∀ p sheets table,
           (p, Workbook sheets) ∈ new → ("Turn_Details", table) ∈ sheets →
           table = rows)
      ∧ (∀ dir sid table, (TurnCsvPath dir sid, Csv table) ∈ new → table = rows)
      ∧ ((∀ op, io op = None) → calls ≠ [] →
         ∃ p sheets, new = [(p, Workbook sheets)] ∧ ("Turn_Details", rows) ∈ sheets)
      ∧ (calls = [] →
         ∀ p a, (p, a) ∈ new →
           (∀ dir sid, p ≠ TurnCsvPath dir sid)
           ∧ ∀ sheets table, a = Workbook sheets → ("Turn_Details", table) ∉ sheets).
Proof.
  intros Htyped Hdef before final rows.
  assert (Hrows : turn_metrics before = rows).
  { apply (inv_turn_metrics start calls). apply session_inv. }
  split_and!; [done|apply length_map| |].
  { intros i c Hc. exists (stamp c.1 c.2 (VStr (strftime start))). split.
    - unfold rows, stamped. by rewrite list_lookup_fmap, Hc.
    - intros k ? ?. unfold stamp. by rewrite !lookup_insert_ne. }
  destruct (closed_session_export start calls self session_summary now io Htyped Hdef)
    as (sid & dur & _ & _ & _ & Hfiles & _ & _).
  fold before in Hfiles. unfold final, exec.
  set (ready := set_session_data _ before) in Hfiles.
  assert (Htm : turn_metrics ready = rows) by done.
  pose proof (latency_analysis_sheet_typed start calls Htyped Hdef) as Hla.
  fold rows in Hla.
  eexists. split; [exact Hfiles|].
  unfold exported_files.
  destruct (write_workbook_cases io (ExcelPath (output_dir ready) sid) ready)
    as [(e & Hw & Hwhy) | Hw]; rewrite Hw.
  - unfold fallback_files. rewrite Htm. split_and!.
    + intros p sheets table Hin. exfalso.
      destruct (io _); [by apply elem_of_nil in Hin|].
      apply elem_of_cons in Hin as [[=]|Hin].
      destruct rows; [by apply elem_of_nil in Hin|].
      destruct (io _); [by apply elem_of_nil in Hin|].
      by apply list_elem_of_singleton in Hin.
    + intros dir sid' table Hin.
      destruct (io _); [by apply elem_of_nil in Hin|].
      apply elem_of_cons in Hin as [[=]|Hin].
      destruct rows as [|r rs] eqn:Er; [by apply elem_of_nil in Hin|].
      destruct (io _); [by apply elem_of_nil in Hin|].
      apply list_elem_of_singleton in Hin. by injection Hin as _ _ ->.
    + intros Hio _. exfalso. destruct Hwhy as [[op Hop]|Hraise].
      * by rewrite Hio in Hop.
      * rewrite Htm in Hraise.
        destruct (analysis_rows_typed (stamped start calls)) as (t & Ht & _);
          [by apply well_typed_stamped|by rewrite means_defined_stamped|].
        fold rows in Ht. by rewrite Ht in Hraise.
    + intros Hnil p a Hin.
      assert (Hr : rows = []) by (unfold rows; by rewrite Hnil).
      rewrite Hr in Hin.
      destruct (io _); [by apply elem_of_nil in Hin|].
      apply list_elem_of_singleton in Hin. injection Hin as -> ->.
      split; [done|]. intros sheets table Ha. discriminate Ha.
  - assert (Hsheet : ∀ table, ("Turn_Details", table) ∈ sheets_written ready →
                              table = rows).
    { intros table. unfold sheets_written. rewrite Htm.
      rewrite !elem_of_app. intros [Hin|[Hin|Hin]].
      - by apply list_elem_of_singleton in Hin.
      - unfold turn_details_sheet in Hin.
        destruct rows eqn:Er; [by apply elem_of_nil in Hin|].
        apply list_elem_of_singleton in Hin. by injection Hin as ->.
      - destruct (valid_turns_of calls.*1).
        + rewrite Hla in Hin. by apply elem_of_nil in Hin.
        + destruct Hla as (t & Ht & _). rewrite Ht in Hin.
          by apply list_elem_of_singleton in Hin. }
    split_and!.
    + intros p sheets table Hin. apply list_elem_of_singleton in Hin.
      injection Hin as _ ->. apply Hsheet.
    + intros dir sid' table Hin. by apply list_elem_of_singleton in Hin.
    + intros _ Hne. eexists _, _. split; [reflexivity|].
      unfold sheets_written. rewrite Htm. rewrite !elem_of_app. right. left.
      unfold turn_details_sheet. destruct rows eqn:Er.
      * destruct calls; [done|discriminate Er].
      * by apply list_elem_of_singleton.
    + intros Hnil p a Hin.
      apply list_elem_of_singleton in Hin. injection Hin as -> ->.
      split; [done|]. intros sheets table [= <-] Hin.
      unfold sheets_written in Hin. rewrite Htm in Hin.
      rewrite Hnil in Hla. cbn [fmap list_fmap valid_turns_of List.filter] in Hla.
      rewrite Hla in Hin.
      assert (Hr : rows = []) by (unfold rows; by rewrite Hnil).
      rewrite Hr in Hin. cbn [turn_details_sheet app] in Hin.
      apply list_elem_of_singleton in Hin. discriminate Hin.
Qed.

(** ** Records that are not numbers *)

Lemma filter_raising_gt_raises (c : value) (l : list value) :
  is_Some (num_of c) →
  Exists (λ v, numeric v = false) l →
  filter_raising (λ v, py_gt v c) l = Raised TypeError.
Proof.
  intros [y Hy]. induction l as [|x l IH]; intros Hex; [by inversion Hex|].
  cbn [filter_raising].
  assert (Hcmp : py_gt x c = match num_of x with
                             | Some n => Returned (flt_ltb y n)
                             | None => Raised TypeError
                             end)
    by (unfold py_gt, py_lt; by rewrite Hy).
  rewrite Hcmp.
  destruct (num_of x) as [n|] eqn:Hx; [|reflexivity].
  cbn [mbind outcome_bind]. rewrite IH; [done|].
  inversion Hex as [? ? Hbad|]; subst; [|done].
  unfold numeric in Hbad. by rewrite Hx in Hbad.
Qed.

Lemma not_well_typed (turns : list (gmap string value)) :
  ¬ Forall (λ t, well_typed t = true) turns →
  ∃ metric, metric ∈ metrics_to_avg
            ∧ Exists (λ v, numeric v = false)
                     (map (λ t, dict_get t metric (VInt 0)) turns).
Proof.
  intros Hnot. apply not_Forall_Exists in Hnot; [|intros t; apply _].
  apply Exists_exists in Hnot as (t & Hin & Hbad).
  apply not_true_is_false in Hbad.
  assert (∃ metric, metric ∈ metrics_to_avg
                    ∧ numeric (dict_get t metric (VInt 0)) = false)
    as (metric & Hm & Hnum).
  { unfold well_typed, metrics_to_avg in *. cbn [forallb] in Hbad.
    rewrite !andb_false_iff in Hbad.
    destruct Hbad as [H|[H|[H|[H|H]]]]; [..|done];
      eexists; (split; [|exact H]); repeat constructor. }
  exists metric. split; [done|].
  apply Exists_exists. exists (dict_get t metric (VInt 0)). split; [|done].
  apply list_elem_of_fmap. by exists t.
Qed.

(** Whatever a round of the loop does, it leaves the files alone. *)
Lemma average_metric_files valid metric self :
  files (average_metric valid metric self).2 = files self.
Proof.
  unfold average_metric, mbind, M_bind, lift.
  destruct (positive_values metric valid) as [[|v vs]|e]; [done| |done].
  by destruct (py_mean (v :: vs)).
Qed.

Lemma average_metric_raises valid metric self :
  Exists (λ v, numeric v = false) (map (λ t, dict_get t metric (VInt 0)) valid) →
  (average_metric valid metric self).1 = Raised TypeError.
Proof.
  intros Hex. unfold average_metric, mbind, M_bind, lift, positive_values.
  by rewrite filter_raising_gt_raises.
Qed.

Lemma for_each_files {A} (l : list A) (body : A → M unit) self :
  (∀ x self, files (body x self).2 = files self) →
  files (for_each l body self).2 = files self.
Proof.
  intros Hbody. revert self. induction l as [|x l IH]; intros self; [done|].
  cbn [for_each]. unfold mbind, M_bind.
  pose proof (Hbody x self) as Hx.
  destruct (body x self) as [[[]|e] self']; simpl in *; [|done].
  by rewrite IH.
Qed.

Lemma for_each_raises {A} (l : list A) (body : A → M unit) (x : A) self :
  x ∈ l → (∀ self, ∃ e, (body x self).1 = Raised e) →
  ∃ e, (for_each l body self).1 = Raised e.
Proof.
  intros Hin Hraise. revert self.
  induction l as [|y l IH]; intros self; [by apply elem_of_nil in Hin|].
  cbn [for_each]. unfold mbind, M_bind.
  destruct (body y self) as [[[]|e] self'] eqn:Ey; [|by exists e].
  apply elem_of_cons in Hin as [-> | Hin].
  - destruct (Hraise self) as [e He]. by rewrite Ey in He.
  - by apply IH.
Qed.

Lemma _calculate_averages_untyped self :
  ¬ Forall (λ t, well_typed t = true) (valid_turns_of (turn_metrics self)) →
  ∃ e self', _calculate_averages self = (Raised e, self') ∧ files self' = files self.
Proof.
  intros Hnot.
  destruct (not_well_typed _ Hnot) as (metric & Hm & Hex).
  unfold _calculate_averages. erewrite bind_returned; [|reflexivity].
  destruct (valid_turns_of (turn_metrics self)) as [|t ts] eqn:E.
  { by inversion Hex. }
  set (valid := t :: ts) in *.
  destruct (for_each_raises metrics_to_avg (average_metric valid) metric self Hm)
    as [e He].
  { intros s. exists TypeError. by apply average_metric_raises. }
  pose proof (for_each_files metrics_to_avg (average_metric valid) self
                (average_metric_files valid)) as Hf.
  destruct (for_each metrics_to_avg (average_metric valid) self) as [o s'].
  simpl in *. subst o. by exists e, s'.
Qed.

Lemma well_typed_stamped_inv start calls :
  Forall (λ t, well_typed t = true) (valid_turns_of (stamped start calls)) →
  Forall (λ t, well_typed t = true) (valid_turns_of calls.*1).
Proof.
  rewrite valid_turns_of_stamped, valid_turns_of_fst, !Forall_fmap.
  intros H. eapply Forall_impl; [exact H|].
  intros [r now]. simpl. unfold well_typed, metrics_to_avg.
  simpl. by rewrite !stamp_get.
Qed.

(** With a metric that is not a number in a turn that was not interrupted,
    [end_session] raises out of [_calculate_averages], before the export. *)
Lemma end_session_untyped start calls self ov now io :
  recorder_inv start calls self →
  ¬ Forall (λ t, well_typed t = true) (valid_turns_of calls.*1) →
  ∃ e self', end_session ov now io self = (Raised e, self')
             ∧ files self' = files self.
Proof.
  intros Hinv Hnot.
  destruct Hinv as [Hst _ Htm _ _ _ _ _ _ Hrest].
  unfold end_session.
  erewrite bind_returned; [|reflexivity]. rewrite Hst.
  erewrite bind_returned; [|reflexivity].
  erewrite bind_returned; [|apply get_spec; simpl; apply lookup_insert_eq].
  erewrite bind_returned;
    [|apply get_spec; simpl; rewrite lookup_insert_ne by done;
      rewrite Hrest by (by apply not_running); reflexivity].
  erewrite bind_returned; [|reflexivity].
  erewrite bind_returned; [|reflexivity].
  erewrite bind_returned; [|apply update_spec].
  erewrite bind_returned; [|reflexivity].
  set (s1 := set_session_data _ _).
  assert (Htm1 : turn_metrics s1 = stamped start calls) by done.
  destruct (_calculate_averages_untyped s1) as (e & s' & Hraise & Hfiles).
  { rewrite Htm1. intros H. by apply Hnot, (well_typed_stamped_inv start). }
  exists e, s'. split; [|done].
  apply bind_raised. rewrite Htm1.
  destruct (stamped start calls) as [|t ts] eqn:E; [|done].
  exfalso. apply Hnot. destruct calls; [constructor|discriminate E].
Qed.

Lemma recorder_closable start calls self :
  recorder_inv start calls self →
  Forall (λ t, well_typed t = true) (valid_turns_of calls.*1) →
  closable start self.
Proof.
  intros [Hst Hsid Htm Htot _ _ _ _ (mn & Hmn & _) Hrest] Htyped.
  split; rewrite ?Hst, ?Hsid, ?Htot, ?Hmn; try by eexists.
  - by rewrite Hrest by (by apply not_running).
  - rewrite Htm. by apply well_typed_stamped.
Qed.

(** With metrics that are numbers and a mean that cannot be taken,
    [end_session] raises out of [_calculate_averages], before the export,
    and keeps the averages assigned until then. *)
Lemma end_session_overflow start self ov now io :
  closable start self →
  means_defined (turn_metrics self) = false →
  ∃ e, (averages_from metrics_to_avg (turn_metrics self)
          (before_averages ov now start (session_data self))).1 = Raised e
       ∧ end_session ov now io self
         = (Raised e,
            set_session_data
              (averages_from metrics_to_avg (turn_metrics self)
                 (before_averages ov now start (session_data self))).2 self).
Proof.
  intros [[t Hst] Hstart Hsid Hmn Htot Htyped] Hdef.
  remember (turn_metrics self) as records eqn:Htm.
  set (run := averages_from metrics_to_avg records _).
  destruct (run.1) as [[]|e] eqn:Erun.
  { apply averages_from_returns in Erun. unfold means_defined in Hdef. congruence. }
  exists e. split; [done|].
  unfold end_session.
  erewrite bind_returned; [|reflexivity]. rewrite Hst.
  erewrite bind_returned; [|reflexivity].
  erewrite bind_returned; [|apply get_spec; simpl; apply lookup_insert_eq].
  erewrite bind_returned;
    [|apply get_spec; simpl; rewrite lookup_insert_ne by done; exact Hstart].
  erewrite bind_returned; [|reflexivity].
  erewrite bind_returned; [|reflexivity].
  erewrite bind_returned; [|apply update_spec].
  erewrite bind_returned; [|reflexivity].
  simpl.
  set (d1 := default ∅ ov ∪ _).
  replace (set_session_data d1 _) with (set_session_data d1 self) by (by destruct self).
  apply bind_raised.
  assert (Hrun : _calculate_averages (set_session_data d1 self)
                 = (Raised e, set_session_data run.2 self)).
  { rewrite (_calculate_averages_run records); [|done|exact Htyped].
    change (session_data (set_session_data d1 self))
      with (before_averages ov now start (session_data self)).
    fold run. by rewrite Erun. }
  change (turn_metrics (set_session_data d1 self)) with (turn_metrics self).
  rewrite <- Htm. clearbody run.
  destruct records as [|r rs]; [discriminate Hdef|exact Hrun].
Qed.

Lemma end_session_overflow_files start self ov now io :
  closable start self →
  means_defined (turn_metrics self) = false →
  files (exec (end_session ov now io) self) = files self.
Proof.
  intros Hc Hdef.
  destruct (end_session_overflow start self ov now io Hc Hdef) as (e & _ & Hend).
  unfold exec. by rewrite Hend.
Qed.

(** ** The tables of any session *)

Lemma closed_session_untyped start calls self ov now io :
  ¬ Forall (λ t, well_typed t = true) (valid_turns_of calls.*1) →
  let before := session start calls self in
  files (exec (end_session ov now io) before) = files before.
Proof.
  intros Hnot before.
  destruct (end_session_untyped start calls before ov now io)
    as (e & s' & Hend & Hfiles); [apply session_inv|done|].
  unfold exec. by rewrite Hend.
Qed.

Lemma closed_session_overflow start calls self ov now io :
  Forall (λ t, well_typed t = true) (valid_turns_of calls.*1) →
  means_defined calls.*1 = false →
  let before := session start calls self in
  files (exec (end_session ov now io) before) = files before.
Proof.
  intros Htyped Hdef before.
  apply (end_session_overflow_files start).
  - eapply recorder_closable; [apply session_inv|done].
  - unfold before.
    rewrite (inv_turn_metrics start calls _ (session_inv start calls self)).
    change (means_defined (stamped start calls) = false).
    by rewrite means_defined_stamped.
Qed.

(** A session whose close raises in [_calculate_averages]: its metrics are
    not all numbers, or a mean cannot be taken. *)
Lemma closed_session_raises start calls self ov now io :
  ¬ (Forall (λ t, well_typed t = true) (valid_turns_of calls.*1)
     ∧ means_defined calls.*1 = true) →
  let before := session start calls self in
  files (exec (end_session ov now io) before) = files before.
Proof.
  intros Hnot before.
  destruct (decide (Forall (λ t, well_typed t = true) (valid_turns_of calls.*1)))
    as [Htyped|Hbad]; [|by apply closed_session_untyped].
  apply closed_session_overflow; [done|].
  destruct (means_defined calls.*1); [|done]. by destruct Hnot.
Qed.






(** ** Scenarios *)

(** Three turns of 0.5, 1.5 and 2.5 seconds, none interrupted, closed
    without overlay. *)
Example scenario_three_turns :
  let final := exec (end_session None sample_end no_faults)
                    (session sample_start
                       [({["total_latency" := VFloat (Fin (1 # 2))]}, sample_later);
                        ({["total_latency" := VFloat (Fin (3 # 2))]}, sample_later);
                        ({["total_latency" := VFloat (Fin (5 # 2))]}, sample_later)]
                       (new_logger "metrics")) in
  session_data final !! "max_latency" = Some (VFloat (Fin (5 # 2)))
  ∧ session_data final !! "min_latency" = Some (VFloat (Fin (1 # 2)))
  ∧ session_data final !! "high_latency_turns" = Some (VInt 1)
  ∧ ∃ q, session_data final !! "avg_total_latency" = Some (VFloat (Fin q))
         ∧ (q == 3 # 2)%Q.
Proof.
  split_and!; [by vm_compute..|]. eexists. split; by vm_compute.
Qed.

(** One interrupted turn of 5.0 seconds: it counts as interrupted and
    moves the extremes, and no average is assigned. *)
Example scenario_interrupted_turn :
  let final := exec (end_session None sample_end no_faults)
                    (session sample_start
                       [({["interrupted" := VBool true;
                           "total_latency" := VFloat (Fin 5)]}, sample_later)]
                       (new_logger "metrics")) in
  session_data final !! "interrupted_turns" = Some (VInt 1)
  ∧ session_data final !! "successful_turns" = Some (VInt 0)
  ∧ session_data final !! "max_latency" = Some (VFloat (Fin 5))
  ∧ session_data final !! "avg_latency" = Some (VInt 0)
  ∧ session_data final !! "avg_total_latency" = None.
Proof. split_and!; by vm_compute. Qed.

(** An overlay that replaces [total_turns] after two turns. *)
Example scenario_overlay_total_turns :
  let final := exec (end_session (Some {["total_turns" := VInt 999]})
                                 sample_end no_faults)
                    (session sample_start
                       [({["total_latency" := VFloat (Fin 1)]}, sample_later);
                        ({["total_latency" := VFloat (Fin 3)]}, sample_later)]
                       (new_logger "metrics")) in
  session_data final !! "total_turns" = Some (VInt 999).
Proof. by vm_compute. Qed.

(** * Properties of the rest of the logger, and of its callers *)

(** ** What a method keeps *)

(** The rules that follow the structure of a method body. *)

Section Keeps.
Context (R : relation MetricsLogger) `{!PreOrder R}.

Lemma keeps_ret {A} (a : A) : keeps R (mret a : M A).
Proof. intros self. simpl. reflexivity. Qed.

Lemma keeps_lift {A} (r : outcome A) : keeps R (lift r).
Proof. intros self. simpl. reflexivity. Qed.

Lemma keeps_bind {A B} (m : M A) (k : A → M B) :
  keeps R m → (∀ a, keeps R (k a)) → keeps R (m ≫= k).
Proof.
  intros Hm Hk self. unfold mbind, M_bind.
  pose proof (Hm self) as H1. destruct (m self) as [[a|e] s]; simpl in *; [|done].
  etrans; [exact H1|]. apply Hk.
Qed.

Lemma keeps_get_self : keeps R get_self.
Proof. intros self. simpl. reflexivity. Qed.

Lemma keeps_modify (f : MetricsLogger → MetricsLogger) :
  (∀ self, R self (f self)) → keeps R (modify f).
Proof. intros Hf self. apply Hf. Qed.

Lemma keeps_skip : keeps R skip.
Proof. apply keeps_ret. Qed.

Lemma keeps_when (b : bool) (m : M unit) : keeps R m → keeps R (when b m).
Proof. destruct b; [done|]. intros _. apply keeps_skip. Qed.

Lemma keeps_io_step io op : keeps R (io_step io op).
Proof. unfold io_step. destruct (io op); [apply keeps_lift|apply keeps_ret]. Qed.

Lemma keeps_session_data_get k : keeps R (session_data_get k).
Proof.
  intros self. unfold session_data_get.
  destruct (session_data self !! k); simpl; reflexivity.
Qed.

Lemma keeps_try_except {A} (body : M A) (handler : exn → M A) :
  keeps R body → (∀ e, keeps R (handler e)) → keeps R (try_except body handler).
Proof.
  intros Hb Hh self. unfold try_except.
  pose proof (Hb self) as H1. destruct (body self) as [[a|e] s]; simpl in *; [done|].
  etrans; [exact H1|]. apply Hh.
Qed.

Lemma keeps_for_each {A} (l : list A) (body : A → M unit) :
  (∀ x, keeps R (body x)) → keeps R (for_each l body).
Proof.
  intros Hb. induction l as [|x l IH]; [apply keeps_ret|].
  apply keeps_bind; [apply Hb|]. intros _. exact IH.
Qed.
End Keeps.

Global Instance same_session_preorder : PreOrder same_session.
Proof.
  split; [by intros a|].
  intros a b c (?&?&?) (?&?&?). unfold same_session. split_and!; congruence.
Qed.

Global Instance same_files_preorder : PreOrder same_files.
Proof.
  split; [by intros a|].
  intros a b c (?&?) (?&?). unfold same_files. split_and!; congruence.
Qed.

Global Instance grows_preorder : PreOrder grows.
Proof.
  split; [by intros a|].
  intros a b c (?&?) (?&?). split; by etrans.
Qed.

(** Assignments to the session dictionary touch none of the three. *)
Lemma set_session_data_same_session d self : same_session self (set_session_data d self).
Proof. done. Qed.
Lemma set_session_data_same_files d self : same_files self (set_session_data d self).
Proof. done. Qed.
Lemma set_session_data_grows d self : grows self (set_session_data d self).
Proof. done. Qed.
Lemma add_log_same_session r self : same_session self (add_log r self).
Proof. done. Qed.
Lemma add_log_same_files r self : same_files self (add_log r self).
Proof. done. Qed.
Lemma add_log_grows r self : grows self (add_log r self).
Proof. split; simpl; [by apply prefix_app_r|done]. Qed.
Lemma add_file_same_session p a self : same_session self (add_file p a self).
Proof. done. Qed.
Lemma add_file_grows p a self : grows self (add_file p a self).
Proof. split; simpl; [done|by apply prefix_app_r]. Qed.

Create HintDb keeps.
#[export] Hint Resolve keeps_ret keeps_lift keeps_skip keeps_io_step
  keeps_session_data_get : keeps.
#[export] Hint Resolve set_session_data_same_session set_session_data_same_files
  set_session_data_grows add_log_same_session add_log_same_files add_log_grows
  add_file_same_session add_file_grows : keeps.

(** One step of a proof that a method keeps a relation: follow the
    structure of its body. *)
Ltac keeps_step :=
  match goal with
  | |- keeps _ (_ ≫= _) => apply keeps_bind; [apply _| |intros ?]
  | |- keeps _ (when _ _) => apply keeps_when; [apply _|]
  | |- keeps _ (try_except _ _) => apply keeps_try_except; [apply _| |intros ?]
  | |- keeps _ (for_each _ _) => apply keeps_for_each; [apply _|]; intros ?
  | |- keeps _ (modify _) => apply keeps_modify; intros ?; cbv beta
  | |- keeps _ (logger_info _) => apply keeps_modify; intros ?; cbv beta
  | |- keeps _ (logger_warning _) => apply keeps_modify; intros ?; cbv beta
  | |- keeps _ (logger_error _) => apply keeps_modify; intros ?; cbv beta
  | |- keeps _ (session_data_set _ _) => apply keeps_modify; intros ?; cbv beta
  | |- keeps _ get_self => apply keeps_get_self; apply _
  | |- keeps _ (session_data_get _) => apply keeps_session_data_get; apply _
  | |- keeps _ (lift _) => apply keeps_lift; apply _
  | |- keeps _ (io_step _ _) => apply keeps_io_step; apply _
  | |- keeps _ skip => apply keeps_skip; apply _
  | |- keeps _ (mret _) => apply keeps_ret; apply _
  | |- keeps _ (match ?x with _ => _ end) => destruct x
  | |- keeps _ (if ?x then _ else _) => destruct x
  | |- keeps _ _ => by eauto with keeps
  | |- _ => by eauto with keeps
  end.

Lemma session_data_incr_keeps (R : relation MetricsLogger) `{!PreOrder R} k :
  (∀ d self, R self (set_session_data d self)) → keeps R (session_data_incr k).
Proof.
  intros Hset. unfold session_data_incr.
  apply keeps_bind; [done|apply keeps_session_data_get; done|]. intros v.
  apply keeps_bind; [done|apply keeps_lift; done|]. intros v'.
  apply keeps_modify. intros self. apply Hset.
Qed.

Lemma session_data_incr_same_session k : keeps same_session (session_data_incr k).
Proof.
  apply (session_data_incr_keeps same_session). apply set_session_data_same_session.
Qed.
Lemma session_data_incr_same_files k : keeps same_files (session_data_incr k).
Proof.
  apply (session_data_incr_keeps same_files). apply set_session_data_same_files.
Qed.
Lemma session_data_incr_grows k : keeps grows (session_data_incr k).
Proof.
  apply (session_data_incr_keeps grows). apply set_session_data_grows.
Qed.
#[export] Hint Resolve session_data_incr_same_session session_data_incr_same_files
  session_data_incr_grows : keeps.

Lemma start_session_same_files now : keeps same_files (start_session now).
Proof. unfold start_session. repeat keeps_step. Qed.

Lemma start_session_grows now : keeps grows (start_session now).
Proof. unfold start_session. repeat keeps_step. Qed.

Lemma add_turn_metrics_same_files r now : keeps same_files (add_turn_metrics r now).
Proof. unfold add_turn_metrics, update_latency_statistics. repeat keeps_step. Qed.

Lemma add_turn_metrics_grows r now : keeps grows (add_turn_metrics r now).
Proof. unfold add_turn_metrics, update_latency_statistics. repeat keeps_step. Qed.

Ltac keeps_all := repeat keeps_step.

Lemma end_session_same_session ov now io : keeps same_session (end_session ov now io).
Proof.
  unfold end_session, update, _calculate_averages, average_metric, _save_to_excel,
    write_workbook, _create_latency_analysis_sheet, _save_as_csv_fallback.
  keeps_all.
Qed.

Lemma end_session_grows ov now io : keeps grows (end_session ov now io).
Proof.
  unfold end_session, update, _calculate_averages, average_metric, _save_to_excel,
    write_workbook, _create_latency_analysis_sheet, _save_as_csv_fallback.
  keeps_all.
Qed.

Global Instance keeps_keys_preorder : PreOrder keeps_keys.
Proof. split; [by intros a k|]. intros a b c Hab Hbc k Hk. by apply Hbc, Hab. Qed.

Lemma insert_keeps_keys k v self :
  keeps_keys self (set_session_data (<[k := v]> (session_data self)) self).
Proof.
  intros k' Hk'. simpl. rewrite lookup_insert. by case_decide.
Qed.

Lemma update_keeps_keys overlay self :
  keeps_keys self (set_session_data (overlay ∪ session_data self) self).
Proof.
  intros k Hk. simpl. rewrite lookup_union_is_Some. by right.
Qed.

Lemma add_log_keeps_keys r self : keeps_keys self (add_log r self).
Proof. by intros k. Qed.
Lemma add_file_keeps_keys p a self : keeps_keys self (add_file p a self).
Proof. by intros k. Qed.
Lemma set_turn_metrics_keeps_keys l self : keeps_keys self (set_turn_metrics l self).
Proof. by intros k. Qed.
#[export] Hint Resolve insert_keeps_keys update_keeps_keys add_log_keeps_keys
  add_file_keeps_keys set_turn_metrics_keeps_keys : keeps.

Lemma session_data_incr_keeps_keys k : keeps keeps_keys (session_data_incr k).
Proof.
  unfold session_data_incr.
  apply keeps_bind; [apply _|apply keeps_session_data_get; apply _|]. intros v.
  apply keeps_bind; [apply _|apply keeps_lift; apply _|]. intros v'.
  apply keeps_modify. intros self. apply insert_keeps_keys.
Qed.
#[export] Hint Resolve session_data_incr_keeps_keys : keeps.

Lemma add_turn_metrics_keeps_keys r now : keeps keeps_keys (add_turn_metrics r now).
Proof. unfold add_turn_metrics, update_latency_statistics. keeps_all. Qed.

Lemma end_session_keeps_keys ov now io : keeps keeps_keys (end_session ov now io).
Proof.
  unfold end_session, update, _calculate_averages, average_metric, _save_to_excel,
    write_workbook, _create_latency_analysis_sheet, _save_as_csv_fallback.
  keeps_all.
Qed.

(** ** Admission, outcome by outcome *)

Lemma add_turn_outcome start calls self r now :
  recorder_inv start calls self →
  (add_turn_metrics r now self).1
  = if numeric (total_latency_of r) then Returned tt else Raised TypeError.
Proof.
  intros [Hst Hsid Htm Htot Hint Hsuc Hhigh (mx & Hmx & Hmax) (mn & Hmn & Hmin) Hrest].
  unfold add_turn_metrics.
  erewrite bind_returned; [|reflexivity]. rewrite Hst.
  erewrite bind_returned; [|by apply get_spec].
  erewrite bind_returned; [|reflexivity].
  erewrite bind_returned; [|by apply incr_spec].
  rewrite !stamp_get by done.
  fold (is_interrupted r). fold (total_latency_of r).
  set (self1 := set_session_data _ _).
  assert (∃ d, ((if is_interrupted r then session_data_incr "interrupted_turns"
                 else session_data_incr "successful_turns") self1
                = (Returned tt, set_session_data d self1))
               ∧ ∀ k, k ≠ "interrupted_turns" → k ≠ "successful_turns" →
                      d !! k = session_data self1 !! k)
    as (d & Hd & Hframe).
  { destruct (is_interrupted r); eexists; (split;
      [apply incr_spec; simpl; by rewrite lookup_insert_ne|]);
      intros k ? ?; by rewrite lookup_insert_ne. }
  erewrite bind_returned; [|exact Hd].
  assert (Hd_keep : ∀ k, k ≠ "total_turns" → k ≠ "interrupted_turns" →
                         k ≠ "successful_turns" → d !! k = session_data self !! k).
  { intros k ? ? ?. rewrite Hframe by done. simpl. by rewrite lookup_insert_ne. }
  set (self2 := set_session_data d self1).
  assert (Hsd2 : session_data self2 = d) by done.
  clearbody self2.
  unfold numeric.
  destruct (py_gt (total_latency_of r) (VInt 0)) as [b|e] eqn:E.
  - assert (is_Some (num_of (total_latency_of r))) as [x Hx].
    { unfold py_gt, py_lt in E. simpl in E. destruct (num_of _); [eauto|done]. }
    rewrite Hx.
    apply py_gt_const in E. change (inject_Z 0) with 0%Q in E. subst b.
    erewrite bind_returned; [|reflexivity].
    destruct (exceeds 0 (total_latency_of r)) eqn:Epos.
    + destruct (update_latency_statistics_spec (total_latency_of r) self2 mx mn
                  (positive_latencies calls.*1))
        as (d' & mx' & mn' & Hrun & _);
        [done|by rewrite Hsd2, Hd_keep|done|by rewrite Hsd2, Hd_keep|done
        |by rewrite Hsd2, Hd_keep|].
      by erewrite bind_returned; [|exact Hrun].
    + by erewrite bind_returned; [|reflexivity].
  - erewrite bind_raised; [|reflexivity]. simpl.
    unfold py_gt, py_lt in E. simpl in E.
    destruct (num_of (total_latency_of r)); [done|]. by injection E as <-.
Qed.

(** ** What each method leaves alone *)

(** X1: [start_session] and [add_turn_metrics] write nothing.  In every
    state, and whether they return or raise, the artifacts written so far
    and the output directory are as before: only [end_session] writes. *)
Theorem recorder_writes_no_file (self : MetricsLogger)
  (record : gmap string value) (now : datetime) :
  files (exec (start_session now) self) = files self
  ∧ output_dir (exec (start_session now) self) = output_dir self
  ∧ files (exec (add_turn_metrics record now) self) = files self
  ∧ output_dir (exec (add_turn_metrics record now) self) = output_dir self.
Proof.
  destruct (start_session_same_files now self) as [? ?].
  destruct (add_turn_metrics_same_files record now self) as [? ?].
  done.
Qed.

(** X2: [end_session] does not end the session.  In every state, and
    whether it returns or raises, the recorded turns, the start time of
    the session and the output directory stay as they were, and no entry
    of the session dictionary is removed. *)
Theorem end_session_leaves_session_open (self : MetricsLogger)
  (session_summary : option (gmap string value)) (now : datetime) (io : io_faults) :
  let self' := exec (end_session session_summary now io) self in
  turn_metrics self' = turn_metrics self
  ∧ session_start_time self' = session_start_time self
  ∧ output_dir self' = output_dir self
  ∧ ∀ k, is_Some (session_data self !! k) → is_Some (session_data self' !! k).
Proof.
  destruct (end_session_same_session session_summary now io self) as (?&?&?).
  pose proof (end_session_keeps_keys session_summary now io self).
  done.
Qed.

(** What [add_turn_metrics] does to the turn list, in any state. *)
Lemma add_turn_metrics_turns r now self :
  let self' := exec (add_turn_metrics r now) self in
  session_start_time self' = session_start_time self
  ∧ turn_metrics self'
    = match session_start_time self, session_data self !! "session_id" with
      | Some _, Some sid => turn_metrics self ++ [stamp r now sid]
      | _, _ => turn_metrics self
      end.
Proof.
  unfold exec, add_turn_metrics.
  erewrite bind_returned; [|reflexivity].
  destruct (session_start_time self) as [t|] eqn:Est; [|done].
  destruct (session_data self !! "session_id") as [sid|] eqn:Esid.
  2:{ erewrite bind_raised; [|unfold session_data_get; by rewrite Esid]. done. }
  erewrite bind_returned; [|by apply get_spec].
  erewrite bind_returned; [|reflexivity].
  set (appended := set_turn_metrics _ self).
  match goal with |- context [(?m appended).2] =>
    assert (keeps same_session m) as Hkeep
  end.
  { unfold update_latency_statistics. keeps_all. }
  destruct (Hkeep appended) as (_ & Htm & Hst).
  split; [by rewrite Hst|]. by rewrite Htm.
Qed.

(** X4: [add_turn_metrics] only ever appends to the turn list.  The list
    before is a prefix of the list after, which is at most one record
    longer; with a session started and its identifier present, the stamped
    record is appended, also when the call goes on to raise. *)
Theorem turn_list_append_only (self : MetricsLogger)
  (record : gmap string value) (now : datetime) :
  let self' := exec (add_turn_metrics record now) self in
  turn_metrics self `prefix_of` turn_metrics self'
  ∧ (length (turn_metrics self') ≤ S (length (turn_metrics self)))%nat
  ∧ (∀ sid, is_Some (session_start_time self) →
            session_data self !! "session_id" = Some sid →
            turn_metrics self' = turn_metrics self ++ [stamp record now sid]).
Proof.
  intros self'. destruct (add_turn_metrics_turns record now self) as [_ Htm].
  fold self' in Htm. rewrite Htm. split_and!.
  - destruct (session_start_time self), (session_data self !! "session_id");
      try done; by apply prefix_app_r.
  - destruct (session_start_time self), (session_data self !! "session_id");
      rewrite ?length_app; simpl; lia.
  - intros sid [t ->] ->. done.
Qed.

(** The state a rejected record leaves. *)
Lemma add_turn_rejected start calls self r now k :
  recorder_inv start calls self →
  numeric (total_latency_of r) = false →
  k ≠ "total_turns" → k ≠ "successful_turns" → k ≠ "interrupted_turns" →
  session_data (exec (add_turn_metrics r now) self) !! k = session_data self !! k.
Proof.
  intros [Hst Hsid Htm Htot Hint Hsuc _ _ _ _] Hnum Hk1 Hk2 Hk3.
  unfold exec, add_turn_metrics.
  erewrite bind_returned; [|reflexivity]. rewrite Hst.
  erewrite bind_returned; [|by apply get_spec].
  erewrite bind_returned; [|reflexivity].
  erewrite bind_returned; [|by apply incr_spec].
  rewrite !stamp_get by done.
  fold (is_interrupted r). fold (total_latency_of r).
  set (self1 := set_session_data _ _).
  assert (∃ d, ((if is_interrupted r then session_data_incr "interrupted_turns"
                 else session_data_incr "successful_turns") self1
                = (Returned tt, set_session_data d self1))
               ∧ ∀ k, k ≠ "interrupted_turns" → k ≠ "successful_turns" →
                      d !! k = session_data self1 !! k)
    as (d & Hd & Hframe).
  { destruct (is_interrupted r); eexists; (split;
      [apply incr_spec; simpl; by rewrite lookup_insert_ne|]);
      intros k' ? ?; by rewrite lookup_insert_ne. }
  erewrite bind_returned; [|exact Hd].
  assert (py_gt (total_latency_of r) (VInt 0) = Raised TypeError) as Hraise.
  { unfold numeric in Hnum. unfold py_gt, py_lt. simpl.
    by destruct (num_of (total_latency_of r)). }
  erewrite bind_raised; [|unfold lift; by rewrite Hraise].
  simpl. rewrite Hframe by done. simpl. by rewrite lookup_insert_ne.
Qed.

(** ** Admission *)


(** X6: a record whose [total_latency] is not a number is recorded all
    the same.  The call raises [TypeError], yet the stamped record has
    joined the turn list and [total_turns] has grown by one, while the
    latency extremes and the high-latency counter are as before. *)
Theorem rejected_record_is_still_admitted
  (start : datetime) (calls : list (gmap string value * datetime))
  (self : MetricsLogger) (record : gmap string value) (now : datetime) :
  numeric (total_latency_of record) = false →
  let before := session start calls self in
  let result := add_turn_metrics record now before in
  result.1 = Raised TypeError
  ∧ turn_metrics result.2
    = turn_metrics before ++ [stamp record now (VStr (strftime start))]
  ∧ session_data result.2 !! "total_turns"
    = Some (VInt (Z.of_nat (length calls) + 1))
  ∧ session_data result.2 !! "max_latency" = session_data before !! "max_latency"
  ∧ session_data result.2 !! "min_latency" = session_data before !! "min_latency"
  ∧ session_data result.2 !! "high_latency_turns"
    = session_data before !! "high_latency_turns".
Proof.
  intros Hnum before result.
  pose proof (session_inv start calls self) as Hinv. fold before in Hinv.
  split_and!.
  - unfold result. rewrite (add_turn_outcome start calls) by done. by rewrite Hnum.
  - destruct (add_turn_metrics_turns record now before) as [_ Htm].
    unfold result. unfold exec in Htm. rewrite Htm.
    by rewrite (inv_started _ _ _ Hinv), (inv_session_id _ _ _ Hinv).
  - pose proof (step_inv start calls before record now Hinv) as Hstep.
    unfold result.
    change (add_turn_metrics record now before).2
      with (exec (add_turn_metrics record now) before).
    rewrite (inv_total _ _ _ Hstep), length_app. simpl. do 2 f_equal. lia.
  - by apply (add_turn_rejected start calls).
  - by apply (add_turn_rejected start calls).
  - by apply (add_turn_rejected start calls).
Qed.

Lemma rejected_record_is_still_admitted_witness :
  let before := session sample_start [] (new_logger "metrics") in
  let result := add_turn_metrics {["total_latency" := VStr "fast"]} sample_later before in
  result.1 = Raised TypeError.
Proof.
  refine (proj1 (rejected_record_is_still_admitted sample_start []
                   (new_logger "metrics") {["total_latency" := VStr "fast"]}
                   sample_later _)).
  reflexivity.
Defined.

(** ** Invariants of the aggregates *)

(** X7: once some admitted total latency is strictly positive,
    [min_latency] is at most [max_latency]. *)
Theorem extremes_are_ordered
  (start : datetime) (calls : list (gmap string value * datetime))
  (self : MetricsLogger) :
  positive_latencies calls.*1 ≠ [] →
  ∃ mn mx,
    session_data (session start calls self) !! "min_latency" = Some mn
    ∧ session_data (session start calls self) !! "max_latency" = Some mx
    ∧ value_le mn mx.
Proof.
  intros Hne.
  destruct (session_inv start calls self)
    as [_ _ _ _ _ _ _ (mx & Hmx & Hmax) (mn & Hmn & Hmin) _].
  exists mn, mx. split_and!; [done..|].
  apply is_minimum_drop_sentinel in Hmin; [|done].
  destruct Hmin as [Hin _]. destruct Hmax as [_ Hle]. apply Hle. by right.
Qed.

Lemma extremes_are_ordered_witness :
  ∃ mn mx,
    session_data (session sample_start sample_calls (new_logger "metrics"))
      !! "min_latency" = Some mn
    ∧ session_data (session sample_start sample_calls (new_logger "metrics"))
        !! "max_latency" = Some mx
    ∧ value_le mn mx.
Proof.
  refine (extremes_are_ordered sample_start sample_calls (new_logger "metrics") _).
  vm_compute. discriminate.
Defined.

Lemma count_le_length {A} (p : A → bool) (l : list A) :
  0 ≤ count p l ≤ Z.of_nat (length l).
Proof.
  unfold count. pose proof (filter_length_le p l). lia.
Qed.

(** X8: after [start_session] and any number of [add_turn_metrics]
    calls, with no [end_session] in between, [total_turns] is the length
    of the turn list, and the counters of successful, interrupted and
    high-latency turns lie between 0 and [total_turns]. *)
Theorem counters_are_bounded
  (start : datetime) (calls : list (gmap string value * datetime))
  (self : MetricsLogger) :
  ∃ total successful interrupted high : Z,
    session_data (session start calls self) !! "total_turns" = Some (VInt total)
    ∧ session_data (session start calls self) !! "successful_turns"
      = Some (VInt successful)
    ∧ session_data (session start calls self) !! "interrupted_turns"
      = Some (VInt interrupted)
    ∧ session_data (session start calls self) !! "high_latency_turns"
      = Some (VInt high)
    ∧ total = Z.of_nat (length (turn_metrics (session start calls self)))
    ∧ 0 ≤ successful ≤ total ∧ 0 ≤ interrupted ≤ total ∧ 0 ≤ high ≤ total.
Proof.
  destruct (session_inv start calls self)
    as [_ _ Htm Htot Hint Hsuc Hhigh _ _ _].
  eexists _, _, _, _. split_and!; [done..| | | | | | |].
  - by rewrite Htm, length_map.
  - apply count_le_length.
  - rewrite <- (length_fmap fst calls). apply count_le_length.
  - apply count_le_length.
  - rewrite <- (length_fmap fst calls). apply count_le_length.
  - apply count_le_length.
  - pose proof (count_le_length (exceeds 2) (positive_latencies calls.*1)) as [_ H].
    etrans; [exact H|]. unfold positive_latencies.
    pose proof (filter_length_le (exceeds 0) (map total_latency_of calls.*1)).
    rewrite length_map, length_fmap in *. lia.
Qed.

(** ** The two accessors *)

Lemma get_average_latency_numeric self :
  Forall (λ v, numeric v = true)
         (map total_latency_of (valid_turns_of (turn_metrics self))) →
  mean_defined (qualifying "total_latency" (turn_metrics self)) = true →
  get_average_latency self
  = (Returned match qualifying "total_latency" (turn_metrics self) with
              | [] => VFloat (Fin 0)
              | q => VFloat (arithmetic_mean (omap num_of q))
              end, self).
Proof.
  intros Hnum Hdef. unfold get_average_latency.
  erewrite bind_returned; [|reflexivity].
  erewrite bind_returned;
    [|unfold lift, positive_values;
      by rewrite (filter_raising_gt (VInt 0) 0) by done].
  fold (qualifying "total_latency" (turn_metrics self)).
  pose proof (qualifying_numeric "total_latency" (turn_metrics self)) as Hq.
  destruct (qualifying "total_latency" (turn_metrics self)) as [|v q] eqn:E; [done|].
  unfold lift. by rewrite py_mean_numeric.
Qed.

Lemma get_average_latency_overflow self :
  Forall (λ v, numeric v = true)
         (map total_latency_of (valid_turns_of (turn_metrics self))) →
  mean_defined (qualifying "total_latency" (turn_metrics self)) = false →
  get_average_latency self = (Raised OverflowError, self).
Proof.
  intros Hnum Hdef. unfold get_average_latency.
  erewrite bind_returned; [|reflexivity].
  erewrite bind_returned;
    [|unfold lift, positive_values;
      by rewrite (filter_raising_gt (VInt 0) 0) by done].
  fold (qualifying "total_latency" (turn_metrics self)).
  pose proof (qualifying_numeric "total_latency" (turn_metrics self)) as Hq.
  destruct (qualifying "total_latency" (turn_metrics self)) as [|v q] eqn:E; [done|].
  unfold mean_defined in Hdef. unfold lift.
  destruct (py_mean (v :: q)) as [m|e] eqn:Em; [done|].
  by rewrite (py_mean_raises_overflow (v :: q) e).
Qed.

Lemma get_average_latency_not_numeric self :
  ¬ Forall (λ v, numeric v = true)
           (map total_latency_of (valid_turns_of (turn_metrics self))) →
  get_average_latency self = (Raised TypeError, self).
Proof.
  intros Hnot. unfold get_average_latency.
  erewrite bind_returned; [|reflexivity].
  apply bind_raised. unfold lift, positive_values.
  rewrite filter_raising_gt_raises; [done|by eexists|].
  apply not_Forall_Exists in Hnot; [|intros v; apply _].
  eapply Exists_impl; [exact Hnot|]. intros v Hv. by apply not_true_is_false.
Qed.

Lemma total_latencies_stamped start calls :
  map total_latency_of (valid_turns_of (stamped start calls))
  = map total_latency_of (valid_turns_of calls.*1).
Proof.
  rewrite valid_turns_of_stamped, valid_turns_of_fst.
  rewrite <- !list_fmap_compose. apply list_fmap_ext.
  intros i [r now] _. simpl. unfold total_latency_of. by apply stamp_get.
Qed.

Lemma session_turn_metrics start calls self :
  turn_metrics (session start calls self) = stamped start calls.
Proof. apply (inv_turn_metrics start calls). apply session_inv. Qed.

Lemma get_average_latency_session start calls self :
  Forall (λ v, numeric v = true) (map total_latency_of (valid_turns_of calls.*1)) →
  mean_defined (qualifying "total_latency" calls.*1) = true →
  get_average_latency (session start calls self)
  = (Returned match qualifying "total_latency" calls.*1 with
              | [] => VFloat (Fin 0)
              | q => VFloat (arithmetic_mean (omap num_of q))
              end, session start calls self).
Proof.
  intros Hnum Hdef. rewrite get_average_latency_numeric.
  - rewrite session_turn_metrics.
    by rewrite qualifying_stamped by (unfold metrics_to_avg; repeat constructor).
  - by rewrite session_turn_metrics, total_latencies_stamped.
  - rewrite session_turn_metrics.
    by rewrite qualifying_stamped by (unfold metrics_to_avg; repeat constructor).
Qed.


(** An integer beyond the floats: the accessor raises. *)
Example average_of_a_huge_latency :
  let before := session sample_start
                  [({["total_latency" := VInt (2 ^ 1024)]}, sample_later)]
                  (new_logger "metrics") in
  get_average_latency before = (Raised OverflowError, before).
Proof. by vm_compute. Qed.

Lemma well_typed_total_latency (turns : list (gmap string value)) :
  Forall (λ t, well_typed t = true) turns →
  Forall (λ v, numeric v = true) (map total_latency_of turns).
Proof.
  intros H. apply (well_typed_metric "total_latency"); [|done].
  unfold metrics_to_avg. repeat constructor.
Qed.

(** X10: the average [end_session] stores is the one
    [get_average_latency] reports.  For a session with numeric metrics,
    with the integers among the qualifying values of a metric adding up
    to less than the least integer that overflows a float, and with at
    least one qualifying total latency, the accessor before the close,
    the [avg_total_latency] entry after the close and the accessor after
    the close give the same value, whatever the summary holds. *)
Theorem closing_average_is_running_average
  (start : datetime) (calls : list (gmap string value * datetime))
  (self : MetricsLogger) (session_summary : option (gmap string value))
  (now : datetime) (io : io_faults) :
  Forall (λ t, well_typed t = true) (valid_turns_of calls.*1) →
  averageable calls.*1 = true →
  qualifying "total_latency" calls.*1 ≠ [] →
  let before := session start calls self in
  let final := exec (end_session session_summary now io) before in
  ∃ v, get_average_latency before = (Returned v, before)
       ∧ session_data final !! "avg_total_latency" = Some v
       ∧ get_average_latency final = (Returned v, final).
Proof.
  intros Htyped Hdef%averageable_means_defined Hne before final.
  pose proof (well_typed_total_latency _ Htyped) as Hnum.
  assert (Hmean : mean_defined (qualifying "total_latency" calls.*1) = true).
  { apply means_defined_metric; [done|]. unfold metrics_to_avg. repeat constructor. }
  eexists. split; [by apply get_average_latency_session|]. split.
  - unfold final, before. rewrite closed_session_data by done.
    rewrite (closing_data_lookup_avg _ _ _ _ _ "total_latency")
      by (unfold metrics_to_avg; repeat constructor).
    by destruct (qualifying "total_latency" calls.*1).
  - destruct (end_session_same_session session_summary now io before) as (_ & Htm & _).
    change (turn_metrics final = turn_metrics before) in Htm.
    rewrite get_average_latency_numeric.
    + rewrite Htm. unfold before. rewrite session_turn_metrics.
      by rewrite qualifying_stamped by (unfold metrics_to_avg; repeat constructor).
    + rewrite Htm. unfold before.
      by rewrite session_turn_metrics, total_latencies_stamped.
    + rewrite Htm. unfold before. rewrite session_turn_metrics.
      by rewrite qualifying_stamped by (unfold metrics_to_avg; repeat constructor).
Qed.

Lemma closing_average_is_running_average_witness :
  let before := session sample_start sample_calls (new_logger "metrics") in
  let final := exec (end_session None sample_end no_faults) before in
  ∃ v, get_average_latency before = (Returned v, before)
       ∧ session_data final !! "avg_total_latency" = Some v
       ∧ get_average_latency final = (Returned v, final).
Proof.
  refine (closing_average_is_running_average sample_start sample_calls
            (new_logger "metrics") None sample_end no_faults _ _ _).
  - repeat constructor.
  - reflexivity.
  - vm_compute. discriminate.
Defined.

(** X11: [get_session_stats] returns a copy.  The logger is unchanged;
    the result is the session dictionary with [current_avg_latency] added;
    an exception of [get_average_latency] propagates; and a fresh logger
    gives the single entry [current_avg_latency] = 0.0. *)
Theorem get_session_stats_is_a_copy (self : MetricsLogger) :
  (get_session_stats self).2 = self
  ∧ (∀ v, (get_average_latency self).1 = Returned v →
          ∃ stats, (get_session_stats self).1 = Returned stats
                   ∧ stats !! "current_avg_latency" = Some v
                   ∧ ∀ k, k ≠ "current_avg_latency" →
                          stats !! k = session_data self !! k)
  ∧ (∀ e, (get_average_latency self).1 = Raised e →
          (get_session_stats self).1 = Raised e)
  ∧ (session_start_time self = None → turn_metrics self = [] →
     session_data self = ∅ →
     (get_session_stats self).1
     = Returned {["current_avg_latency" := VFloat (Fin 0)]}).
Proof.
  assert (Hsame : (get_average_latency self).2 = self).
  { symmetry. revert self. change (keeps eq get_average_latency).
    unfold get_average_latency. keeps_all. }
  unfold get_session_stats, mbind at 1, M_bind at 1, get_self.
  unfold mbind, M_bind.
  destruct (get_average_latency self) as [[v|e] s] eqn:E; simpl in *; subst s.
  - split_and!; [done| |done|].
    + intros ? [= <-]. eexists. split; [done|]. split; [apply lookup_insert_eq|].
      intros k Hk. by rewrite lookup_insert_ne.
    + intros _ Htm Hd. rewrite Hd.
      unfold get_average_latency, mbind, M_bind, get_self in E. rewrite Htm in E.
      simpl in E. injection E as <-. done.
  - split_and!; [done|done|by intros ? [= <-]|].
    intros _ Htm _.
    unfold get_average_latency, mbind, M_bind, get_self in E. rewrite Htm in E.
    done.
Qed.

(** ** Closing without a session *)

(** X12: [end_session] before any [start_session] only logs a warning:
    it returns, writes nothing and discards its summary. *)
Theorem end_session_before_start_is_noop (self : MetricsLogger)
  (session_summary : option (gmap string value)) (now : datetime) (io : io_faults) :
  session_start_time self = None →
  end_session session_summary now io self
  = (Returned tt, add_log (WARNING, MsgNoActiveSession) self).
Proof.
  intros Hnone. unfold end_session. erewrite bind_returned; [|reflexivity].
  by rewrite Hnone.
Qed.

Lemma end_session_before_start_is_noop_witness :
  end_session (Some {["total_turns" := VInt 3]}) sample_end no_faults
              (new_logger "metrics")
  = (Returned tt, add_log (WARNING, MsgNoActiveSession) (new_logger "metrics")).
Proof.
  refine (end_session_before_start_is_noop (new_logger "metrics") _ _ _ _).
  reflexivity.
Defined.

(** ** Closing more than once *)

Lemma closing_data_duration ov now start records d :
  closing_data ov now start records d !! "duration"
  = Some (default (VFloat (total_seconds now start)) (default ∅ ov !! "duration")).
Proof.
  rewrite closing_data_lookup_other; [|by apply not_avg_key|done].
  unfold before_averages.
  destruct (default ∅ ov !! "duration") as [w|] eqn:E.
  - by apply lookup_union_Some_l.
  - rewrite lookup_union_r by done. apply lookup_insert_eq.
Qed.

Lemma end_session_closable start self ov now io :
  closable start self →
  means_defined (turn_metrics self) = true →
  let d := closing_data ov now start (turn_metrics self) (session_data self) in
  ∃ sid dur tot,
    d !! "session_id" = Some sid ∧ d !! "duration" = Some dur
    ∧ d !! "total_turns" = Some tot
    ∧ end_session ov now io self
      = let exported := after_export io sid (set_session_data d self) in
        match format_2f dur with
        | Returned _ =>
            (Returned tt,
             add_log (INFO, MsgDuration dur tot) (add_log (INFO, MsgEnded sid) exported))
        | Raised e => (Raised e, add_log (INFO, MsgEnded sid) exported)
        end.
Proof.
  intros [[t Hst] Hstart Hsid Hmn Htot Htyped] Hdef d.
  set (records := turn_metrics self) in *.
  destruct (closing_data_is_Some ov now start records (session_data self) "session_id")
    as [sid Hsid']; [done|].
  pose proof (closing_data_duration ov now start records (session_data self)) as Hdur.
  set (dur := default _ _) in Hdur.
  destruct (closing_data_is_Some ov now start records (session_data self) "total_turns")
    as [tot Htot']; [done|].
  exists sid, dur, tot. split_and!; [done..|].
  unfold end_session.
  erewrite bind_returned; [|reflexivity]. rewrite Hst.
  erewrite bind_returned; [|reflexivity].
  erewrite bind_returned; [|apply get_spec; simpl; apply lookup_insert_eq].
  erewrite bind_returned;
    [|apply get_spec; simpl; rewrite lookup_insert_ne by done; exact Hstart].
  erewrite bind_returned; [|reflexivity].
  erewrite bind_returned; [|reflexivity].
  erewrite bind_returned; [|apply update_spec].
  erewrite bind_returned; [|reflexivity].
  simpl.
  set (d1 := default ∅ ov ∪ _).
  replace (set_session_data d1 _) with (set_session_data d1 self) by (by destruct self).
  set (d2 := averaged "ttfb" records
               (averaged "ttft" records
                  (averaged "eou_delay" records
                     (averaged "total_latency" records d1)))).
  assert (Havg : (match turn_metrics (set_session_data d1 self) with
                  | [] => skip
                  | _ => _calculate_averages
                  end) (set_session_data d1 self)
                 = (Returned tt, set_session_data d2 self)).
  { change (turn_metrics (set_session_data d1 self)) with records.
    destruct records as [|r rs] eqn:E; [by destruct self|].
    erewrite (_calculate_averages_typed (r :: rs)); [|exact E|exact Htyped|exact Hdef].
    by destruct self. }
  erewrite bind_returned; [|exact Havg].
  assert (is_Some (d2 !! "min_latency")) as [mn2 Hmn2].
  { unfold d2. do 4 apply averaged_is_Some. unfold d1.
    rewrite lookup_union_is_Some. right. by rewrite !lookup_insert_ne. }
  erewrite bind_returned; [|by apply get_spec].
  erewrite bind_returned; [|apply when_set].
  assert (Hd : (if is_inf mn2 then <["min_latency":=VInt 0]> d2 else d2) = d).
  { unfold d, closing_data. fold d1. fold d2. by rewrite Hmn2. }
  simpl. rewrite Hd.
  replace (set_session_data d _) with (set_session_data d self) by (by destruct self).
  erewrite bind_returned; [|by apply (_save_to_excel_spec io sid)].
  pose proof (after_export_frame io sid (set_session_data d self)) as (_ & Hframe & _).
  simpl in Hframe.
  erewrite bind_returned; [|apply get_spec; by rewrite Hframe].
  erewrite bind_returned; [|reflexivity].
  erewrite bind_returned; [|apply get_spec; simpl; by rewrite Hframe].
  destruct (format_2f dur) as [[]|e] eqn:Ef.
  - erewrite bind_returned; [|reflexivity].
    erewrite bind_returned; [|apply get_spec; simpl; by rewrite Hframe].
    reflexivity.
  - by erewrite bind_raised.
Qed.

Lemma end_session_closable_data start self ov now io :
  closable start self →
  means_defined (turn_metrics self) = true →
  session_data (exec (end_session ov now io) self)
  = closing_data ov now start (turn_metrics self) (session_data self).
Proof.
  intros Hc Hdef.
  destruct (end_session_closable start self ov now io Hc Hdef)
    as (sid & dur & tot & _ & _ & _ & Hend).
  unfold exec. rewrite Hend. simpl.
  pose proof (after_export_frame io sid
    (set_session_data (closing_data ov now start (turn_metrics self) (session_data self))
                      self)) as (_ & Hd & _).
  simpl in Hd. by destruct (format_2f dur) as [[]|e].
Qed.

Lemma end_session_closable_outcome start self ov now io :
  closable start self →
  means_defined (turn_metrics self) = true →
  (end_session ov now io self).1
  = format_2f (default (VFloat (total_seconds now start))
                       (default ∅ ov !! "duration")).
Proof.
  intros Hc Hdef.
  destruct (end_session_closable start self ov now io Hc Hdef)
    as (sid & dur & tot & _ & Hdur & _ & Hend).
  rewrite closing_data_duration in Hdur. injection Hdur as <-.
  rewrite Hend. simpl. by destruct (format_2f _) as [[]|e].
Qed.

Lemma closable_closed start self ov now io :
  closable start self →
  means_defined (turn_metrics self) = true →
  default ∅ ov !! "start_time" = None →
  closable start (exec (end_session ov now io) self).
Proof.
  intros Hc Hdef Hov.
  destruct (end_session_same_session ov now io self) as (_ & Htm & Hst).
  fold (exec (end_session ov now io) self) in Htm, Hst.
  pose proof (end_session_closable_data start self ov now io Hc Hdef) as Hd.
  destruct Hc as [Hs Hstart Hsid Hmn Htot Htyped].
  split; rewrite ?Hd, ?Htm, ?Hst; try by apply closing_data_is_Some.
  - done.
  - rewrite closing_data_lookup_other; [|by apply not_avg_key|done].
    unfold before_averages. rewrite lookup_union_r by done.
    by rewrite !lookup_insert_ne.
  - done.
Qed.

Lemma fix_min_idempotent (v : value) :
  let fix_min := λ v, if is_inf v then VInt 0 else v in
  fix_min (fix_min v) = fix_min v.
Proof. simpl. by destruct (is_inf v) eqn:E; [|rewrite E]. Qed.

Lemma before_averages_again ov now1 now2 start (d d1 : gmap string value) k :
  d1 !! k = before_averages ov now1 start d !! k →
  before_averages ov now2 start d1 !! k = before_averages ov now2 start d !! k.
Proof.
  intros Hk. unfold before_averages at 1 2.
  destruct (default ∅ ov !! k) as [w|] eqn:E.
  - by rewrite !(lookup_union_Some_l _ _ _ w).
  - rewrite !lookup_union_r by done.
    destruct (decide (k = "duration")) as [->|Hd]; [by rewrite !lookup_insert_eq|].
    rewrite !(lookup_insert_ne _ "duration") by done.
    destruct (decide (k = "end_time")) as [->|He]; [by rewrite !lookup_insert_eq|].
    rewrite !(lookup_insert_ne _ "end_time") by done.
    rewrite Hk. unfold before_averages. rewrite lookup_union_r by done.
    by rewrite !lookup_insert_ne.
Qed.

Lemma avg_key_metric k :
  k ∈ avg_keys → ∃ metric, metric ∈ metrics_to_avg ∧ k = "avg_" +:+ metric.
Proof.
  unfold avg_keys. rewrite !elem_of_cons. 
  intros [->|[->|[->|[->|Hin]]]];
    [exists "total_latency"|exists "eou_delay"|exists "ttft"
    |exists "ttfb"|by apply elem_of_nil in Hin];
    (split; [unfold metrics_to_avg; set_solver|done]).
Qed.

(** Closing what has been closed with the same summary leaves what one close
    at the later time leaves. *)
Lemma closing_data_again ov now1 now2 start records (d : gmap string value) :
  closing_data ov now2 start records (closing_data ov now1 start records d)
  = closing_data ov now2 start records d.
Proof.
  apply map_eq. intros k.
  destruct (decide (k = "min_latency")) as [->|Hmin].
  - rewrite !closing_data_lookup_min.
    unfold before_averages at 1 2.
    destruct (default ∅ ov !! "min_latency") as [w|] eqn:E.
    + by rewrite !(lookup_union_Some_l _ _ _ w).
    + rewrite !lookup_union_r by done. rewrite !lookup_insert_ne by done.
      rewrite closing_data_lookup_min.
      unfold before_averages. rewrite lookup_union_r by done.
      rewrite !lookup_insert_ne by done.
      destruct (d !! "min_latency") as [v|]; [|done]. simpl.
      f_equal. apply fix_min_idempotent.
  - destruct (decide (k ∈ avg_keys)) as [Hin|Hnin].
    + destruct (avg_key_metric k Hin) as (metric & Hm & ->).
      rewrite (closing_data_lookup_avg ov now2) by done.
      rewrite (closing_data_lookup_avg ov now2 start records d) by done.
      destruct (qualifying metric records) eqn:Eq; [|done].
      apply (before_averages_again ov now1).
      rewrite closing_data_lookup_avg by done. by rewrite Eq.
    + rewrite (closing_data_lookup_other ov now2) by done.
      rewrite (closing_data_lookup_other ov now2 start records d) by done.
      apply (before_averages_again ov now1). by apply closing_data_lookup_other.
Qed.

Lemma averages_from_lookup_other records (d : gmap string value) k :
  k ∉ avg_keys → (averages_from metrics_to_avg records d).2 !! k = d !! k.
Proof.
  intros Hk. destruct (averages_from_union metrics_to_avg records d) as [_ ->].
  apply lookup_union_r.
  destruct ((averages_from metrics_to_avg records ∅).2 !! k) as [v|] eqn:E; [|done].
  destruct Hk. apply (averages_from_keys metrics_to_avg records).
  - apply Forall_forall. by intros metric.
  - by rewrite E.
Qed.

(** A close that raises in [_calculate_averages] leaves the averages
    assigned until then over the merged dictionary. *)
Lemma end_session_overflow_data start self ov now io :
  closable start self →
  means_defined (turn_metrics self) = false →
  session_data (exec (end_session ov now io) self)
  = (averages_from metrics_to_avg (turn_metrics self)
       (before_averages ov now start (session_data self))).2.
Proof.
  intros Hc Hdef.
  destruct (end_session_overflow start self ov now io Hc Hdef) as (e & _ & Hend).
  unfold exec. by rewrite Hend.
Qed.

Lemma end_session_overflow_outcome start self ov now io :
  closable start self →
  means_defined (turn_metrics self) = false →
  (end_session ov now io self).1
  = match (averages_from metrics_to_avg (turn_metrics self) ∅).1 with
    | Returned _ => Returned tt
    | Raised e => Raised e
    end.
Proof.
  intros Hc Hdef.
  destruct (end_session_overflow start self ov now io Hc Hdef) as (e & He & Hend).
  destruct (averages_from_union metrics_to_avg (turn_metrics self)
              (before_averages ov now start (session_data self))) as [H1 _].
  rewrite Hend, <- H1, He. done.
Qed.

Lemma closable_overflowed start self ov now io :
  closable start self →
  means_defined (turn_metrics self) = false →
  default ∅ ov !! "start_time" = None →
  closable start (exec (end_session ov now io) self).
Proof.
  intros Hc Hdef Hov.
  destruct (end_session_same_session ov now io self) as (_ & Htm & Hst).
  fold (exec (end_session ov now io) self) in Htm, Hst.
  pose proof (end_session_overflow_data start self ov now io Hc Hdef) as Hd.
  destruct Hc as [Hs Hstart Hsid Hmn Htot Htyped].
  assert (Hkeep : ∀ k, is_Some (session_data self !! k) →
                       is_Some (session_data (exec (end_session ov now io) self) !! k)).
  { intros k Hk. rewrite Hd.
    destruct (averages_from_union metrics_to_avg (turn_metrics self)
                (before_averages ov now start (session_data self))) as [_ ->].
    rewrite lookup_union_is_Some. right.
    unfold before_averages. rewrite lookup_union_is_Some. right.
    rewrite !lookup_insert. by repeat case_decide. }
  split; rewrite ?Htm, ?Hst; try by apply Hkeep.
  - done.
  - rewrite Hd, averages_from_lookup_other
      by (apply (proj2 (not_avg_key "start_time")); repeat split; discriminate).
    unfold before_averages. rewrite lookup_union_r by done.
    by rewrite !lookup_insert_ne.
  - done.
Qed.

(** Closing again what a raising close left raises as before and leaves
    what one raising close at the later time leaves. *)
Lemma overflow_data_again ov now1 now2 start records (d : gmap string value) :
  (averages_from metrics_to_avg records
     (before_averages ov now2 start
        (averages_from metrics_to_avg records
           (before_averages ov now1 start d)).2)).2
  = (averages_from metrics_to_avg records (before_averages ov now2 start d)).2.
Proof.
  destruct (averages_from_union metrics_to_avg records
              (before_averages ov now1 start d)) as [_ ->].
  destruct (averages_from_union metrics_to_avg records
              (before_averages ov now2 start d)) as [_ ->].
  set (A := (averages_from metrics_to_avg records ∅).2).
  destruct (averages_from_union metrics_to_avg records
              (before_averages ov now2 start (A ∪ before_averages ov now1 start d)))
    as [_ ->].
  fold A. apply map_eq. intros k.
  destruct (A !! k) as [v|] eqn:E.
  - by rewrite !(lookup_union_Some_l _ _ _ v).
  - rewrite !lookup_union_r by done.
    apply (before_averages_again ov now1). by rewrite lookup_union_r.
Qed.

Lemma closing_data_stamped ov now start calls (d : gmap string value) :
  closing_data ov now start (stamped start calls) d
  = closing_data ov now start calls.*1 d.
Proof.
  unfold closing_data.
  by rewrite !averaged_stamped by (unfold metrics_to_avg; set_solver).
Qed.



(** ** Clients and the exceptions they meet *)

Section Raises.
Context (I : MetricsLogger → Prop) (P : exn → Prop).

Lemma raises_ret {A} (a : A) : raises_only I P (mret a : M A).
Proof. intros self HI. by split. Qed.

Lemma raises_skip : raises_only I P skip.
Proof. apply raises_ret. Qed.

Lemma raises_lift {A} (r : outcome A) :
  (∀ e, r = Raised e → P e) → raises_only I P (lift r).
Proof. intros Hr self HI. by split. Qed.

Lemma raises_get_self : raises_only I P get_self.
Proof. intros self HI. by split. Qed.

Lemma raises_bind {A B} (m : M A) (k : A → M B) :
  raises_only I P m → (∀ a, raises_only I P (k a)) → raises_only I P (m ≫= k).
Proof.
  intros Hm Hk self HI. unfold mbind, M_bind.
  destruct (Hm self HI) as [H1 H2].
  destruct (m self) as [[a|e] s]; simpl in *; [by apply Hk|].
  split; [done|]. intros e' [= <-]. by apply H2.
Qed.

Lemma raises_modify (f : MetricsLogger → MetricsLogger) :
  (∀ self, I self → I (f self)) → raises_only I P (modify f).
Proof. intros Hf self HI. split; [by apply Hf|done]. Qed.

Lemma raises_when (b : bool) (m : M unit) :
  raises_only I P m → raises_only I P (when b m).
Proof. destruct b; [done|]. intros _. apply raises_skip. Qed.

Lemma raises_session_data_get k :
  (∀ self, I self → is_Some (session_data self !! k)) →
  raises_only I P (session_data_get k).
Proof.
  intros Hk self HI. unfold session_data_get.
  destruct (Hk self HI) as [v ->]. by split.
Qed.

Lemma raises_for_each {A} (l : list A) (body : A → M unit) :
  (∀ x, raises_only I P (body x)) → raises_only I P (for_each l body).
Proof.
  intros Hb. induction l as [|x l IH]; [apply raises_ret|].
  apply raises_bind; [apply Hb|]. intros _. exact IH.
Qed.
End Raises.

Lemma raises_io_step I io op : raises_only I (λ _, True) (io_step io op).
Proof. unfold io_step. destruct (io op); by intros self HI. Qed.

Lemma raises_weaken I (P Q : exn → Prop) {A} (m : M A) :
  (∀ e, P e → Q e) → raises_only I P m → raises_only I Q m.
Proof.
  intros HPQ Hm self HI. destruct (Hm self HI) as [H1 H2].
  split; [done|]. intros e He. by apply HPQ, H2.
Qed.

Lemma raises_try_except I P {A} (body : M A) (handler : exn → M A) :
  raises_only I (λ _, True) body → (∀ e, raises_only I P (handler e)) →
  raises_only I P (try_except body handler).
Proof.
  intros Hb Hh self HI. unfold try_except.
  destruct (Hb self HI) as [H1 _].
  destruct (body self) as [[a|e] s]; simpl in *; [by split|].
  by apply Hh.
Qed.

(** *** The operators *)

Lemma py_lt_raises a b e : py_lt a b = Raised e → type_error e.
Proof. unfold py_lt. destruct (num_of a), (num_of b); by intros [= <-]. Qed.

Lemma py_gt_raises a b e : py_gt a b = Raised e → type_error e.
Proof. apply py_lt_raises. Qed.

Lemma py_succ_raises a e : py_succ a = Raised e → type_error e.
Proof. destruct a; by intros [= <-]. Qed.

Lemma elapsed_raises a b e : elapsed a b = Raised e → type_error e.
Proof. destruct a, b; by intros [= <-]. Qed.

Lemma format_2f_raises v e :
  format_2f v = Raised e → type_value_or_overflow_error e.
Proof.
  unfold type_value_or_overflow_error.
  destruct v; simpl; try destruct (_ <? _); intros [= <-]; tauto.
Qed.

Lemma filter_raising_raises (P : exn → Prop) p l e :
  (∀ x e, p x = Raised e → P e) → filter_raising p l = Raised e → P e.
Proof.
  intros Hp. induction l as [|x l IH]; [done|]. simpl.
  destruct (p x) as [b|e'] eqn:E; simpl; [|intros [= <-]; by eapply Hp].
  destruct (filter_raising p l) as [kept|e'']; simpl; [done|].
  intros [= <-]. by apply IH.
Qed.

Lemma positive_values_raises metric valid_turns e :
  positive_values metric valid_turns = Raised e → type_error e.
Proof. apply filter_raising_raises. intros x e'. apply py_gt_raises. Qed.

Lemma py_add_raises a b e : py_add a b = Raised e → type_or_overflow_error e.
Proof.
  unfold py_add, to_float, type_or_overflow_error.
  destruct a, b; simpl; try done;
    repeat (destruct (_ <? _); simpl; try done); intros [= <-]; tauto.
Qed.

Lemma sum_from_raises start values e :
  sum_from start values = Raised e → type_or_overflow_error e.
Proof.
  unfold sum_from. revert start.
  induction values as [|v values IH]; intros start; [done|].
  cbn [foldl mbind outcome_bind].
  destruct (py_add start v) as [next|e'] eqn:E; [apply IH|].
  rewrite sum_from_raised. intros [= <-]. by eapply py_add_raises.
Qed.

Lemma py_mean_raises v values e :
  py_mean (v :: values) = Raised e → type_or_overflow_error e.
Proof.
  unfold py_mean, py_sum.
  destruct (sum_from (VInt 0) (v :: values)) as [t|e'] eqn:E;
    cbn [mbind outcome_bind]; [|intros [= <-]; by eapply sum_from_raises].
  unfold py_div_count, type_or_overflow_error. cbn [length].
  destruct t; simpl; try destruct (_ <? _); intros [= <-]; tauto.
Qed.

Lemma has_keys_keeps a b : has_keys a → keeps_keys a b → has_keys b.
Proof. intros Ha Hab now k Hk. by eapply Hab, Ha. Qed.

Lemma initial_session_data_keys now now' k :
  is_Some (initial_session_data now !! k) → is_Some (initial_session_data now' !! k).
Proof.
  unfold initial_session_data.
  rewrite <- !not_eq_None_Some, <- !not_elem_of_list_to_map. exact id.
Qed.

Lemma has_keys_initial now self :
  has_keys (set_session_data (initial_session_data now) self).
Proof. intros now' k. apply initial_session_data_keys. Qed.

Lemma type_error_or_overflow e : type_error e → type_or_overflow_error e.
Proof. by left. Qed.

Lemma type_error_or_value e : type_error e → type_value_or_overflow_error e.
Proof. by left. Qed.

Lemma type_or_overflow_error_or_value e :
  type_or_overflow_error e → type_value_or_overflow_error e.
Proof. unfold type_or_overflow_error, type_value_or_overflow_error. tauto. Qed.

Create HintDb raises.
#[export] Hint Resolve py_lt_raises py_gt_raises py_succ_raises elapsed_raises
  format_2f_raises positive_values_raises py_mean_raises type_error_or_overflow
  type_error_or_value type_or_overflow_error_or_value
  : raises.

(** An entry [start_session] creates is there. *)
Ltac has_key :=
  match goal with
  | H : has_keys ?self |- is_Some (session_data ?self !! ?k) =>
      apply (H sample_start k); vm_compute; by eexists
  end.

(** One step of a proof that a method raises only what its operators
    raise: follow the structure of its body. *)
Ltac raises_step :=
  match goal with
  | |- raises_only _ _ (_ ≫= _) => apply raises_bind; [|intros ?]
  | |- raises_only _ _ (when _ _) => apply raises_when
  | |- raises_only _ _ (try_except _ _) => apply raises_try_except; [|intros ?]
  | |- raises_only _ _ (for_each _ _) => apply raises_for_each; intros ?
  | |- raises_only _ _ (io_step _ _) => apply raises_io_step
  | |- raises_only _ _ get_self => apply raises_get_self
  | |- raises_only _ _ skip => apply raises_skip
  | |- raises_only _ _ (mret _) => apply raises_ret
  | |- raises_only _ _ (session_data_get _) =>
      apply raises_session_data_get; intros ? ?; has_key
  | |- raises_only _ _ (lift _) =>
      apply raises_lift; intros ? ?; first [exact Logic.I | by eauto with raises]
  | |- raises_only has_keys _ (modify _) =>
      apply raises_modify; intros ? ?; cbv beta;
      (eapply has_keys_keeps; [eassumption|by eauto with keeps])
  | |- raises_only has_keys _ (logger_info _) =>
      apply raises_modify; intros ? ?;
      (eapply has_keys_keeps; [eassumption|apply add_log_keeps_keys])
  | |- raises_only has_keys _ (logger_warning _) =>
      apply raises_modify; intros ? ?;
      (eapply has_keys_keeps; [eassumption|apply add_log_keeps_keys])
  | |- raises_only has_keys _ (logger_error _) =>
      apply raises_modify; intros ? ?;
      (eapply has_keys_keeps; [eassumption|apply add_log_keeps_keys])
  | |- raises_only has_keys _ (session_data_set _ _) =>
      apply raises_modify; intros ? ?; cbv beta;
      (eapply has_keys_keeps; [eassumption|apply insert_keeps_keys])
  | |- raises_only _ _ (match ?x with _ => _ end) => destruct x
  | |- raises_only _ _ (if ?x then _ else _) => destruct x
  end.

Lemma add_turn_metrics_raises r now :
  raises_only has_keys type_error (add_turn_metrics r now).
Proof.
  unfold add_turn_metrics, update_latency_statistics, session_data_incr.
  repeat raises_step.
Qed.

Lemma end_session_raises ov now io :
  raises_only has_keys type_value_or_overflow_error (end_session ov now io).
Proof.
  unfold end_session, update, _calculate_averages, average_metric, _save_to_excel,
    write_workbook, _create_latency_analysis_sheet, _save_as_csv_fallback.
  repeat raises_step.
Qed.

Lemma get_average_latency_raises I :
  raises_only I type_or_overflow_error get_average_latency.
Proof. unfold get_average_latency. repeat raises_step. Qed.

Lemma get_session_stats_raises I :
  raises_only I type_or_overflow_error get_session_stats.
Proof.
  unfold get_session_stats. apply raises_bind; [apply raises_get_self|]. intros self.
  apply raises_bind; [apply get_average_latency_raises|]. intros v.
  apply raises_ret.
Qed.

Lemma start_session_returns now self :
  (start_session now self).1 = Returned tt
  ∧ has_keys (exec (start_session now) self).
Proof.
  split; [reflexivity|].
  intros now' k. change (session_data (exec (start_session now) self))
    with (initial_session_data now).
  apply initial_session_data_keys.
Qed.

Lemma perform_between_calls c self :
  between_calls self →
  between_calls (exec (perform c) self)
  ∧ ∀ e, (perform c self).1 = Raised e → type_value_or_overflow_error e.
Proof.
  intros Hinv. destruct c as [now|r now|ov now io| |]; cbn [perform].
  - destruct (start_session_returns now self) as [Hret Hkeys].
    split; [by right|]. by rewrite Hret.
  - destruct Hinv as [Hnone|Hkeys].
    + unfold exec, add_turn_metrics.
      erewrite bind_returned; [|reflexivity]. rewrite Hnone.
      split; [by left|done].
    + destruct (add_turn_metrics_raises r now self Hkeys) as [H1 H2].
      split; [by right|]. intros e He. by apply type_error_or_value, H2.
  - destruct Hinv as [Hnone|Hkeys].
    + unfold exec, end_session.
      erewrite bind_returned; [|reflexivity]. rewrite Hnone.
      split; [by left|done].
    + destruct (end_session_raises ov now io self Hkeys) as [H1 H2].
      split; [by right|done].
  - assert (raises_only between_calls type_or_overflow_error
                        (get_average_latency ;; skip)) as H.
    { apply raises_bind; [apply get_average_latency_raises|].
      intros _. apply raises_skip. }
    destruct (H self Hinv) as [H1 H2].
    split; [done|]. intros e He. by apply type_or_overflow_error_or_value, H2.
  - assert (raises_only between_calls type_or_overflow_error
                        (get_session_stats ;; skip)) as H.
    { apply raises_bind; [apply get_session_stats_raises|].
      intros _. apply raises_skip. }
    destruct (H self Hinv) as [H1 H2].
    split; [done|]. intros e He. by apply type_or_overflow_error_or_value, H2.
Qed.

Lemma client_between_calls calls self :
  between_calls self → between_calls (client calls self).
Proof.
  revert self. induction calls as [|c calls IH]; intros self Hinv; [done|].
  simpl. apply IH. by apply perform_between_calls.
Qed.



(** Each of the three is met: a latency that is a string, a [duration]
    that is a string, and an integer beyond the floats, as a latency to
    average or as a [duration] to format. *)
Example exceptions_that_escape :
  let started := client [Start sample_start] (new_logger "metrics") in
  let huge := VInt (10 ^ 400) in
  (perform (AddTurn {["total_latency" := VStr "slow"]} sample_later) started).1
  = Raised TypeError
  ∧ (perform (End (Some {["duration" := VStr "long"]}) sample_end no_faults)
             started).1 = Raised ValueError
  ∧ (perform (End (Some {["duration" := huge]}) sample_end no_faults)
             started).1 = Raised OverflowError
  ∧ (perform (End None sample_end no_faults)
             (client [Start sample_start;
                      AddTurn {["total_latency" := huge]} sample_later]
                     (new_logger "metrics"))).1 = Raised OverflowError.
Proof. split_and!; by vm_compute. Qed.

(** ** The threshold rows *)

Lemma count_nonneg {A} (p : A → bool) (l : list A) : 0 ≤ count p l.
Proof. unfold count. lia. Qed.

Lemma count_mono {A} (p q : A → bool) (l : list A) :
  (∀ x, p x = true → q x = true) → count p l ≤ count q l.
Proof.
  intros Hpq. unfold count. induction l as [|x l IH]; simpl; [done|].
  destruct (p x) eqn:E; [rewrite (Hpq x E); simpl; lia|].
  destruct (q x); simpl; lia.
Qed.

Lemma count_disjoint {A} (p q : A → bool) (l : list A) :
  (∀ x, p x = true → q x = true → False) →
  count p l + count q l ≤ Z.of_nat (length l).
Proof.
  intros Hpq. unfold count. induction l as [|x l IH]; simpl; [done|].
  destruct (p x) eqn:Ep, (q x) eqn:Eq; simpl; try lia.
  by destruct (Hpq x).
Qed.

Lemma count_filter {A B} (p : B → bool) (e : B → bool) (f : A → B) (g : A → bool)
  (l : list A) :
  count p (List.filter e (map f (List.filter g l)))
  ≤ count p (List.filter e (map f l)).
Proof.
  unfold count. induction l as [|x l IH]; simpl; [done|].
  destruct (g x); simpl; destruct (e (f x)); simpl; try destruct (p (f x)); simpl; lia.
Qed.

Lemma filter_all {A} (g : A → bool) (l : list A) :
  count g l = 0 → List.filter (λ x, negb (g x)) l = l.
Proof.
  unfold count. induction l as [|x l IH]; simpl; [done|].
  destruct (g x); simpl; [lia|]. intros H. by rewrite IH.
Qed.

Lemma exceeds_2_1 v : exceeds 2 v = true → exceeds 1 v = true.
Proof.
  unfold exceeds. destruct (num_of v) as [[q| | |]|]; simpl; try done.
  rewrite !Qltb_true. intros H. eapply Qlt_trans; [|exact H]. reflexivity.
Qed.

Lemma exceeds_1_below_half v : exceeds 1 v = true → below (1 # 2) v = true → False.
Proof.
  unfold exceeds, below. destruct (num_of v) as [[q| | |]|]; simpl; try done.
  rewrite !Qltb_true. intros H1 H2.
  apply (Qlt_irrefl q). eapply Qlt_trans; [exact H2|].
  eapply Qlt_trans; [|exact H1]. reflexivity.
Qed.

Lemma qualifying_total_latency records :
  qualifying "total_latency" records
  = List.filter (exceeds 0)
      (map total_latency_of (List.filter (λ r, negb (is_interrupted r)) records)).
Proof. reflexivity. Qed.

(** X15: the three threshold rows of the Latency Analysis table, for a
    session whose uninterrupted turns carry numbers, the integers among
    the qualifying values of a metric adding up to less than the least
    integer that overflows a float, so that the rows are computed.  The
    count above 2.0 is at most the count above 1.0; the counts above 1.0
    and below 0.5 together are at most the number of qualifying latencies.
    The count above 2.0 leaves out the interrupted turns, which the
    [high_latency_turns] counter of the session includes: it is at most the
    counter, and equal to it when no turn was interrupted. *)
Theorem threshold_counts
  (start : datetime) (calls : list (gmap string value * datetime))
  (self : MetricsLogger) :
  Forall (λ t, well_typed t = true) (valid_turns_of calls.*1) →
  averageable calls.*1 = true →
  let before := session start calls self in
  ∃ overall over2 over1 under high,
    analysis_rows (valid_turns_of (turn_metrics before))
    = Returned (overall
                ++ [list_to_map [("Metric", VStr "Turns > 2s latency");
                                 ("Count", VInt over2)];
                    list_to_map [("Metric", VStr "Turns > 1s latency");
                                 ("Count", VInt over1)];
                    list_to_map [("Metric", VStr "Turns < 0.5s latency");
                                 ("Count", VInt under)]])
    ∧ 0 ≤ over2 ≤ over1
    ∧ 0 ≤ under
    ∧ over1 + under ≤ Z.of_nat (length (qualifying "total_latency" calls.*1))
    ∧ session_data before !! "high_latency_turns" = Some (VInt high)
    ∧ over2 ≤ high
    ∧ (count is_interrupted calls.*1 = 0 → over2 = high).
Proof.
  intros Htyped Hdef%averageable_means_defined before.
  destruct (analysis_rows_typed (stamped start calls)) as (rows & Hrows & Hspec);
    [by apply well_typed_stamped|by rewrite means_defined_stamped|].
  apply (proj1 (latency_analysis_of_stamped start calls rows)) in Hspec.
  destruct Hspec as (overall & -> & _).
  set (latencies := qualifying "total_latency" calls.*1) in *.
  exists overall, (count (exceeds 2) latencies), (count (exceeds 1) latencies),
    (count (below (1 # 2)) latencies),
    (count (exceeds 2) (positive_latencies calls.*1)).
  unfold before. rewrite session_turn_metrics.
  split_and!.
  - exact Hrows.
  - apply count_nonneg.
  - apply count_mono, exceeds_2_1.
  - apply count_nonneg.
  - apply count_disjoint, exceeds_1_below_half.
  - apply (inv_high start calls), session_inv.
  - unfold latencies. rewrite qualifying_total_latency. apply count_filter.
  - intros Hnone. unfold latencies. rewrite qualifying_total_latency.
    by rewrite filter_all.
Qed.

Lemma threshold_counts_witness :
  let before := session sample_start sample_calls (new_logger "metrics") in
  ∃ overall over2 over1 under high,
    analysis_rows (valid_turns_of (turn_metrics before))
    = Returned (overall
                ++ [list_to_map [("Metric", VStr "Turns > 2s latency");
                                 ("Count", VInt over2)];
                    list_to_map [("Metric", VStr "Turns > 1s latency");
                                 ("Count", VInt over1)];
                    list_to_map [("Metric", VStr "Turns < 0.5s latency");
                                 ("Count", VInt under)]])
    ∧ 0 ≤ over2 ≤ over1
    ∧ 0 ≤ under
    ∧ over1 + under ≤ Z.of_nat (length (qualifying "total_latency" sample_calls.*1))
    ∧ session_data before !! "high_latency_turns" = Some (VInt high)
    ∧ over2 ≤ high
    ∧ (count is_interrupted sample_calls.*1 = 0 → over2 = high).
Proof.
  refine (threshold_counts sample_start sample_calls (new_logger "metrics") _ _).
  - repeat constructor.
  - reflexivity.
Defined.

(** ** The callers: a loop of admissions *)

Lemma add_turns_snoc calls c self :
  add_turns (calls ++ [c]) self = exec (add_turn_metrics c.1 c.2) (add_turns calls self).
Proof. unfold add_turns. by rewrite foldl_app. Qed.

(** A loop of admissions of records with a numeric latency returns, and
    leaves what the caller of [session] has. *)
Lemma for_each_admits {A} start calls self (l : list A)
  (f : A → gmap string value) (g : A → datetime) :
  recorder_inv start calls self →
  Forall (λ x, numeric (total_latency_of (f x)) = true) l →
  for_each l (λ x, add_turn_metrics (f x) (g x)) self
  = (Returned tt, add_turns (map (λ x, (f x, g x)) l) self).
Proof.
  intros Hinv Hnum. revert calls self Hinv.
  induction Hnum as [|x l Hx _ IH]; intros calls self Hinv; [done|].
  cbn [for_each map].
  pose proof (add_turn_outcome start calls self (f x) (g x) Hinv) as Hout.
  rewrite Hx in Hout.
  erewrite bind_returned;
    [|by rewrite (surjective_pairing (add_turn_metrics (f x) (g x) self)), Hout].
  fold (exec (add_turn_metrics (f x) (g x)) self).
  erewrite IH; [done|]. by apply step_inv.
Qed.

Lemma write_workbook_no_writer io filepath self e :
  io (OpenWriter filepath) = Some e →
  write_workbook io filepath self = (Raised e, self).
Proof.
  intros Hio. unfold write_workbook.
  erewrite bind_returned; [|reflexivity].
  erewrite bind_raised; [done|]. by apply io_step_fault.
Qed.

Lemma exported_files_all_faults io sid self :
  (∀ op, is_Some (io op)) → exported_files io sid self = [].
Proof.
  intros Hio. unfold exported_files.
  destruct (Hio (OpenWriter (ExcelPath (output_dir self) sid))) as [e He].
  rewrite (write_workbook_no_writer _ _ _ e He).
  unfold fallback_files.
  by destruct (Hio (ToCsv (SessionCsvPath (output_dir self) sid))) as [e' ->].
Qed.

Lemma float_limit_pos : 0 < float_limit.
Proof. by vm_compute. Qed.

Lemma int_mass_floats (vs : list value) :
  Forall (λ v, int_of v = None ∨ int_of v = Some 0) vs → int_mass vs = 0.
Proof.
  induction 1 as [|v vs [Hv|Hv] _ IH]; [done|..];
    unfold int_mass in *; cbn [foldr]; by rewrite Hv.
Qed.

(** Records whose metrics are floats or absent can be averaged. *)
Lemma averageable_floats (records : list (gmap string value)) :
  (∀ t metric, t ∈ records → metric ∈ metrics_to_avg →
     int_of (dict_get t metric (VInt 0)) = None
     ∨ int_of (dict_get t metric (VInt 0)) = Some 0) →
  averageable records = true.
Proof.
  intros H. unfold averageable. apply forallb_forall.
  intros metric Hm%list_elem_of_In.
  apply Z.ltb_lt. rewrite int_mass_floats; [apply float_limit_pos|].
  unfold qualifying. apply Forall_forall. intros v.
  rewrite list_elem_of_In, filter_In, <- list_elem_of_In. intros [Hin _].
  apply list_elem_of_fmap in Hin as (t & -> & Hin).
  apply H; [|done]. unfold valid_turns_of in Hin.
  rewrite list_elem_of_In, filter_In, <- list_elem_of_In in Hin. by destruct Hin.
Qed.

(** X16: the self-test of the logger cannot fail once the import and the
    constructor succeeded: whatever the clock reads and whatever faults the
    writes meet, it returns [True] and records a pass; so it does when
    every write fails and no file is written. *)
Theorem test_metrics_logger_passes
  (t0 t1 t2 : datetime) (io : io_faults) (test_results : gmap string bool) :
  test_metrics_logger None t0 t1 t2 io test_results
  = (true, <["metrics" := true]> test_results)
  ∧ ((∀ op, is_Some (io op)) →
     files (exec (test_metrics_logger_calls t0 t1 t2 io) (new_logger "test_metrics"))
     = []).
Proof.
  set (ov := Some (list_to_map [("test_session", VBool true);
                                ("total_turns", VInt 1)] : gmap string value)).
  set (self := new_logger "test_metrics").
  assert (Hrun : test_metrics_logger_calls t0 t1 t2 io self
                 = end_session ov t2 io (session t0 [(test_metrics, t1)] self)).
  { unfold test_metrics_logger_calls.
    erewrite bind_returned; [|reflexivity].
    pose proof (add_turn_outcome t0 [] (exec (start_session t0) self) test_metrics t1
                  (start_inv t0 self)) as Hout.
    change (numeric (total_latency_of test_metrics)) with true in Hout.
    cbv iota in Hout.
    assert (Hadd : add_turn_metrics test_metrics t1 (exec (start_session t0) self)
                   = (Returned tt,
                      exec (add_turn_metrics test_metrics t1)
                           (exec (start_session t0) self))).
    { by rewrite (surjective_pairing (add_turn_metrics _ _ _)), Hout. }
    erewrite bind_returned; [|exact Hadd]. reflexivity. }
  assert (Htyped : Forall (λ t, well_typed t = true)
                     (valid_turns_of [(test_metrics, t1)].*1)).
  { repeat constructor. }
  assert (Hdef : means_defined [(test_metrics, t1)].*1 = true) by reflexivity.
  destruct (closed_session_export t0 [(test_metrics, t1)] self ov t2 io Htyped Hdef)
    as (sid & dur & Hsid & Hdur & Hout & Hfiles & _).
  split.
  - unfold test_metrics_logger. cbv zeta. fold self. rewrite Hrun, Hout.
    rewrite closing_data_duration in Hdur. injection Hdur as <-.
    reflexivity.
  - intros Hio. unfold exec. rewrite Hrun, Hfiles.
    by rewrite exported_files_all_faults.
Qed.

Lemma sample_turn_metrics_typed turn d :
  well_typed (sample_turn_metrics turn d) = true.
Proof. reflexivity. Qed.

Lemma sample_turn_metrics_interrupted turn d :
  is_interrupted (sample_turn_metrics turn d) = drawn_interrupted d.
Proof. reflexivity. Qed.

Lemma is_interrupted_stamp r now sid : is_interrupted (stamp r now sid) = is_interrupted r.
Proof. unfold is_interrupted. by rewrite stamp_get. Qed.

Lemma count_fmap {A B} (p : B → bool) (f : A → B) (l : list A) :
  count p (map f l) = count (λ x, p (f x)) l.
Proof.
  unfold count. induction l as [|x l IH]; simpl; [done|].
  destruct (p (f x)); simpl; lia.
Qed.

(** X17: the demonstration reports the counts its summary hard-codes.
    Whatever [random] draws, whatever the clock reads and whatever faults
    the writes meet, the call returns with five turns recorded, and the
    Session Summary says 5 turns, 4 successful and 1 interrupted, while the
    number of interrupted turns in the Turn Details is the number of rounds
    whose draw was [True]. *)
Theorem generate_sample_metrics_summary
  (rand : Z → draw) (t0 : datetime) (clock : Z → datetime) (t1 : datetime)
  (io : io_faults) :
  let result := generate_sample_metrics rand t0 clock t1 io in
  let final := result.2 in
  result.1 = Returned tt
  ∧ session_data final !! "total_turns" = Some (VInt 5)
  ∧ session_data final !! "successful_turns" = Some (VInt 4)
  ∧ session_data final !! "interrupted_turns" = Some (VInt 1)
  ∧ length (turn_metrics final) = 5%nat
  ∧ count is_interrupted (turn_metrics final)
    = count (λ turn, drawn_interrupted (rand turn)) [1; 2; 3; 4; 5].
Proof.
  intros result final.
  set (f := λ turn, sample_turn_metrics turn (rand turn)).
  set (calls := map (λ turn, (f turn, clock turn)) [1; 2; 3; 4; 5]).
  set (before := session t0 calls (new_logger "metrics")).
  assert (Hrun : result = end_session (Some sample_session_summary) t1 io before).
  { unfold result, generate_sample_metrics.
    erewrite bind_returned; [|reflexivity].
    erewrite bind_returned; [reflexivity|].
    apply (for_each_admits t0 [] _ [1; 2; 3; 4; 5] f clock); [apply start_inv|].
    repeat constructor. }
  assert (Htyped : Forall (λ t, well_typed t = true) (valid_turns_of calls.*1)).
  { apply Forall_forall. intros t. unfold valid_turns_of.
    rewrite list_elem_of_In, filter_In, <- list_elem_of_In.
    intros [Hin _]. unfold calls in Hin.
    rewrite <- list_fmap_compose in Hin.
    apply list_elem_of_fmap in Hin as (turn & -> & _).
    exact (sample_turn_metrics_typed turn (rand turn)). }
  assert (Hdef : means_defined calls.*1 = true).
  { apply averageable_means_defined, averageable_floats.
    intros t metric Hin Hm. unfold calls in Hin.
    rewrite <- list_fmap_compose in Hin.
    apply list_elem_of_fmap in Hin as (turn & -> & _).
    unfold metrics_to_avg in Hm.
    repeat (apply elem_of_cons in Hm as [->|Hm]; [by left|]).
    by apply elem_of_nil in Hm. }
  destruct (closed_session_export t0 calls (new_logger "metrics")
              (Some sample_session_summary) t1 io Htyped Hdef)
    as (sid & dur & Hsid & Hdur & Hout & _).
  pose proof (closed_session_data t0 calls (new_logger "metrics")
                (Some sample_session_summary) t1 io Htyped Hdef) as Hdata.
  fold before in Hout, Hdata, Hdur, Hsid.
  destruct (end_session_same_session (Some sample_session_summary) t1 io before)
    as (_ & Htm & _).
  assert (Hov : ∀ k v, sample_session_summary !! k = Some v →
                       k ∉ avg_keys → k ≠ "min_latency" →
                       session_data final !! k = Some v).
  { intros k v Hk Havg Hmin. unfold final. rewrite Hrun.
    change (end_session _ _ _ _).2 with
      (exec (end_session (Some sample_session_summary) t1 io) before).
    rewrite Hdata, closing_data_lookup_other by done.
    by apply before_averages_overlay. }
  assert (Hturns : turn_metrics final = stamped t0 calls).
  { unfold final. rewrite Hrun, Htm. apply session_turn_metrics. }
  split_and!.
  - rewrite Hrun, Hout.
    rewrite closing_data_duration in Hdur. injection Hdur as <-.
    reflexivity.
  - apply (Hov "total_turns" (VInt 5)); [reflexivity| |discriminate].
    apply (proj2 (not_avg_key "total_turns")). repeat split; discriminate.
  - apply (Hov "successful_turns" (VInt 4)); [reflexivity| |discriminate].
    apply (proj2 (not_avg_key "successful_turns")). repeat split; discriminate.
  - apply (Hov "interrupted_turns" (VInt 1)); [reflexivity| |discriminate].
    apply (proj2 (not_avg_key "interrupted_turns")). repeat split; discriminate.
  - rewrite Hturns. unfold stamped, calls. by rewrite !length_map.
  - rewrite Hturns. unfold stamped, calls.
    rewrite !count_fmap. reflexivity.
Qed.

(** ** The timestamps of one turn *)

Lemma truthy_as_value (attribute : option pyfloat) :
  truthy (ConversationMetrics.as_value attribute) = true → ∃ x, attribute = Some x.
Proof. destruct attribute; [eauto|done]. Qed.

(** A guarded assignment returns, and adds at most a float under a key
    of the averaged metrics. *)
Lemma assign_if_returns (test : bool) k (a b : option pyfloat)
  (metrics : gmap string value) :
  (test = true → ∃ x y, a = Some x ∧ b = Some y) →
  ∃ metrics', ConversationMetrics.assign_if test k a b metrics = Returned metrics'
    ∧ ((test = false ∧ metrics' = metrics)
       ∨ ∃ x, test = true ∧ metrics' = <[k := VFloat x]> metrics).
Proof.
  intros H. unfold ConversationMetrics.assign_if. destruct test.
  - destruct H as (x & y & -> & ->); [done|]. simpl. eauto 6.
  - eauto.
Qed.

Lemma latencies_only_insert k x metrics :
  k ∈ metrics_to_avg → latencies_only metrics →
  latencies_only (<[k := VFloat x]> metrics).
Proof.
  intros Hk Hm k' v. rewrite lookup_insert_Some.
  intros [[<- <-]|[_ H]]; [eauto|by apply Hm].
Qed.

Lemma latencies_only_typed metrics :
  latencies_only metrics →
  well_typed metrics = true ∧ is_interrupted metrics = false.
Proof.
  intros Hm. split.
  - unfold well_typed. apply forallb_forall. intros metric _.
    unfold dict_get. destruct (metrics !! metric) as [v|] eqn:E; [|done].
    by destruct (Hm _ _ E) as (_ & x & ->).
  - unfold is_interrupted, dict_get.
    destruct (metrics !! "interrupted") as [v|] eqn:E; [|done].
    destruct (Hm _ _ E) as (Hin & _).
    unfold metrics_to_avg in Hin. rewrite !elem_of_cons, elem_of_nil in Hin.
    by destruct Hin as [?|[?|[?|[?|[]]]]].
Qed.

(** X18: [calculate_latencies] never raises, because every subtraction is
    guarded by the truth of both its operands.  What it returns holds only
    floats under the names of the four averaged metrics, so it counts as a
    turn that is not interrupted; it has a [ttft] only together with an
    [eou_delay]; an open session admits it without raising; and right after
    [reset_turn] it is empty. *)
Theorem calculate_latencies_record (self : ConversationMetrics.t) :
  ∃ metrics,
    ConversationMetrics.calculate_latencies self = Returned metrics
    ∧ (∀ k v, metrics !! k = Some v → k ∈ metrics_to_avg ∧ ∃ x, v = VFloat x)
    ∧ well_typed metrics = true
    ∧ is_interrupted metrics = false
    ∧ (is_Some (metrics !! "ttft") → is_Some (metrics !! "eou_delay"))
    ∧ (∀ start calls logger now,
         recorder_inv start calls logger →
         (add_turn_metrics metrics now logger).1 = Returned tt)
    ∧ ConversationMetrics.calculate_latencies (ConversationMetrics.reset_turn self)
      = Returned ∅.
Proof.
  assert (Hreset : ConversationMetrics.calculate_latencies
                     (ConversationMetrics.reset_turn self) = Returned ∅).
  { unfold ConversationMetrics.calculate_latencies. simpl.
    by destruct (negb _). }
  assert (∃ metrics,
            ConversationMetrics.calculate_latencies self = Returned metrics
            ∧ latencies_only metrics
            ∧ (is_Some (metrics !! "ttft") → is_Some (metrics !! "eou_delay")))
    as (metrics & Hret & Honly & Hdep).
  { unfold ConversationMetrics.calculate_latencies.
    destruct (truthy (ConversationMetrics.as_value
                        (ConversationMetrics.user_speech_end_time self))) eqn:Euser;
      cbn [negb]; [|exists ∅; split_and!; [done|by intros k v|by intros [? ?]]].
    apply truthy_as_value in Euser as [user Huser].
    destruct (assign_if_returns
                (truthy (ConversationMetrics.as_value
                           (ConversationMetrics.stt_completion_time self)))
                "eou_delay" (ConversationMetrics.stt_completion_time self)
                (ConversationMetrics.user_speech_end_time self) ∅)
      as (m1 & -> & H1).
    { intros [x ->]%truthy_as_value. rewrite Huser. eauto. }
    cbn [mbind outcome_bind].
    destruct (assign_if_returns
                (truthy (ConversationMetrics.as_value
                           (ConversationMetrics.llm_first_token_time self))
                 && truthy (ConversationMetrics.as_value
                              (ConversationMetrics.stt_completion_time self)))
                "ttft" (ConversationMetrics.llm_first_token_time self)
                (ConversationMetrics.stt_completion_time self) m1)
      as (m2 & -> & H2).
    { intros [[x ->]%truthy_as_value [y ->]%truthy_as_value]%andb_true_iff. eauto. }
    cbn [mbind outcome_bind].
    destruct (assign_if_returns
                (truthy (ConversationMetrics.as_value
                           (ConversationMetrics.tts_first_byte_time self))
                 && truthy (ConversationMetrics.as_value
                              (ConversationMetrics.llm_first_token_time self)))
                "ttfb" (ConversationMetrics.tts_first_byte_time self)
                (ConversationMetrics.llm_first_token_time self) m2)
      as (m3 & -> & H3).
    { intros [[x ->]%truthy_as_value [y ->]%truthy_as_value]%andb_true_iff. eauto. }
    cbn [mbind outcome_bind].
    destruct (assign_if_returns
                (truthy (ConversationMetrics.as_value
                           (ConversationMetrics.response_start_time self)))
                "total_latency" (ConversationMetrics.response_start_time self)
                (ConversationMetrics.user_speech_end_time self) m3)
      as (m4 & Hm4 & H4).
    { intros [x ->]%truthy_as_value. rewrite Huser. eauto. }
    exists m4. cbn [mbind outcome_bind]. split; [exact Hm4|].
    assert (Hk1 : latencies_only m1).
    { destruct H1 as [[_ ->]|(x & _ & ->)]; [by intros k v|].
      apply latencies_only_insert; [unfold metrics_to_avg; repeat constructor|by intros k v]. }
    assert (Hk2 : latencies_only m2).
    { destruct H2 as [[_ ->]|(x & _ & ->)]; [done|].
      apply latencies_only_insert; [unfold metrics_to_avg; repeat constructor|done]. }
    assert (Hk3 : latencies_only m3).
    { destruct H3 as [[_ ->]|(x & _ & ->)]; [done|].
      apply latencies_only_insert; [unfold metrics_to_avg; repeat constructor|done]. }
    assert (Hk4 : latencies_only m4).
    { destruct H4 as [[_ ->]|(x & _ & ->)]; [done|].
      apply latencies_only_insert; [unfold metrics_to_avg; repeat constructor|done]. }
    split; [exact Hk4|].
    assert (Hd2 : is_Some (m2 !! "ttft") → is_Some (m2 !! "eou_delay")).
    { destruct H2 as [[_ ->]|(x & [_ Hstt]%andb_true_iff & ->)].
      - destruct H1 as [[_ ->]|(x & _ & ->)]; [by intros [? ?]|].
        intros _. rewrite lookup_insert_eq. by eexists.
      - intros _. rewrite lookup_insert_ne by done.
        destruct H1 as [[Hno _]|(y & _ & ->)]; [congruence|].
        rewrite lookup_insert_eq. by eexists. }
    destruct H4 as [[_ ->]|(x & _ & ->)], H3 as [[_ ->]|(y & _ & ->)];
      rewrite ?lookup_insert_ne by done; exact Hd2. }
  exists metrics.
  destruct (latencies_only_typed metrics Honly) as [Htyped Hint].
  split_and!; try done.
  intros start calls logger now Hinv.
  rewrite (add_turn_outcome start calls logger metrics now Hinv).
  assert (numeric (total_latency_of metrics) = true) as ->; [|done].
  unfold total_latency_of, dict_get.
  destruct (metrics !! "total_latency") as [v|] eqn:E; [|done].
  by destruct (Honly _ _ E) as (_ & x & ->).
Qed.

(** ** The two checks of the environment *)

Lemma provider_keys_lookup :
  provider_keys !! "deepgram" = Some ["DEEPGRAM_API_KEY"]
  ∧ provider_keys !! "groq" = Some ["GROQ_API_KEY"]
  ∧ provider_keys !! "cartesia" = Some ["CARTESIA_API_KEY"]
  ∧ provider_keys !! "elevenlabs" = Some ["ELEVENLABS_API_KEY"]
  ∧ provider_keys !! "openai" = Some ["OPENAI_API_KEY"]
  ∧ provider_keys !! "whisper" = None.
Proof. by vm_compute. Qed.

Lemma unset_nil {A} (p : A → bool) (l : list A) :
  List.filter (λ x, negb (p x)) l = [] ↔ Forall (λ x, p x = true) l.
Proof.
  induction l as [|x l IH]; simpl; [by split|].
  rewrite Forall_cons. destruct (p x); simpl; [rewrite IH; tauto|].
  split; [done|]. by intros [? _].
Qed.

Lemma missing_keys_nil (env : environ) :
  missing_keys env = [] ↔ Forall (λ k, is_set (getenv env k) = true) (keys_checked env).
Proof.
  unfold missing_keys, keys_checked.
  rewrite <- (unset_nil (λ k, is_set (getenv env k))), List.filter_app.
  cbn [flat_map]. rewrite !List.filter_app.
  by destruct (provider_keys !! getenv_default env "STT_PROVIDER" "deepgram"),
    (provider_keys !! getenv_default env "LLM_PROVIDER" "groq"),
    (provider_keys !! getenv_default env "TTS_PROVIDER" "cartesia").
Qed.

Lemma missing_vars_nil (env : environ) :
  missing_vars env = [] ↔ Forall (λ kv, is_set kv.2 = true) (all_vars env).
Proof.
  unfold missing_vars. rewrite <- (unset_nil (λ kv, is_set kv.2)).
  by destruct (List.filter _ _).
Qed.

(** Evaluate the two checks for given providers, down to the variables
    they test. *)
Ltac evaluate_checks Hstt Hllm Htts :=
  rewrite ?missing_keys_nil, ?missing_vars_nil;
  unfold keys_checked, all_vars, api_keys_used, required_keys;
  rewrite ?Hstt, ?Hllm, ?Htts;
  cbn [flat_map String.eqb Ascii.eqb Bool.eqb odict_merge odict_set foldl
       required_keys fst snd];
  (let H1 := fresh in let H2 := fresh in let H3 := fresh in
   let H4 := fresh in let H5 := fresh in let H6 := fresh in
   destruct provider_keys_lookup as (H1 & H2 & H3 & H4 & H5 & H6);
   rewrite ?H1, ?H2, ?H3, ?H4, ?H5, ?H6; clear H1 H2 H3 H4 H5 H6);
  cbn [default app from_option id];
  rewrite ?Forall_cons, ?Forall_nil; cbn [fst snd].

Lemma check_env_file_true dotenv env0 :
  (check_env_file (Some dotenv) env0).1 = true
  ↔ missing_keys (load_dotenv dotenv env0) = [].
Proof. simpl. by destruct (missing_keys _). Qed.

Lemma test_environment_true env test_results :
  (test_environment env test_results).1 = true ↔ missing_vars env = [].
Proof. unfold test_environment. by destruct (missing_vars _). Qed.

(** X19: the deployment script and the test script check the same
    environment variables when the speech-to-text provider is [deepgram],
    the language model is [groq] or [openai] and the text-to-speech
    provider is [cartesia] or [elevenlabs]: [check_env_file], on an existing
    [.env], and [test_environment] then return the same value. *)
Theorem environment_checks_agree
  (dotenv env0 : environ) (test_results : gmap string bool) :
  let env := load_dotenv dotenv env0 in
  getenv_default env "STT_PROVIDER" "deepgram" = "deepgram" →
  getenv_default env "LLM_PROVIDER" "groq" = "groq"
  ∨ getenv_default env "LLM_PROVIDER" "groq" = "openai" →
  getenv_default env "TTS_PROVIDER" "cartesia" = "cartesia"
  ∨ getenv_default env "TTS_PROVIDER" "cartesia" = "elevenlabs" →
  (check_env_file (Some dotenv) env0).1 = (test_environment env test_results).1.
Proof.
  intros env Hstt Hllm Htts.
  apply eq_true_iff_eq.
  rewrite check_env_file_true, test_environment_true. fold env.
  destruct Hllm as [Hllm|Hllm], Htts as [Htts|Htts];
    evaluate_checks Hstt Hllm Htts; tauto.
Qed.

Lemma environment_checks_agree_witness :
  (check_env_file (Some sample_dotenv) ∅).1
  = (test_environment (load_dotenv sample_dotenv ∅) ∅).1.
Proof.
  refine (environment_checks_agree sample_dotenv ∅ ∅ _ _ _).
  - reflexivity.
  - left. reflexivity.
  - left. reflexivity.
Defined.

(** X20: a pass of [test_environment] covers the agent.  When the
    providers are among those the test knows ([deepgram] or [whisper],
    [groq] or [openai], [cartesia] or [elevenlabs]) and the test returns
    [True], every variable whose value [entrypoint] hands to a provider as
    its API key is set and not empty. *)
Theorem test_environment_covers_agent
  (env : environ) (test_results : gmap string bool) :
  getenv_default env "STT_PROVIDER" "deepgram" = "deepgram"
  ∨ getenv_default env "STT_PROVIDER" "deepgram" = "whisper" →
  getenv_default env "LLM_PROVIDER" "groq" = "groq"
  ∨ getenv_default env "LLM_PROVIDER" "groq" = "openai" →
  getenv_default env "TTS_PROVIDER" "cartesia" = "cartesia"
  ∨ getenv_default env "TTS_PROVIDER" "cartesia" = "elevenlabs" →
  (test_environment env test_results).1 = true →
  Forall (λ key, is_set (getenv env key) = true) (api_keys_used env).
Proof.
  intros Hstt Hllm Htts. rewrite test_environment_true.
  destruct Hstt as [Hstt|Hstt], Hllm as [Hllm|Hllm], Htts as [Htts|Htts];
    evaluate_checks Hstt Hllm Htts; tauto.
Qed.

Lemma test_environment_covers_agent_witness :
  Forall (λ key, is_set (getenv sample_dotenv key) = true)
         (api_keys_used sample_dotenv).
Proof.
  refine (test_environment_covers_agent sample_dotenv ∅ _ _ _ _).
  - left. reflexivity.
  - left. reflexivity.
  - left. reflexivity.
  - reflexivity.
Defined.

(** X21: [check_env_file] knows no [whisper].  With [STT_PROVIDER] set to
    [whisper] (and [groq] with [cartesia] or [elevenlabs]), the agent hands
    [OPENAI_API_KEY] to its speech-to-text provider, but [check_env_file]
    passes exactly when the three LiveKit variables and the keys of the
    other two providers are set, whether or not [OPENAI_API_KEY] is; the
    test script does fail without it. *)
Theorem whisper_key_unchecked
  (dotenv env0 : environ) (test_results : gmap string bool) :
  let env := load_dotenv dotenv env0 in
  getenv_default env "STT_PROVIDER" "deepgram" = "whisper" →
  getenv_default env "LLM_PROVIDER" "groq" = "groq" →
  getenv_default env "TTS_PROVIDER" "cartesia" = "cartesia"
  ∨ getenv_default env "TTS_PROVIDER" "cartesia" = "elevenlabs" →
  "OPENAI_API_KEY" ∈ api_keys_used env
  ∧ ((check_env_file (Some dotenv) env0).1 = true
     ↔ Forall (λ key, is_set (getenv env key) = true)
         (required_keys
          ++ ["GROQ_API_KEY";
              if String.eqb (getenv_default env "TTS_PROVIDER" "cartesia") "cartesia"
              then "CARTESIA_API_KEY" else "ELEVENLABS_API_KEY"]))
  ∧ (is_set (getenv env "OPENAI_API_KEY") = false →
     (test_environment env test_results).1 = false).
Proof.
  intros env Hstt Hllm Htts. split_and!.
  - unfold api_keys_used. rewrite Hstt. cbn [String.eqb Ascii.eqb Bool.eqb].
    apply list_elem_of_here.
  - rewrite check_env_file_true. fold env.
    destruct Htts as [Htts|Htts]; evaluate_checks Hstt Hllm Htts; tauto.
  - intros Hunset. apply not_true_iff_false.
    rewrite test_environment_true.
    destruct Htts as [Htts|Htts]; evaluate_checks Hstt Hllm Htts;
      rewrite Hunset; intuition discriminate.
Qed.

Lemma whisper_key_unchecked_witness :
  let env := load_dotenv (<["STT_PROVIDER" := "whisper"]> sample_dotenv) ∅ in
  "OPENAI_API_KEY" ∈ api_keys_used env
  ∧ ((check_env_file (Some (<["STT_PROVIDER" := "whisper"]> sample_dotenv)) ∅).1 = true
     ↔ Forall (λ key, is_set (getenv env key) = true)
         (required_keys
          ++ ["GROQ_API_KEY";
              if String.eqb (getenv_default env "TTS_PROVIDER" "cartesia") "cartesia"
              then "CARTESIA_API_KEY" else "ELEVENLABS_API_KEY"]))
  ∧ (is_set (getenv env "OPENAI_API_KEY") = false →
     (test_environment env ∅).1 = false).
Proof.
  refine (whisper_key_unchecked (<["STT_PROVIDER" := "whisper"]> sample_dotenv) ∅ ∅ _ _ _).
  - reflexivity.
  - reflexivity.
  - left. reflexivity.
Defined.

(** ** The deployment *)

Lemma run_agent_true executable child dev_mode success :
  run_agent executable child dev_mode = Returned success →
  truthy success = true →
  ∃ cmd e, child cmd = Raised e ∧ caught_by "KeyboardInterrupt" e = true.
Proof.
  unfold run_agent. set (cmd := if dev_mode then _ else _).
  destruct (child cmd) as [[]|e] eqn:E; [by intros [= <-]|].
  destruct (caught_by "CalledProcessError" e); [by intros [= <-]|].
  destruct (caught_by "KeyboardInterrupt" e) eqn:Ek; [|done].
  intros _ _. by exists cmd, e.
Qed.

(** X22: the deployment reports success only for an agent that was
    stopped from the keyboard.  When [deployment.py] runs the agent (no
    [--validate-only]) and exits with status 0, the agent process raised
    [KeyboardInterrupt]; an agent process that runs to its end and exits
    normally makes [run_agent] return [None], and the status is 1. *)
Theorem deployment_succeeds_only_on_interrupt
  (w : world) (args : deployment_args) (success : value) :
  validate_only args = false →
  deployment_main w args = Returned success →
  (exit_status success = 0 →
   ∃ cmd e, child w cmd = Raised e ∧ caught_by "KeyboardInterrupt" e = true)
  ∧ ((∀ cmd, child w cmd = Returned tt) → exit_status success = 1).
Proof.
  intros Hv. unfold deployment_main, deploy. rewrite Hv.
  assert (Hexit : ∀ v, exit_status v = 0 ↔ truthy v = true).
  { intros v. unfold exit_status. by destruct (truthy v). }
  assert (Hfalse : exit_status (VBool false) = 1) by done.
  destruct (negb (check_env_file _ _).1);
    [intros [= <-]; split; [done|by intros _]|].
  destruct (if skip_install args then _ else _) as [installed|e];
    cbn [mbind outcome_bind]; [|done].
  destruct (negb (truthy installed));
    [intros [= <-]; split; [done|by intros _]|].
  destruct (validate_imports (import_ w)) as [validated|e];
    cbn [mbind outcome_bind]; [|done].
  destruct (negb (truthy validated));
    [intros [= <-]; split; [done|by intros _]|].
  intros Hrun. split.
  - rewrite Hexit. by eapply run_agent_true.
  - intros Hchild. unfold run_agent in Hrun. rewrite Hchild in Hrun.
    by injection Hrun as <-.
Qed.

Lemma deployment_succeeds_only_on_interrupt_witness :
  (exit_status VNone = 0 →
   ∃ cmd e, child (sample_world (Returned tt)) cmd = Raised e
            ∧ caught_by "KeyboardInterrupt" e = true)
  ∧ ((∀ cmd, child (sample_world (Returned tt)) cmd = Returned tt) →
     exit_status VNone = 1).
Proof.
  refine (deployment_succeeds_only_on_interrupt (sample_world (Returned tt))
            (mkArgs false false false) VNone _ _).
  - reflexivity.
  - vm_compute. reflexivity.
Defined.

(** ** The summary of the tests *)

Lemma sum_true (bs : list bool) (acc : Z) :
  foldl (λ acc (b : bool), acc + (if b then 1 else 0)) acc bs = acc + count id bs.
Proof.
  revert acc. induction bs as [|b bs IH]; intros acc; simpl.
  - unfold count. simpl. lia.
  - rewrite IH. unfold count. simpl. destruct b; simpl; lia.
Qed.

Lemma count_all {A} (p : A → bool) (l : list A) :
  count p l = Z.of_nat (length l) ↔ Forall (λ x, p x = true) l.
Proof.
  unfold count. induction l as [|x l IH]; simpl; [by split|].
  rewrite Forall_cons. pose proof (filter_length_le p l) as Hle.
  destruct (p x); simpl.
  - rewrite <- IH. lia.
  - split; [lia|]. by intros [? _].
Qed.

(** X23: [print_summary] returns [True] exactly when every result is
    [True]; so it does for no results at all. *)
Theorem print_summary_all_passed (results : list (string * bool)) :
  print_summary results = true ↔ Forall (λ kv, kv.2 = true) results.
Proof.
  unfold print_summary. rewrite sum_true, Z.add_0_l, Z.eqb_eq.
  rewrite <- (length_fmap snd results), (count_all id), Forall_fmap.
  reflexivity.
Qed.

(** ** The session of [entrypoint] *)

Lemma end_session_closable_files start self ov now io :
  closable start self →
  means_defined (turn_metrics self) = true →
  ∃ sid,
    closing_data ov now start (turn_metrics self) (session_data self) !! "session_id"
    = Some sid
    ∧ files (exec (end_session ov now io) self)
      = files self
        ++ exported_files io sid
             (set_session_data
                (closing_data ov now start (turn_metrics self) (session_data self))
                self).
Proof.
  intros Hc Hdef.
  destruct (end_session_closable start self ov now io Hc Hdef)
    as (sid & dur & tot & Hsid & _ & _ & Hend).
  exists sid. split; [done|].
  unfold exec. rewrite Hend. cbv zeta.
  set (d := closing_data ov now start (turn_metrics self) (session_data self)).
  pose proof (after_export_files io sid (set_session_data d self)) as Hfiles.
  by destruct (format_2f dur) as [[]|e].
Qed.

(** Closes of a session that can be closed, one after the other. *)
Lemma closes_return start ov (closes : list (datetime * io_faults)) self :
  closable start self →
  means_defined (turn_metrics self) = true →
  default ∅ ov !! "start_time" = None →
  default ∅ ov !! "duration" = None →
  ∃ self',
    for_each closes (λ close, end_session ov close.1 close.2) self
    = (Returned tt, self')
    ∧ closable start self'
    ∧ turn_metrics self' = turn_metrics self
    ∧ (closes ≠ [] →
       ∃ now, now ∈ closes.*1
              ∧ session_data self'
                = closing_data ov now start (turn_metrics self) (session_data self)).
Proof.
  intros Hc Hdef Hstart Hdur. revert self Hc Hdef.
  induction closes as [|[now io] closes IH]; intros self Hc Hdef.
  - exists self. by split_and!.
  - cbn [for_each fst snd].
    pose proof (end_session_closable_outcome start self ov now io Hc Hdef) as Hout.
    rewrite Hdur in Hout. cbn [default from_option format_2f] in Hout.
    pose proof (closable_closed start self ov now io Hc Hdef Hstart) as Hc1.
    destruct (end_session_same_session ov now io self) as (_ & Htm & _).
    fold (exec (end_session ov now io) self) in Htm.
    destruct (IH _ Hc1) as (self' & Hrun & Hc' & Htm' & Hdata);
      [by rewrite Htm|].
    exists self'. split_and!.
    + erewrite bind_returned; [exact Hrun|].
      by rewrite (surjective_pairing (end_session ov now io self)), Hout.
    + done.
    + by rewrite Htm', Htm.
    + intros _. destruct closes as [|c closes'].
      * exists now. split; [by left|].
        cbn [for_each] in Hrun. injection Hrun as <-.
        by apply end_session_closable_data.
      * destruct Hdata as (now' & Hin & Hd); [done|].
        exists now'. split; [by right|].
        rewrite Hd, Htm, (end_session_closable_data start self) by done.
        apply closing_data_again.
Qed.

Lemma closing_data_session_id ov now start records (d : gmap string value) :
  default ∅ ov !! "session_id" = None →
  closing_data ov now start records d !! "session_id" = d !! "session_id".
Proof.
  intros Hov.
  rewrite closing_data_lookup_other;
    [|apply (proj2 (not_avg_key "session_id")); repeat split; discriminate
     |discriminate].
  by apply before_averages_base.
Qed.

(** Without faults, each close writes the workbook again, at the same
    path. *)
Lemma closes_files start calls ov sid (closes : list (datetime * io_faults)) self self' :
  closable start self →
  turn_metrics self = stamped start calls →
  Forall (λ t, well_typed t = true) (valid_turns_of calls.*1) →
  means_defined calls.*1 = true →
  session_data self !! "session_id" = Some sid →
  default ∅ ov !! "start_time" = None →
  default ∅ ov !! "session_id" = None →
  Forall (λ close, ∀ op, close.2 op = None) closes →
  for_each closes (λ close, end_session ov close.1 close.2) self
  = (Returned tt, self') →
  (files self').*1
  = (files self).*1 ++ replicate (length closes) (ExcelPath (output_dir self) sid).
Proof.
  intros Hc Htm Htyped Hdef Hsid Hstart Hovsid Hio. revert self Hc Htm Hsid.
  induction Hio as [|[now io] closes Hnow _ IH]; intros self Hc Htm Hsid Hrun.
  - cbn [for_each] in Hrun. injection Hrun as <-. by rewrite app_nil_r.
  - cbn [for_each fst snd] in Hrun. cbn [snd] in Hnow.
    destruct (end_session ov now io self) as [[[]|e] self1] eqn:E;
      [|by erewrite bind_raised in Hrun].
    erewrite bind_returned in Hrun; [|exact E].
    assert (Hself1 : self1 = exec (end_session ov now io) self)
      by (unfold exec; by rewrite E).
    destruct (end_session_same_session ov now io self) as (Hdir & Htm1 & _).
    rewrite E in Hdir, Htm1. cbn [snd] in Hdir, Htm1.
    assert (Hdefs : means_defined (turn_metrics self) = true)
      by (by rewrite Htm, means_defined_stamped).
    assert (Hsid1 : session_data self1 !! "session_id" = Some sid).
    { rewrite Hself1, (end_session_closable_data start self) by done.
      by rewrite closing_data_session_id. }
    rewrite (IH self1); [| |by rewrite Htm1| |]; try done.
    2:{ rewrite Hself1. by apply closable_closed. }
    destruct (end_session_closable_files start self ov now io Hc Hdefs)
      as (sid' & Hsid' & Hfiles).
    rewrite closing_data_session_id, Hsid in Hsid' by done. injection Hsid' as <-.
    rewrite Hdir, Hself1, Hfiles. unfold exported_files.
    erewrite write_workbook_ok; [|exact Htm|exact Htyped|exact Hdef|exact Hnow].
    rewrite fmap_app. cbn [fmap list_fmap fst replicate length].
    by rewrite <- app_assoc.
Qed.

(** Before a close, a session has written nothing. *)
Lemma session_same_files start calls self : same_files self (session start calls self).
Proof.
  unfold session, add_turns.
  induction calls as [|[r now] calls IH] using rev_ind; simpl.
  - apply start_session_same_files.
  - rewrite foldl_app. simpl. etrans; [exact IH|].
    apply add_turn_metrics_same_files.
Qed.

(** X24: the session of [entrypoint].  The greeting is its only turn,
    and every close (one for each SIGINT or SIGTERM delivered, one for the
    [finally] block) returns.  After a close the Session Summary says 1
    turn, as the recorder counted, and holds the three provider names as
    its [config].  Without faults every close writes the workbook again at
    the same path, so that a later close replaces the export of an earlier
    one. *)
Theorem entrypoint_session
  (stt_provider llm_provider tts_provider : string) (latency : pyfloat)
  (t0 t1 : datetime) (closes : list (datetime * io_faults)) :
  let result := entrypoint_metrics stt_provider llm_provider tts_provider
                                   latency t0 t1 closes in
  let final := result.2 in
  result.1 = Returned tt
  ∧ length (turn_metrics final) = 1%nat
  ∧ (closes ≠ [] →
     session_data final !! "total_turns" = Some (VInt 1)
     ∧ session_data final !! "successful_turns" = Some (VInt 1)
     ∧ session_data final !! "config"
       = Some (VDict [("stt", VStr stt_provider); ("llm", VStr llm_provider);
                      ("tts", VStr tts_provider)]))
  ∧ (Forall (λ close, ∀ op, close.2 op = None) closes →
     (files final).*1
     = replicate (length closes) (ExcelPath "metrics" (VStr (strftime t0)))).
Proof.
  intros result final.
  set (ov := Some (entrypoint_summary stt_provider llm_provider tts_provider)).
  set (calls := [(greeting_turn latency, t1)]).
  set (before := session t0 calls (new_logger "metrics")).
  assert (Htyped : Forall (λ t, well_typed t = true) (valid_turns_of calls.*1)).
  { repeat constructor. }
  assert (Hc : closable t0 before).
  { eapply recorder_closable; [apply session_inv|exact Htyped]. }
  assert (Hdef : means_defined calls.*1 = true).
  { apply averageable_means_defined, averageable_floats.
    intros t metric Hin%list_elem_of_singleton Hm. subst t.
    unfold metrics_to_avg in Hm.
    apply elem_of_cons in Hm as [->|Hm]; [by left|].
    repeat (apply elem_of_cons in Hm as [->|Hm]; [by right|]).
    by apply elem_of_nil in Hm. }
  assert (Hdef' : means_defined (turn_metrics before) = true).
  { unfold before. by rewrite session_turn_metrics, means_defined_stamped. }
  destruct (closes_return t0 ov closes before Hc Hdef')
    as (self' & Hrun & Hc' & Htm & Hdata); [reflexivity..|].
  assert (Hresult : result = (Returned tt, self')).
  { unfold result, entrypoint_metrics.
    erewrite bind_returned; [|reflexivity].
    pose proof (add_turn_outcome t0 [] (exec (start_session t0) (new_logger "metrics"))
                  (greeting_turn latency) t1 (start_inv t0 _)) as Hout.
    change (numeric (total_latency_of (greeting_turn latency))) with true in Hout.
    cbv iota in Hout.
    assert (Hadd : add_turn_metrics (greeting_turn latency) t1
                     (exec (start_session t0) (new_logger "metrics"))
                   = (Returned tt, before)).
    { by rewrite (surjective_pairing (add_turn_metrics _ _ _)), Hout. }
    erewrite bind_returned; [|exact Hadd]. exact Hrun. }
  unfold final. rewrite Hresult. cbn [fst snd].
  split_and!.
  - reflexivity.
  - rewrite Htm. unfold before. by rewrite session_turn_metrics.
  - intros Hne. destruct (Hdata Hne) as (now & _ & ->).
    unfold before at 1 2 3. rewrite !session_turn_metrics, !closing_data_stamped.
    pose proof (session_inv t0 calls (new_logger "metrics")) as Hinv.
    fold before in Hinv.
    split_and!.
    + rewrite closing_data_lookup_other;
        [|apply (proj2 (not_avg_key "total_turns")); repeat split; discriminate
         |discriminate].
      by apply before_averages_overlay.
    + rewrite closing_data_lookup_other;
        [|apply (proj2 (not_avg_key "successful_turns")); repeat split; discriminate
         |discriminate].
      rewrite before_averages_base; [|reflexivity|discriminate..].
      by rewrite (inv_successful _ _ _ Hinv).
    + rewrite closing_data_lookup_other;
        [|apply (proj2 (not_avg_key "config")); repeat split; discriminate
         |discriminate].
      by apply before_averages_overlay.
  - intros Hio.
    rewrite (closes_files t0 calls ov (VStr (strftime t0)) closes before self' Hc
               (session_turn_metrics t0 calls _) Htyped Hdef
               (inv_session_id t0 calls _ (session_inv t0 calls _))
               eq_refl eq_refl Hio Hrun).
    destruct (session_same_files t0 calls (new_logger "metrics")) as [Hdir Hfiles].
    fold before in Hdir, Hfiles. rewrite Hdir, Hfiles. reflexivity.
Qed.
